(** * CustzAI conversation orchestration: a shallow embedding of [App.tsx]

    The development follows the handlers of the [App] component:
    the string primitives the handlers call, the data model of [types.ts],
    the configuration builder [initializeChat], the toggle and model-change
    handlers, the streaming loop and the termination step of
    [handleSendMessage], its [catch]/[finally] blocks, and the debounced
    persistence effect.  React state is threaded explicitly; a JavaScript
    exception is a value of the [exn] type. *)

From Stdlib Require Import String Ascii List Bool ZArith Lia.
From Stdlib Require Import Decimal DecimalString DecimalPos DecimalZ.
From Stdlib Require Import Permutation Sorted.
Import ListNotations.
Local Open Scope list_scope.
Local Open Scope string_scope.

(** ** JavaScript string primitives

    A JavaScript string is a sequence of UTF-16 code units.  Every literal of
    the source is ASCII, and the model keeps code units below 256, one per
    [ascii]. *)

Module JsString.

Definition LF : string := String "010"%char EmptyString.
Definition DQ : string := String "034"%char EmptyString.

(** [s.slice(n)] for [0 <= n]. *)
Fixpoint drop (n : nat) (s : string) : string :=
  match n, s with
  | O, _ => s
  | S _, EmptyString => EmptyString
  | S m, String _ t => drop m t
  end.

(** [s.includes(pat)]. *)
Fixpoint includes (s pat : string) : bool :=
  if prefix pat s then true
  else match s with
       | EmptyString => false
       | String _ t => includes t pat
       end.

(** [s.replace(pat, rep)] with a string pattern: the first occurrence only.
    The replacement used by the source is the empty string, which holds no
    [$] pattern. *)
Fixpoint replace (s pat rep : string) : string :=
  if prefix pat s then rep ++ drop (String.length pat) s
  else match s with
       | EmptyString => EmptyString
       | String c t => String c (replace t pat rep)
       end.

(** [s.split(sep)] for a non-empty separator, as at every call site: scan
    from the left, cut at each occurrence, resume after it.  [skip] counts
    the code units of a matched separator still to be passed over; [cur] is
    the piece being collected. *)
Fixpoint split_from (sep : string) (skip : nat) (cur : string) (s : string)
  : list string :=
  match s with
  | EmptyString => [cur]
  | String c t =>
      match skip with
      | S k => split_from sep k cur t
      | O =>
          if prefix sep s then cur :: split_from sep (String.length sep - 1) "" t
          else split_from sep 0 (cur ++ String c EmptyString) t
      end
  end.

Definition split (s sep : string) : list string := split_from sep 0 "" s.

(** White space and line terminators removed by [trim], among the code units
    below 256: TAB, LF, VT, FF, CR, SP, NBSP. *)
Definition is_space (c : ascii) : bool :=
  let n := nat_of_ascii c in
  (Nat.eqb n 9 || Nat.eqb n 10 || Nat.eqb n 11 || Nat.eqb n 12
   || Nat.eqb n 13 || Nat.eqb n 32 || Nat.eqb n 160)%bool.

Fixpoint trimStart (s : string) : string :=
  match s with
  | EmptyString => EmptyString
  | String c t => if is_space c then trimStart t else s
  end.

Fixpoint trimEnd (s : string) : string :=
  match s with
  | EmptyString => EmptyString
  | String c t =>
      match trimEnd t with
      | EmptyString => if is_space c then EmptyString else String c EmptyString
      | r => String c r
      end
  end.

Definition trim (s : string) : string := trimEnd (trimStart s).

(** Truthiness of a string: non-empty. *)
Definition truthy (s : string) : bool :=
  match s with EmptyString => false | _ => true end.

(** [xs.slice(0, n)] and [xs.slice(-n)] on arrays. *)
Definition slice_to {A} (n : nat) (xs : list A) : list A := firstn n xs.
Definition slice_last {A} (n : nat) (xs : list A) : list A :=
  skipn (List.length xs - n) xs.

(** [s.startsWith(p)]. *)
Definition startsWith (s p : string) : bool := prefix p s.

(** [s.substring(0, n)]. *)
Fixpoint substring_to (n : nat) (s : string) : string :=
  match n, s with
  | O, _ => EmptyString
  | S _, EmptyString => EmptyString
  | S m, String c t => String c (substring_to m t)
  end.

(** [n.toString()] for an integer. *)
Definition toString (z : Z) : string := NilZero.string_of_int (Z.to_int z).

End JsString.
Import JsString.

(** ** Data model ([types.ts]) *)

Module Types.

Inductive AspectRatio := R1_1 | R16_9 | R9_16 | R4_3 | R3_4.

Inductive ModelType :=
| gemini_2_5_flash
| gemini_3_pro_preview
| imagen_4_0_generate_001
| gemini_2_5_flash_image
| gemini_flash_lite_latest
| gemini_1_5_flash.

Definition ModelType_eqb (a b : ModelType) : bool :=
  match a, b with
  | gemini_2_5_flash, gemini_2_5_flash
  | gemini_3_pro_preview, gemini_3_pro_preview
  | imagen_4_0_generate_001, imagen_4_0_generate_001
  | gemini_2_5_flash_image, gemini_2_5_flash_image
  | gemini_flash_lite_latest, gemini_flash_lite_latest
  | gemini_1_5_flash, gemini_1_5_flash => true
  | _, _ => false
  end.

Inductive Sender := user | bot.

(** [groundingMetadata?: any]: the provider's metadata object, kept opaque.
    An object is truthy whenever it is present. *)
Definition GroundingMetadata := string.

(** An optional field is an [option]; [None] is an absent key or one holding
    [undefined].  [groundingMetadata] can also hold [null], which is
    [Some None]. *)
Record Message := mkMessage {
  id : string;
  text : string;
  thinkingText : option string;
  sender : Sender;
  isStreaming : option bool;
  model : option ModelType;
  suggestions : option (list string);
  imageUrl : option string;
  aspectRatio : option AspectRatio;
  uploadedImageUrl : option string;
  groundingMetadata : option (option GroundingMetadata);
  statusText : option string;
  isThinkingMode : option bool
}.

Record ChatSession := mkChatSession {
  cs_id : string;
  cs_title : string;
  cs_messages : list Message;
  cs_timestamp : Z
}.

End Types.
Import Types.

(** JavaScript exceptions and rejected promises. *)
Inductive exn (A : Type) : Type :=
| Ok (a : A)
| Throw (e : string).
Arguments Ok {A} a.
Arguments Throw {A} e.

(** ** The configuration builder ([initializeChat]) *)

Module Config.

Definition SUGGESTIONS : string := "---SUGGESTIONS---".
Definition THOUGHT_OPEN : string := "<THOUGHT_PROCESS>".
Definition THOUGHT_CLOSE : string := "</THOUGHT_PROCESS>".

Definition baseInstruction : string :=
  "You are CustzAI, a helpful and friendly AI assistant.
    
    INSTRUCTION FOR SUGGESTIONS:
    At the very end of your response, you MUST provide 3 short, relevant follow-up actions or questions for the user.
    These suggestions should be like " ++ DQ ++ "offers" ++ DQ ++ " to help them do more with the topic.
    Format:
    ---SUGGESTIONS---
    Suggestion 1
    Suggestion 2
    Suggestion 3

    IMPORTANT: The suggestions MUST be in the SAME LANGUAGE as the user's input/your response.
    
    ARTIFACT INSTRUCTION:
    If the user asks to generate code for a UI, website, or component (HTML/CSS/JS), ALWAYS output a complete, self-contained single HTML file structure within ```html code blocks. Include internal CSS in <style> tags and JS in <script> tags.".

Definition cotInstruction : string :=
  "

[SYSTEM OVERRIDE: CHAIN OF THOUGHT MODE ENABLED]
        
        Mekanisme Kerja:
        Anda harus menjelaskan langkah-langkah penalaran internal Anda SEBELUM memberikan jawaban akhir.
        
        Instruksi Wajib:
        1. JANGAN langsung menjawab pertanyaan inti.
        2. Mulailah dengan berpikir langkah demi langkah (Step-by-Step).
        3. Pecah masalah pengguna menjadi sub-komponen logis.
        4. Analisis setiap variabel dan kemungkinan kesalahan.
        5. Tuliskan proses berpikir ini secara eksplisit sebagai bagian dari " ++ DQ ++ "thought process" ++ DQ ++ ".
        6. Anda WAJIB membungkus proses berpikir Anda di dalam tag XML <THOUGHT_PROCESS> ... </THOUGHT_PROCESS>.
        7. Jawaban akhir diberikan DI LUAR tag tersebut.
        
        Contoh Alur:
        <THOUGHT_PROCESS>
        Pertama, saya identifikasi nilai X. 
        Kedua, saya terapkan rumus Y...
        </THOUGHT_PROCESS>
        Jawabannya adalah Z.
        
        Tujuan: Akurasi Tinggi & Transparansi.".

Inductive Tool := googleSearch.

(** [config.thinkingConfig = { thinkingBudget }]; [None] leaves the key
    unset. *)
Record RequestConfig := mkConfig {
  systemInstruction : string;
  tools : option (list Tool);
  thinkingConfig : option Z
}.

(** [Content] of the provider: a role and the text of one part. *)
Inductive Role := role_user | role_model.
Record Content := mkContent { role : Role; part_text : string }.

(** The object returned by [aiRef.current.chats.create]. *)
Record Chat := mkChat {
  chat_model : ModelType;
  chat_config : RequestConfig;
  chat_history : list Content
}.

Definition chatModels : list ModelType :=
  [gemini_2_5_flash; gemini_3_pro_preview; gemini_flash_lite_latest;
   gemini_1_5_flash].

Definition model_in (m : ModelType) (l : list ModelType) : bool :=
  existsb (ModelType_eqb m) l.

Definition isChatModel (m : ModelType) : bool := model_in m chatModels.

Definition supportsThinking (m : ModelType) : bool :=
  model_in m [gemini_2_5_flash; gemini_3_pro_preview; gemini_flash_lite_latest].

(** The body of [initializeChat] between the early return and the call of
    [chats.create]: the request configuration as a function of the model and
    the three toggles. *)
Definition buildConfig (m : ModelType)
    (isSearchEnabled isThinkingEnabled isTurboEnabled : bool) : RequestConfig :=
  let systemInstruction :=
    if isThinkingEnabled then baseInstruction ++ cotInstruction
    else baseInstruction in
  let tools :=
    if isSearchEnabled && isChatModel m then Some [googleSearch] else None in
  let thinkingConfig :=
    if supportsThinking m then
      if isTurboEnabled then Some 0%Z
      else if isThinkingEnabled then
        Some (if ModelType_eqb m gemini_3_pro_preview then 16000 else 8192)%Z
      else None
    else None in
  mkConfig systemInstruction tools thinkingConfig.

(** [initializeChat(history)]: the new value of [chatRef.current].  With no
    client or a model outside [chatModels] the function returns at once and
    the reference keeps its previous value. *)
Definition initializeChat (aiRef : bool) (m : ModelType)
    (isSearchEnabled isThinkingEnabled isTurboEnabled : bool)
    (history : list Content) (chatRef : option Chat) : option Chat :=
  if negb aiRef || negb (isChatModel m) then chatRef
  else Some (mkChat m
               (buildConfig m isSearchEnabled isThinkingEnabled isTurboEnabled)
               history).

End Config.
Import Config.

(** ** The [App] component: state, collaborators and handlers *)

Module App.

Record File := mkFile {
  file_name : string;
  file_type : string;
  file_bytes : string
}.

Record StagedFile := mkStagedFile { url : string; file : File }.

Record InlineData := mkInlineData { data : string; mimeType : string }.

(** The [thought] property of a provider part, which the streaming loop
    tests for truth and appends to a string. *)
Inductive ThoughtValue := TBool (b : bool) | TStr (s : string).

Definition thought_truthy (v : ThoughtValue) : bool :=
  match v with TBool b => b | TStr s => truthy s end.

Definition thought_to_string (v : ThoughtValue) : string :=
  match v with
  | TBool true => "true"
  | TBool false => "false"
  | TStr s => s
  end.

Record Part := mkPart {
  thought : option ThoughtValue;
  ptext : option string;
  inlineData : option InlineData
}.

Record CandidateContent := mkCandidateContent { parts : option (list Part) }.

Record Candidate := mkCandidate {
  content : option CandidateContent;
  cand_groundingMetadata : option GroundingMetadata
}.

(** A provider response, also the shape of one streamed chunk. *)
Record Response := mkResponse {
  candidates : option (list Candidate);
  rtext : option string
}.

(** The async iterable returned by [sendMessageStream]: the chunks it yields
    and, when [failure] is [Some e], the error it throws after them. *)
Record Stream := mkStream { chunks : list Response; failure : option string }.

Inductive TaskType := IMAGE_GEN | IMAGE_EDIT.

(** Requests of [models.generateContent].  Each carries the variable part of
    the request; the fixed instruction text around it is not kept. *)
Inductive GenRequest :=
| EditRequest (imagePart : InlineData) (task : string)
| OptimizerRequest (prompt : string)
| SuggestionRequest (type : TaskType) (prompt : string).

Inductive MessageContent :=
| TextContent (t : string)
| PartsContent (filePart : InlineData) (t : string).

(** The collaborators of the component: file readers and the provider
    client.  [fileToGenerativePart] installs no error handler, so it has no
    rejecting outcome. *)
Record Env := mkEnv {
  fileToDataURL : File -> exn string;
  fileToGenerativePart : File -> InlineData;
  dataUrlToGenerativePart : string -> exn InlineData;
  generateContent : GenRequest -> exn Response;
  generateImages : string -> AspectRatio -> exn (option string);
  sendMessageStream : Chat -> MessageContent -> exn Stream
}.

(** The [useState] cells and [useRef] boxes of [App], with the list of URLs
    handed to [URL.revokeObjectURL] (oldest first).  [aiRef] records whether
    the provider client exists.  [userLocation] is written by the
    geolocation callback only and read nowhere; it is left out. *)
Record AppState := mkAppState {
  messages : list Message;
  isLoading : bool;
  model : ModelType;
  aspectRatio : AspectRatio;
  isVoiceMode : bool;
  isSearchEnabled : bool;
  isThinkingEnabled : bool;
  isTurboEnabled : bool;
  stagedFile : option StagedFile;
  lastGeneratedImage : option string;
  isSidebarOpen : bool;
  chatHistory : list ChatSession;
  activeChatId : option string;
  aiRef : bool;
  chatRef : option Chat;
  fullTextRef : string;
  revoked : list string
}.

Definition initialState : AppState :=
  {| messages := []; isLoading := false; model := gemini_2_5_flash;
     aspectRatio := R1_1; isVoiceMode := false; isSearchEnabled := false;
     isThinkingEnabled := false; isTurboEnabled := false; stagedFile := None;
     lastGeneratedImage := None; isSidebarOpen := false; chatHistory := [];
     activeChatId := None; aiRef := false; chatRef := None;
     fullTextRef := ""; revoked := [] |}.

Definition setMessages (f : list Message -> list Message) (s : AppState) :=
  mkAppState (f (messages s)) (isLoading s) (model s) (aspectRatio s)
    (isVoiceMode s) (isSearchEnabled s) (isThinkingEnabled s)
    (isTurboEnabled s) (stagedFile s) (lastGeneratedImage s)
    (isSidebarOpen s) (chatHistory s) (activeChatId s) (aiRef s) (chatRef s)
    (fullTextRef s) (revoked s).

Definition setIsLoading (v : bool) (s : AppState) :=
  mkAppState (messages s) v (model s) (aspectRatio s)
    (isVoiceMode s) (isSearchEnabled s) (isThinkingEnabled s)
    (isTurboEnabled s) (stagedFile s) (lastGeneratedImage s)
    (isSidebarOpen s) (chatHistory s) (activeChatId s) (aiRef s) (chatRef s)
    (fullTextRef s) (revoked s).

Definition setModel (v : ModelType) (s : AppState) :=
  mkAppState (messages s) (isLoading s) v (aspectRatio s)
    (isVoiceMode s) (isSearchEnabled s) (isThinkingEnabled s)
    (isTurboEnabled s) (stagedFile s) (lastGeneratedImage s)
    (isSidebarOpen s) (chatHistory s) (activeChatId s) (aiRef s) (chatRef s)
    (fullTextRef s) (revoked s).

Definition setIsSearchEnabled (v : bool) (s : AppState) :=
  mkAppState (messages s) (isLoading s) (model s) (aspectRatio s)
    (isVoiceMode s) v (isThinkingEnabled s)
    (isTurboEnabled s) (stagedFile s) (lastGeneratedImage s)
    (isSidebarOpen s) (chatHistory s) (activeChatId s) (aiRef s) (chatRef s)
    (fullTextRef s) (revoked s).

Definition setIsThinkingEnabled (v : bool) (s : AppState) :=
  mkAppState (messages s) (isLoading s) (model s) (aspectRatio s)
    (isVoiceMode s) (isSearchEnabled s) v
    (isTurboEnabled s) (stagedFile s) (lastGeneratedImage s)
    (isSidebarOpen s) (chatHistory s) (activeChatId s) (aiRef s) (chatRef s)
    (fullTextRef s) (revoked s).

Definition setIsTurboEnabled (v : bool) (s : AppState) :=
  mkAppState (messages s) (isLoading s) (model s) (aspectRatio s)
    (isVoiceMode s) (isSearchEnabled s) (isThinkingEnabled s)
    v (stagedFile s) (lastGeneratedImage s)
    (isSidebarOpen s) (chatHistory s) (activeChatId s) (aiRef s) (chatRef s)
    (fullTextRef s) (revoked s).

Definition setStagedFile (v : option StagedFile) (s : AppState) :=
  mkAppState (messages s) (isLoading s) (model s) (aspectRatio s)
    (isVoiceMode s) (isSearchEnabled s) (isThinkingEnabled s)
    (isTurboEnabled s) v (lastGeneratedImage s)
    (isSidebarOpen s) (chatHistory s) (activeChatId s) (aiRef s) (chatRef s)
    (fullTextRef s) (revoked s).

Definition setLastGeneratedImage (v : option string) (s : AppState) :=
  mkAppState (messages s) (isLoading s) (model s) (aspectRatio s)
    (isVoiceMode s) (isSearchEnabled s) (isThinkingEnabled s)
    (isTurboEnabled s) (stagedFile s) v
    (isSidebarOpen s) (chatHistory s) (activeChatId s) (aiRef s) (chatRef s)
    (fullTextRef s) (revoked s).

Definition setActiveChatId (v : option string) (s : AppState) :=
  mkAppState (messages s) (isLoading s) (model s) (aspectRatio s)
    (isVoiceMode s) (isSearchEnabled s) (isThinkingEnabled s)
    (isTurboEnabled s) (stagedFile s) (lastGeneratedImage s)
    (isSidebarOpen s) (chatHistory s) v (aiRef s) (chatRef s)
    (fullTextRef s) (revoked s).

Definition setChatRef (v : option Chat) (s : AppState) :=
  mkAppState (messages s) (isLoading s) (model s) (aspectRatio s)
    (isVoiceMode s) (isSearchEnabled s) (isThinkingEnabled s)
    (isTurboEnabled s) (stagedFile s) (lastGeneratedImage s)
    (isSidebarOpen s) (chatHistory s) (activeChatId s) (aiRef s) v
    (fullTextRef s) (revoked s).

Definition setFullTextRef (v : string) (s : AppState) :=
  mkAppState (messages s) (isLoading s) (model s) (aspectRatio s)
    (isVoiceMode s) (isSearchEnabled s) (isThinkingEnabled s)
    (isTurboEnabled s) (stagedFile s) (lastGeneratedImage s)
    (isSidebarOpen s) (chatHistory s) (activeChatId s) (aiRef s) (chatRef s)
    v (revoked s).

(** [URL.revokeObjectURL(u)]. *)
Definition revokeObjectURL (u : string) (s : AppState) :=
  mkAppState (messages s) (isLoading s) (model s) (aspectRatio s)
    (isVoiceMode s) (isSearchEnabled s) (isThinkingEnabled s)
    (isTurboEnabled s) (stagedFile s) (lastGeneratedImage s)
    (isSidebarOpen s) (chatHistory s) (activeChatId s) (aiRef s) (chatRef s)
    (fullTextRef s) (revoked s ++ [u])%list.

(** [if (stagedFile) URL.revokeObjectURL(stagedFile.url)]. *)
Definition revokeStaged (s : AppState) : AppState :=
  match stagedFile s with
  | Some f => revokeObjectURL (url f) s
  | None => s
  end.

(** *** Toggle handlers (props of [ChatInput]) *)

Definition onToggleSearch (s : AppState) : AppState :=
  setIsSearchEnabled (negb (isSearchEnabled s)) s.

Definition onToggleThinking (s : AppState) : AppState :=
  let s1 := setIsThinkingEnabled (negb (isThinkingEnabled s)) s in
  if negb (isThinkingEnabled s) then setIsTurboEnabled false s1 else s1.

Definition onToggleTurbo (s : AppState) : AppState :=
  let s1 := setIsTurboEnabled (negb (isTurboEnabled s)) s in
  if negb (isTurboEnabled s) then setIsThinkingEnabled false s1 else s1.

(** *** [handleModelChange] *)

Definition handleModelChange (newModel : ModelType) (s : AppState) : AppState :=
  if negb (ModelType_eqb (model s) newModel) then
    let s := setModel newModel s in
    let s := setMessages (fun _ => []) s in
    let s := setIsLoading false s in
    let s := revokeStaged s in
    let s := setStagedFile None s in
    let s := setLastGeneratedImage None s in
    let s := setActiveChatId None s in
    let newIsChat := model_in newModel chatModels in
    let s :=
      if negb newIsChat then
        setIsTurboEnabled false
          (setIsThinkingEnabled false (setIsSearchEnabled false s))
      else s in
    if ModelType_eqb newModel gemini_1_5_flash then
      setIsTurboEnabled false (setIsThinkingEnabled false s)
    else s
  else s.

(** *** [handleStageImageForEditing]

    [file] is the outcome of [dataUrlToFile] and [objectUrl] the result of
    [URL.createObjectURL]. *)
Definition handleStageImageForEditing (file : exn File) (objectUrl : string)
    (s : AppState) : AppState :=
  match file with
  | Throw _ => s
  | Ok f =>
      setLastGeneratedImage None
        (setModel gemini_2_5_flash_image
           (setStagedFile (Some (mkStagedFile objectUrl f)) s))
  end.

(** *** The effect that rebuilds the chat object when a toggle or the model
    changes *)

Definition toContent (m : Message) : Content :=
  mkContent (match sender m with user => role_user | bot => role_model end)
            (text m).

Definition reinitializeEffect (s : AppState) : AppState :=
  setChatRef
    (initializeChat (aiRef s) (model s) (isSearchEnabled s)
       (isThinkingEnabled s) (isTurboEnabled s)
       (map toContent (messages s)) (chatRef s)) s.

(** *** Updates of one message: [{ ...msg, field: value }] *)

Definition with_text (v : string) (m : Message) : Message :=
  mkMessage (id m) v (thinkingText m) (sender m) (isStreaming m)
    (Types.model m) (suggestions m) (imageUrl m) (Types.aspectRatio m)
    (uploadedImageUrl m) (groundingMetadata m) (statusText m)
    (isThinkingMode m).

Definition with_thinkingText (v : option string) (m : Message) : Message :=
  mkMessage (id m) (text m) v (sender m) (isStreaming m)
    (Types.model m) (suggestions m) (imageUrl m) (Types.aspectRatio m)
    (uploadedImageUrl m) (groundingMetadata m) (statusText m)
    (isThinkingMode m).

Definition with_isStreaming (v : option bool) (m : Message) : Message :=
  mkMessage (id m) (text m) (thinkingText m) (sender m) v
    (Types.model m) (suggestions m) (imageUrl m) (Types.aspectRatio m)
    (uploadedImageUrl m) (groundingMetadata m) (statusText m)
    (isThinkingMode m).

Definition with_suggestions (v : option (list string)) (m : Message) : Message :=
  mkMessage (id m) (text m) (thinkingText m) (sender m) (isStreaming m)
    (Types.model m) v (imageUrl m) (Types.aspectRatio m)
    (uploadedImageUrl m) (groundingMetadata m) (statusText m)
    (isThinkingMode m).

Definition with_imageUrl (v : option string) (m : Message) : Message :=
  mkMessage (id m) (text m) (thinkingText m) (sender m) (isStreaming m)
    (Types.model m) (suggestions m) v (Types.aspectRatio m)
    (uploadedImageUrl m) (groundingMetadata m) (statusText m)
    (isThinkingMode m).

Definition with_uploadedImageUrl (v : option string) (m : Message) : Message :=
  mkMessage (id m) (text m) (thinkingText m) (sender m) (isStreaming m)
    (Types.model m) (suggestions m) (imageUrl m) (Types.aspectRatio m)
    v (groundingMetadata m) (statusText m)
    (isThinkingMode m).

Definition with_groundingMetadata (v : option (option GroundingMetadata))
    (m : Message) : Message :=
  mkMessage (id m) (text m) (thinkingText m) (sender m) (isStreaming m)
    (Types.model m) (suggestions m) (imageUrl m) (Types.aspectRatio m)
    (uploadedImageUrl m) v (statusText m)
    (isThinkingMode m).

Definition with_statusText (v : option string) (m : Message) : Message :=
  mkMessage (id m) (text m) (thinkingText m) (sender m) (isStreaming m)
    (Types.model m) (suggestions m) (imageUrl m) (Types.aspectRatio m)
    (uploadedImageUrl m) (groundingMetadata m) v
    (isThinkingMode m).

Definition with_isThinkingMode (v : option bool) (m : Message) : Message :=
  mkMessage (id m) (text m) (thinkingText m) (sender m) (isStreaming m)
    (Types.model m) (suggestions m) (imageUrl m) (Types.aspectRatio m)
    (uploadedImageUrl m) (groundingMetadata m) (statusText m)
    v.

(** [prev.map(msg => msg.id === botMessageId ? f(msg) : msg)]. *)
Definition updateMessage (botMessageId : string) (f : Message -> Message)
    (prev : list Message) : list Message :=
  map (fun msg => if String.eqb (id msg) botMessageId then f msg else msg) prev.

(** [a || b] on strings. *)
Definition or_else (a b : string) : string := if truthy a then a else b.

(** Truthiness of [string | null | undefined]. *)
Definition truthy_opt (o : option string) : bool :=
  match o with Some t => truthy t | None => false end.

(** *** [generatePostTaskSuggestions] *)

Definition nonblank (l : string) : bool := Nat.ltb 0 (String.length (trim l)).

Definition generatePostTaskSuggestions (env : Env) (client : bool)
    (prompt : string) (type : TaskType) : list string :=
  if negb client then []
  else
    match generateContent env (SuggestionRequest type prompt) with
    | Throw _ => []
    | Ok suggestionResponse =>
        match rtext suggestionResponse with
        | Some t =>
            if truthy t then slice_to 3 (filter nonblank (split t LF)) else []
        | None => []
        end
    end.

(** *** The streaming loop of the chat pathway *)

(** The locals of the loop.  The source also declares [thoughtBuffer]
    ("Buffer to accumulate thought text"), which is never read or written. *)
Record ParserState := mkParserState {
  fullResponseText : string;
  fullThinkingText : string;
  loop_groundingMetadata : option GroundingMetadata;
  isInsideThinkingBlock : bool
}.

Definition parserStart : ParserState := mkParserState "" "" None false.

(** [const [thought, rest] = xs]: missing elements are [undefined]. *)
Definition destructure2 (xs : list string) : option string * option string :=
  (nth_error xs 0, nth_error xs 1).

(** [acc += v] where [v] may be [undefined]. *)
Definition append_js (acc : string) (v : option string) : string :=
  acc ++ match v with Some t => t | None => "undefined" end.

(** The [if (isThinkingEnabled) ... else ...] block applied to the text of
    one part. *)
Definition processText (thinkingOn : bool) (content : string)
    (st : ParserState) : ParserState :=
  if thinkingOn then
    let opened := includes content THOUGHT_OPEN in
    let inside := if opened then true else isInsideThinkingBlock st in
    let processedContent :=
      if opened then replace content THOUGHT_OPEN "" else content in
    if includes content THOUGHT_CLOSE then
      let '(thought, rest) := destructure2 (split processedContent THOUGHT_CLOSE) in
      mkParserState (append_js (fullResponseText st) rest)
                    (append_js (fullThinkingText st) thought)
                    (loop_groundingMetadata st) false
    else if inside then
      mkParserState (fullResponseText st)
                    (fullThinkingText st ++ processedContent)
                    (loop_groundingMetadata st) inside
    else
      mkParserState (fullResponseText st ++ processedContent)
                    (fullThinkingText st)
                    (loop_groundingMetadata st) inside
  else
    mkParserState (fullResponseText st ++ content) (fullThinkingText st)
                  (loop_groundingMetadata st) (isInsideThinkingBlock st).

(** The body of [for (const part of parts)]. *)
Definition processPart (thinkingOn : bool) (st : ParserState) (part : Part)
  : ParserState :=
  match thought part with
  | Some v =>
      if thought_truthy v then
        mkParserState (fullResponseText st)
                      (fullThinkingText st ++ thought_to_string v)
                      (loop_groundingMetadata st) (isInsideThinkingBlock st)
      else
        match ptext part with
        | Some content =>
            if truthy content then processText thinkingOn content st else st
        | None => st
        end
  | None =>
      match ptext part with
      | Some content =>
          if truthy content then processText thinkingOn content st else st
      | None => st
      end
  end.

(** [chunk.candidates?.[0]?.content?.parts || []]. *)
Definition chunkParts (chunk : Response) : list Part :=
  match candidates chunk with
  | Some (c :: _) =>
      match content c with
      | Some cc => match parts cc with Some ps => ps | None => [] end
      | None => []
      end
  | _ => []
  end.

(** [chunk.candidates?.[0]?.groundingMetadata]. *)
Definition chunkGrounding (chunk : Response) : option GroundingMetadata :=
  match candidates chunk with
  | Some (c :: _) => cand_groundingMetadata c
  | _ => None
  end.

Definition processChunk (thinkingOn : bool) (st : ParserState)
    (chunk : Response) : ParserState :=
  let st := fold_left (processPart thinkingOn) (chunkParts chunk) st in
  match chunkGrounding chunk with
  | Some g =>
      mkParserState (fullResponseText st) (fullThinkingText st) (Some g)
                    (isInsideThinkingBlock st)
  | None => st
  end.

Definition currentStatus (thinkingOn searchOn : bool) (st : ParserState)
  : string :=
  let status :=
    if thinkingOn && negb (truthy (fullResponseText st))
       && truthy (fullThinkingText st) then "Reasoning..."
    else if thinkingOn && negb (truthy (fullThinkingText st)) then
      "Allocating logic tokens..."
    else "Typing..." in
  let status := if searchOn then "Analyzing sources..." else status in
  if Nat.ltb 50 (String.length (fullResponseText st)) then "" else status.

(** The [setMessages] call that ends one iteration. *)
Definition chunkUpdate (thinkingOn searchOn shouldUseThinkingMode : bool)
    (st : ParserState) (msg : Message) : Message :=
  with_isThinkingMode (Some shouldUseThinkingMode)
    (with_statusText (Some (currentStatus thinkingOn searchOn st))
       (with_groundingMetadata (Some (loop_groundingMetadata st))
          (with_thinkingText (Some (fullThinkingText st))
             (with_text (fullResponseText st) msg)))).

(** One iteration of [for await (const chunk of result)]. *)
Definition streamStep (botMessageId : string)
    (thinkingOn searchOn shouldUseThinkingMode : bool)
    (acc : ParserState * AppState) (chunk : Response)
  : ParserState * AppState :=
  let st := processChunk thinkingOn (fst acc) chunk in
  let s := setFullTextRef (fullResponseText st) (snd acc) in
  (st, setMessages
         (updateMessage botMessageId
            (chunkUpdate thinkingOn searchOn shouldUseThinkingMode st)) s).

(** *** Termination of the chat pathway: the suggestions split *)

Definition mainText (fullResponse : string) : string :=
  match nth_error (split fullResponse SUGGESTIONS) 0 with
  | Some p => trim p
  | None => ""
  end.

Definition suggestionText (fullResponse : string) : string :=
  match nth_error (split fullResponse SUGGESTIONS) 1 with
  | Some p => if truthy p then trim p else ""
  | None => ""
  end.

Definition parseSuggestions (fullResponse : string) : list string :=
  filter nonblank (split (suggestionText fullResponse) LF).

Definition finalUpdate (shouldUseThinkingMode : bool) (st : ParserState)
    (msg : Message) : Message :=
  let suggestions := parseSuggestions (fullResponseText st) in
  with_isThinkingMode (Some shouldUseThinkingMode)
    (with_statusText None
       (with_suggestions
          (if Nat.ltb 0 (List.length suggestions) then Some suggestions
           else None)
          (with_thinkingText (Some (fullThinkingText st))
             (with_text (mainText (fullResponseText st))
                (with_isStreaming (Some false) msg))))).

(** *** The three pathways of [handleSendMessage]

    Each pathway is the part of the [try] block it occupies: it returns the
    state reached and whether the block completed or threw.  State written
    before a throw stays written. *)

Definition APOLOGY : string :=
  "Maaf, terjadi kesalahan saat memproses permintaan Anda. Silakan coba lagi.".

Definition setStatus (botMessageId status : string) (s : AppState) : AppState :=
  setMessages (updateMessage botMessageId (with_statusText (Some status))) s.

(** [response.candidates && response.candidates[0].content.parts]: reading
    [content] of a missing candidate, or [parts] of a missing content, is a
    [TypeError]. *)
Definition editParts (response : Response) : exn (option (list Part)) :=
  match candidates response with
  | None => Ok None
  | Some [] => Throw "TypeError"
  | Some (c :: _) =>
      match content c with
      | None => Throw "TypeError"
      | Some cc => Ok (parts cc)
      end
  end.

(** The loop over the parts of an edit response: [(imageUrl, description)]. *)
Definition editStep (acc : string * string) (part : Part) : string * string :=
  match inlineData part with
  | Some d => ("data:" ++ mimeType d ++ ";base64," ++ data d, snd acc)
  | None =>
      match ptext part with
      | Some t => if truthy t then (fst acc, snd acc ++ t) else acc
      | None => acc
      end
  end.

Definition imageEditPathway (env : Env) (text botMessageId : string)
    (fileToSend : option File) (continuousEditImage : string)
    (s : AppState) : AppState * exn unit :=
  let s :=
    setStatus botMessageId
      "Locking identity features & analyzing structure..." s in
  match (match fileToSend with
         | Some f => Ok (fileToGenerativePart env f)
         | None => dataUrlToGenerativePart env continuousEditImage
         end) with
  | Throw e => (s, Throw e)
  | Ok imagePart =>
      match generateContent env (EditRequest imagePart text) with
      | Throw e => (s, Throw e)
      | Ok response =>
          match editParts response with
          | Throw e => (s, Throw e)
          | Ok ps =>
              let '(imageUrl, description) :=
                fold_left editStep
                  (match ps with Some l => l | None => [] end) ("", "") in
              let suggestions :=
                generatePostTaskSuggestions env (aiRef s) text IMAGE_EDIT in
              let s :=
                setMessages
                  (updateMessage botMessageId
                     (fun msg =>
                        with_suggestions (Some suggestions)
                          (with_imageUrl
                             (if truthy imageUrl then Some imageUrl else None)
                             (with_text
                                (or_else description "Image edit complete.")
                                (with_isStreaming (Some false) msg))))) s in
              (if truthy imageUrl then setLastGeneratedImage (Some imageUrl) s
               else s, Ok tt)
          end
      end
  end.

Definition imagenPathway (env : Env) (text botMessageId : string)
    (s : AppState) : AppState * exn unit :=
  let s :=
    setStatus botMessageId "Optimizing prompt for Ultra Quality (8k)..." s in
  let enhancedPrompt :=
    match generateContent env (OptimizerRequest text) with
    | Ok optimizerResponse =>
        match rtext optimizerResponse with
        | Some t => if truthy t then trim t else text
        | None => text
        end
    | Throw _ => text
    end in
  let s := setStatus botMessageId "Rendering high-fidelity image..." s in
  match generateImages env enhancedPrompt (aspectRatio s) with
  | Throw e => (s, Throw e)
  | Ok base64 =>
      let imageUrl :=
        match base64 with
        | Some b => if truthy b then Some ("data:image/png;base64," ++ b) else None
        | None => None
        end in
      let suggestions :=
        generatePostTaskSuggestions env (aiRef s) text IMAGE_GEN in
      let s :=
        setMessages
          (updateMessage botMessageId
             (fun msg =>
                with_suggestions (Some suggestions)
                  (with_imageUrl imageUrl
                     (with_text
                        (match imageUrl with
                         | Some _ => "Generated image for: " ++ DQ ++ text ++ DQ
                         | None => "Failed to generate image."
                         end)
                        (with_isStreaming (Some false) msg))))) s in
      (match imageUrl with
       | Some u => setLastGeneratedImage (Some u) s
       | None => s
       end, Ok tt)
  end.

Definition initialStatus (s : AppState) (fileToSend : option File) : string :=
  if isSearchEnabled s then "Searching the web..."
  else if isTurboEnabled s then "Turbo Mode (Instant)..."
  else if isThinkingEnabled s then "Initializing CoT Logic..."
  else match fileToSend with
       | Some _ => "Reading attachment..."
       | None => "Thinking..."
       end.

(** The chat pathway once [sendMessageStream] has returned [result]. *)
Definition consumeStream (botMessageId : string) (shouldUseThinkingMode : bool)
    (result : Stream) (s : AppState) : AppState * exn unit :=
  let thinkingOn := isThinkingEnabled s in
  let searchOn := isSearchEnabled s in
  let '(st, s) :=
    fold_left (streamStep botMessageId thinkingOn searchOn shouldUseThinkingMode)
      (chunks result) (parserStart, s) in
  match failure result with
  | Some e => (s, Throw e)
  | None =>
      (setMessages
         (updateMessage botMessageId (finalUpdate shouldUseThinkingMode st)) s,
       Ok tt)
  end.

Definition chatPathway (env : Env) (chat : Chat) (text botMessageId : string)
    (fileToSend : option File) (shouldUseThinkingMode : bool)
    (s : AppState) : AppState * exn unit :=
  let s := setStatus botMessageId (initialStatus s fileToSend) s in
  let messageContent :=
    match fileToSend with
    | Some f =>
        PartsContent (fileToGenerativePart env f)
                     (or_else text "Analyze this file.")
    | None => TextContent text
    end in
  match sendMessageStream env chat messageContent with
  | Throw e => (s, Throw e)
  | Ok result => consumeStream botMessageId shouldUseThinkingMode result s
  end.

(** The [try] block. *)
Definition tryBlock (env : Env) (text botMessageId : string)
    (fileToSend : option File) (continuousEditImage : option string)
    (shouldUseThinkingMode : bool) (s : AppState) : AppState * exn unit :=
  if negb (aiRef s) then (s, Throw "AI Client not initialized.")
  else if ModelType_eqb (model s) gemini_2_5_flash_image
          && (match fileToSend with Some _ => true | None => false end
              || truthy_opt continuousEditImage) then
    imageEditPathway env text botMessageId fileToSend
      (match continuousEditImage with Some u => u | None => "" end) s
  else if ModelType_eqb (model s) imagen_4_0_generate_001 then
    imagenPathway env text botMessageId s
  else
    match isChatModel (model s), chatRef s with
    | true, Some chat =>
        chatPathway env chat text botMessageId fileToSend
          shouldUseThinkingMode s
    | _, _ => (s, Ok tt)
    end.

(** The [catch] block. *)
Definition catchBlock (botMessageId : string) (s : AppState) : AppState :=
  setMessages
    (updateMessage botMessageId
       (fun msg => with_text APOLOGY (with_isStreaming (Some false) msg))) s.

(** How the promise returned by an async handler settles. *)
Inductive Settled := Resolved | Rejected (e : string).

(** *** [handleSendMessage(text)]

    [t_user] and [t_bot] are the two readings of [Date.now()], for the user
    message and for the assistant placeholder.  The locals of the handler are
    named as in the source.  The handler is followed on its own: no other
    handler runs while it awaits a collaborator. *)

Definition fileToSend (s : AppState) : option File :=
  option_map file (stagedFile s).

(** [await fileToDataURL(fileToSend)], when a file is staged. *)
Definition readUpload (env : Env) (s : AppState) : exn (option string) :=
  match fileToSend s with
  | Some f =>
      match fileToDataURL env f with
      | Ok dataUrl => Ok (Some dataUrl)
      | Throw e => Throw e
      end
  | None => Ok None
  end.

Definition userMessage (t_user : Z) (text : string) (uploaded : option string)
  : Message :=
  mkMessage (toString t_user) text None user None None None None None
            uploaded None None None.

Definition shouldUseThinkingMode (s : AppState) : bool :=
  isThinkingEnabled s && supportsThinking (model s).

Definition botMessageId (t_bot : Z) : string := toString (t_bot + 1).

Definition initialBotMessage (t_bot : Z) (s : AppState) : Message :=
  mkMessage (botMessageId t_bot) "" (Some "") bot (Some true)
            (Some (model s)) None None
            (if ModelType_eqb (model s) imagen_4_0_generate_001
             then Some (aspectRatio s) else None)
            None None (Some "Initializing...")
            (Some (shouldUseThinkingMode s)).

(** [!stagedFile && lastGeneratedImage]. *)
Definition continuousEditImage (s : AppState) : option string :=
  match stagedFile s with
  | Some _ => None
  | None => lastGeneratedImage s
  end.

(** The statements between the guard and the [try] block. *)
Definition enterTry (t_user t_bot : Z) (text : string)
    (uploaded : option string) (s : AppState) : AppState :=
  let s1 := setFullTextRef "" (setIsLoading true s) in
  let s2 :=
    setMessages
      (fun prev =>
         (prev ++ [userMessage t_user text uploaded;
                   initialBotMessage t_bot s])%list) s1 in
  setStagedFile None (revokeStaged s2).

(** [catch] when the block threw, then [finally]. *)
Definition settle (botMessageId : string) (res : AppState * exn unit)
  : AppState :=
  setIsLoading false
    match snd res with
    | Ok _ => fst res
    | Throw _ => catchBlock botMessageId (fst res)
    end.

Definition handleSendMessage (env : Env) (t_user t_bot : Z) (text : string)
    (s : AppState) : AppState * Settled :=
  if isLoading s
     || (negb (truthy (trim text))
         && match stagedFile s with Some _ => false | None => true end)
  then (s, Resolved)
  else
    match readUpload env s with
    | Throw e => (s, Rejected e)
    | Ok uploaded =>
        (settle (botMessageId t_bot)
           (tryBlock env text (botMessageId t_bot) (fileToSend s)
              (continuousEditImage s) (shouldUseThinkingMode s)
              (enterTry t_user t_bot text uploaded s)),
         Resolved)
    end.

(** *** Handlers of the staged file *)

(** [handleFileChange(file)]; [objectUrl] is the result of
    [URL.createObjectURL]. *)
Definition handleFileChange (f : File) (objectUrl : string) (s : AppState)
  : AppState :=
  setLastGeneratedImage None
    (setStagedFile (Some (mkStagedFile objectUrl f)) s).

Definition handleClearStagedFile (s : AppState) : AppState :=
  setStagedFile None (revokeStaged s).

(** *** The effect that records the timeline in the session list

    [json] is [JSON.stringify] on a message list; [t_id] and [t_ts] are the
    readings of [Date.now()] for the id and for the timestamp. *)

Definition setChatHistory (f : list ChatSession -> list ChatSession)
    (s : AppState) :=
  mkAppState (messages s) (isLoading s) (model s) (aspectRatio s)
    (isVoiceMode s) (isSearchEnabled s) (isThinkingEnabled s)
    (isTurboEnabled s) (stagedFile s) (lastGeneratedImage s)
    (isSidebarOpen s) (f (chatHistory s)) (activeChatId s) (aiRef s)
    (chatRef s) (fullTextRef s) (revoked s).

Definition setIsVoiceMode (v : bool) (s : AppState) :=
  mkAppState (messages s) (isLoading s) (model s) (aspectRatio s)
    v (isSearchEnabled s) (isThinkingEnabled s)
    (isTurboEnabled s) (stagedFile s) (lastGeneratedImage s)
    (isSidebarOpen s) (chatHistory s) (activeChatId s) (aiRef s) (chatRef s)
    (fullTextRef s) (revoked s).

Definition setIsSidebarOpen (v : bool) (s : AppState) :=
  mkAppState (messages s) (isLoading s) (model s) (aspectRatio s)
    (isVoiceMode s) (isSearchEnabled s) (isThinkingEnabled s)
    (isTurboEnabled s) (stagedFile s) (lastGeneratedImage s)
    v (chatHistory s) (activeChatId s) (aiRef s) (chatRef s)
    (fullTextRef s) (revoked s).

Definition isUser (m : Message) : bool :=
  match sender m with user => true | bot => false end.

(** [t.substring(0, 40) + (t.length > 40 ? '...' : '')]. *)
Definition sessionTitle (t : string) : string :=
  substring_to 40 t ++ (if Nat.ltb 40 (String.length t) then "..." else "").

(** The updater passed to [setChatHistory] when a session is active. *)
Definition updateSession (json : list Message -> string) (t_ts : Z)
    (activeId : string) (msgs : list Message) (prev : list ChatSession)
  : list ChatSession :=
  match find (fun s => String.eqb (cs_id s) activeId) prev with
  | Some currentSession =>
      if String.eqb (json (cs_messages currentSession)) (json msgs) then prev
      else
        map (fun session =>
               if String.eqb (cs_id session) activeId
               then mkChatSession (cs_id session) (cs_title session) msgs t_ts
               else session) prev
  | None =>
      map (fun session =>
             if String.eqb (cs_id session) activeId
             then mkChatSession (cs_id session) (cs_title session) msgs t_ts
             else session) prev
  end.

Definition recordTurnEffect (json : list Message -> string) (t_id t_ts : Z)
    (s : AppState) : AppState :=
  if isLoading s then s
  else
    match filter isUser (messages s) with
    | [] => s
    | first :: _ =>
        if truthy_opt (activeChatId s) then
          setChatHistory
            (updateSession json t_ts
               (match activeChatId s with Some a => a | None => "" end)
               (messages s)) s
        else
          let newSession :=
            mkChatSession (toString t_id) (sessionTitle (text first))
                          (messages s) t_ts in
          setActiveChatId (Some (cs_id newSession))
            (setChatHistory (fun prev => (prev ++ [newSession])%list) s)
    end.

(** *** [handleLoadChat] and [handleNewChat] *)

Definition handleLoadChat (sessionId : string) (s : AppState) : AppState :=
  match find (fun c => String.eqb (cs_id c) sessionId) (chatHistory s) with
  | Some session =>
      let s1 :=
        setActiveChatId (Some (cs_id session))
          (setMessages (fun _ => cs_messages session) s) in
      if aiRef s && isChatModel (model s) then
        setChatRef
          (initializeChat (aiRef s) (model s) (isSearchEnabled s)
             (isThinkingEnabled s) (isTurboEnabled s)
             (map toContent (cs_messages session)) (chatRef s)) s1
      else s1
  | None => s
  end.

Definition handleNewChat (s : AppState) : AppState :=
  let s1 :=
    setLastGeneratedImage None
      (setStagedFile None
         (setActiveChatId None (setMessages (fun _ => []) s))) in
  setChatRef
    (initializeChat (aiRef s) (model s) (isSearchEnabled s)
       (isThinkingEnabled s) (isTurboEnabled s) [] (chatRef s)) s1.

(** *** The effect run once on mount

    [stored] is the outcome of [localStorage.getItem('chatHistory')], [parse]
    is [JSON.parse] at the type of the session list, [apiKey] tells whether
    [process.env.API_KEY] is set and [client] is the outcome of the
    constructor of the provider client. *)

Definition setAiRef (v : bool) (s : AppState) :=
  mkAppState (messages s) (isLoading s) (model s) (aspectRatio s)
    (isVoiceMode s) (isSearchEnabled s) (isThinkingEnabled s)
    (isTurboEnabled s) (stagedFile s) (lastGeneratedImage s)
    (isSidebarOpen s) (chatHistory s) (activeChatId s) v (chatRef s)
    (fullTextRef s) (revoked s).

Definition mountEffect (stored : exn (option string))
    (parse : string -> exn (list ChatSession)) (apiKey : bool)
    (client : exn unit) (s : AppState) : AppState :=
  let s1 :=
    match stored with
    | Ok (Some storedHistory) =>
        if truthy storedHistory then
          match parse storedHistory with
          | Ok h => setChatHistory (fun _ => h) s
          | Throw _ => s
          end
        else s
    | Ok None => s
    | Throw _ => s
    end in
  if negb apiKey then s1
  else
    match client with
    | Ok _ => setAiRef true s1
    | Throw _ => s1
    end.

(** *** The [onSend] prop given to [LiveVoiceView] *)

Definition onVoiceSend (env : Env) (t_user t_bot : Z) (text : string)
    (s : AppState) : AppState :=
  setIsVoiceMode false
    (if truthy text then fst (handleSendMessage env t_user t_bot text s)
     else s).

End App.
Import App.

(** ** [Sidebar] *)

Module Sidebar.

(** [[...history].sort((a, b) => b.timestamp - a.timestamp)]: the stable sort
    by decreasing timestamp, written as an insertion sort on a copy. *)
Fixpoint insertSession (x : ChatSession) (l : list ChatSession)
  : list ChatSession :=
  match l with
  | [] => [x]
  | y :: r =>
      if Z.leb (cs_timestamp y) (cs_timestamp x) then x :: y :: r
      else y :: insertSession x r
  end.

Definition sortedHistory (history : list ChatSession) : list ChatSession :=
  fold_right insertSession [] history.

(** [onClose] as [App] passes it. *)
Definition onClose (s : AppState) : AppState := setIsSidebarOpen false s.

Definition handleNewChatClick (s : AppState) : AppState :=
  onClose (handleNewChat s).

Definition handleLoadChatClick (sessionId : string) (s : AppState) : AppState :=
  if match activeChatId s with
     | Some a => String.eqb sessionId a
     | None => false
     end
  then onClose s
  else onClose (handleLoadChat sessionId s).

End Sidebar.

(** ** [ChatInput] *)

Module ChatInput.

Record InputState := mkInputState {
  inputValue : string;
  isEnhancing : bool;
  isEnhanced : bool
}.

Definition isThinkingSupported (m : ModelType) : bool :=
  model_in m [gemini_2_5_flash; gemini_3_pro_preview; gemini_flash_lite_latest].

(** [handleSend]: the text handed to [onSendMessage], when the call is made,
    and the state of the input afterwards. *)
Definition handleSend (stagedFile : option StagedFile) (isLoading : bool)
    (i : InputState) : option string * InputState :=
  if (truthy (trim (inputValue i))
      || match stagedFile with Some _ => true | None => false end)
     && negb isLoading
  then (Some (inputValue i), mkInputState "" (isEnhancing i) false)
  else (None, i).

Definition handleInputChange (value : string) (i : InputState) : InputState :=
  mkInputState value (isEnhancing i)
               (if isEnhanced i then false else isEnhanced i).

(** [handleEnhancePrompt]; [apiKey] tells whether the key is configured and
    [reply] is the outcome of the provider call. *)
Definition handleEnhancePrompt (apiKey : bool) (reply : exn (option string))
    (i : InputState) : InputState :=
  if negb (truthy (trim (inputValue i))) || isEnhancing i then i
  else
    let i1 := mkInputState (inputValue i) true (isEnhanced i) in
    let i2 :=
      if negb apiKey then i1
      else
        match reply with
        | Throw _ => i1
        | Ok r =>
            match r with
            | Some t =>
                if truthy t then mkInputState (trim t) (isEnhancing i1) true
                else i1
            | None => i1
            end
        end in
    mkInputState (inputValue i2) false (isEnhanced i2).

(** The three toggle buttons: a disabled button fires no click. *)
Definition clickSearch (s : AppState) : AppState :=
  if isChatModel (model s) then onToggleSearch s else s.

Definition clickThinking (s : AppState) : AppState :=
  if isThinkingSupported (model s) then onToggleThinking s else s.

Definition clickTurbo (s : AppState) : AppState :=
  if isThinkingSupported (model s) then onToggleTurbo s else s.

End ChatInput.

(** ** The debounced persistence effect

    The body of the timer callback of the effect on [chatHistory].  The
    browser's [localStorage] and [JSON.stringify] are collaborators, taken as
    parameters; the computation runs in a monad that threads the world (the
    component state, the store, the console) and carries exceptions, so that
    [try]/[catch] is a combinator. *)

Module Persistence.

Inductive LogLevel := warn | error.

Section Effect.

Variable Store : Type.

(** [JSON.stringify] on a session list. *)
Variable stringify : list ChatSession -> string.

(** [localStorage.setItem(key, value)]: the store after the write, or the
    exception the browser raises (quota exceeded). *)
Variable setItem : string -> string -> Store -> exn Store.

Record World := mkWorld {
  app : AppState;
  store : Store;
  console : list (LogLevel * string)
}.

Definition M (A : Type) : Type := World -> World * exn A.

Definition ret {A} (a : A) : M A := fun w => (w, Ok a).

Definition bind {A B} (m : M A) (k : A -> M B) : M B :=
  fun w =>
    match m w with
    | (w', Ok a) => k a w'
    | (w', Throw e) => (w', Throw e)
    end.

(** [try { body } catch (e) { handler(e) }]. *)
Definition try_catch {A} (body : M A) (handler : string -> M A) : M A :=
  fun w =>
    match body w with
    | (w', Ok a) => (w', Ok a)
    | (w', Throw e) => handler e w'
    end.

Definition localStorage_setItem (key value : string) : M unit :=
  fun w =>
    match setItem key value (store w) with
    | Ok st => (mkWorld (app w) st (console w), Ok tt)
    | Throw e => (w, Throw e)
    end.

Definition console_log (level : LogLevel) (line : string) : M unit :=
  fun w => (mkWorld (app w) (store w) (console w ++ [(level, line)])%list, Ok tt).

Definition read_chatHistory : M (list ChatSession) :=
  fun w => (w, Ok (chatHistory (app w))).

(** [url?.startsWith('data:')]. *)
Definition isDataUrl (u : option string) : bool :=
  match u with Some v => startsWith v "data:" | None => false end.

(** The message map of [safeHistory]. *)
Definition cleanMsg (msg : Message) : Message :=
  let m1 := if isDataUrl (imageUrl msg) then with_imageUrl None msg else msg in
  if isDataUrl (uploadedImageUrl m1) then with_uploadedImageUrl None m1 else m1.

Definition safeHistory (h : list ChatSession) : list ChatSession :=
  map (fun session =>
         mkChatSession (cs_id session) (cs_title session)
                       (map cleanMsg (cs_messages session))
                       (cs_timestamp session)) h.

(** [const { imageUrl, uploadedImageUrl, ...rest } = m; return rest]. *)
Definition restOf (m : Message) : Message :=
  with_uploadedImageUrl None (with_imageUrl None m).

Definition emergencyHistory (h : list ChatSession) : list ChatSession :=
  map (fun s =>
         mkChatSession (cs_id s) (cs_title s) (map restOf (cs_messages s))
                       (cs_timestamp s)) (slice_last 5 h).

Definition saveEffect : M unit :=
  try_catch
    (bind read_chatHistory (fun h =>
       localStorage_setItem "chatHistory" (stringify (safeHistory h))))
    (fun _ =>
       bind (console_log warn
               "Failed to save chat history (Quota Exceeded). Trimming history...")
         (fun _ =>
            try_catch
              (bind read_chatHistory (fun h =>
                 localStorage_setItem "chatHistory"
                   (stringify (emergencyHistory h))))
              (fun _ => console_log error "Critical storage failure"))).

End Effect.

Arguments mkWorld {Store}.
Arguments app {Store}.
Arguments store {Store}.
Arguments console {Store}.

(** A store with a byte quota over one value, and a serializer that keeps
    the payload-bearing fields, to run the effect on. *)
Definition QuotaStore : Type := nat * list (string * string).

Definition quota_setItem (key value : string) (st : QuotaStore) : exn QuotaStore :=
  if Nat.leb (String.length value) (fst st)
  then Ok (fst st,
           (key, value)
             :: filter (fun kv => negb (String.eqb (fst kv) key)) (snd st))
  else Throw "QuotaExceededError".

Definition field (o : option string) : string :=
  match o with Some v => v | None => "" end.

Definition plain_stringify (h : list ChatSession) : string :=
  String.concat ";"
    (map (fun s =>
            cs_id s ++ ":" ++
            String.concat "," (map (fun m => text m ++ "|" ++ field (imageUrl m)
                                      ++ "|" ++ field (uploadedImageUrl m))
                            (cs_messages s))) h).

End Persistence.

(** ** Vocabulary of the properties *)

Module Props.

(** The operations on the toggle state that the interface offers. *)
Inductive ToggleOp :=
| ToggleThinking
| ToggleTurbo
| ToggleSearch
| ChangeModel (newModel : ModelType)
| StageImageForEditing (file : exn File) (objectUrl : string).

Definition applyOp (s : AppState) (op : ToggleOp) : AppState :=
  match op with
  | ToggleThinking => onToggleThinking s
  | ToggleTurbo => onToggleTurbo s
  | ToggleSearch => onToggleSearch s
  | ChangeModel m => handleModelChange m s
  | StageImageForEditing f u => handleStageImageForEditing f u s
  end.

Definition runOps (ops : list ToggleOp) (s : AppState) : AppState :=
  fold_left applyOp ops s.

Definition bothOn (s : AppState) : bool :=
  isThinkingEnabled s && isTurboEnabled s.

(** A chunk made of one plain-text part. *)
Definition textChunk (t : string) : Response :=
  mkResponse
    (Some [mkCandidate
             (Some (mkCandidateContent (Some [mkPart None (Some t) None])))
             None])
    None.

(** The accumulators after a sequence of chunks. *)
Definition parseStream (thinkingOn : bool) (cs : list Response) : ParserState :=
  fold_left (processChunk thinkingOn) cs parserStart.

Definition accumulators (st : ParserState) : string * string :=
  (fullThinkingText st, fullResponseText st).

(** Sample collaborators: a provider whose chat stream is [result] and whose
    other calls fail, and a reader that returns a fixed data URL. *)
Definition sampleEnv (result : exn Stream) : Env :=
  mkEnv (fun _ => Ok "data:image/png;base64,AAAA")
        (fun f => mkInlineData (file_bytes f) (file_type f))
        (fun _ => Throw "fetch failed")
        (fun _ => Throw "provider error")
        (fun _ _ => Throw "provider error")
        (fun _ _ => result).

(** A state with a provider client and the chat object the effect builds. *)
Definition readyState (m : ModelType) (search thinking turbo : bool) : AppState :=
  reinitializeEffect
    (mkAppState [] false m R1_1 false search thinking turbo None None false []
                None true None "" []).

(** The timeline while a first turn is in flight. *)
Definition inFlightTimeline : list Message :=
  [mkMessage "1700000000000" "Hello" None user None None None None None None
             None None None;
   mkMessage "1700000000001" "" (Some "") bot (Some true)
             (Some gemini_2_5_flash) None None None None None
             (Some "Initializing...") (Some false)].

Definition busyState : AppState :=
  setIsLoading true
    (setMessages (fun _ => inFlightTimeline)
       (readyState gemini_2_5_flash false false false)).

(** A final answer accumulator with four suggestion lines. *)
Definition fourSuggestions : string :=
  "Answer." ++ LF ++ "---SUGGESTIONS---" ++ LF
  ++ "A" ++ LF ++ "B" ++ LF ++ "C" ++ LF ++ "D".

(** The example of the specification. *)
Definition parisAnswer : string :=
  "Paris is the capital." ++ LF ++ "---SUGGESTIONS---" ++ LF
  ++ "Tell me more" ++ LF ++ "Show a map" ++ LF ++ LF.

(** The assistant placeholder of a turn. *)
Definition placeholder : Message :=
  mkMessage "1700000000001" "" (Some "") bot (Some true)
            (Some gemini_2_5_flash) None None None None None
            (Some "Initializing...") (Some false).

(** Six sessions of one message each, for the quota store. *)
Definition sampleSession (n : string) : ChatSession :=
  mkChatSession n "hi"
    [mkMessage n "hi" None user None None None
               (Some "https://example.org/a.png") None
               (Some "data:image/png;base64,AAAA") None None None]
    0%Z.

Definition sixSessions : list ChatSession :=
  map sampleSession ["1"; "2"; "3"; "4"; "5"; "6"].

Definition sampleWorld (capacity : nat) : Persistence.World Persistence.QuotaStore :=
  Persistence.mkWorld
    (mkAppState [] false gemini_2_5_flash R1_1 false false false false None
                None false sixSessions None true None "" [])
    (capacity, [("chatHistory", "old")]) [].

Definition keeps_id (f : Message -> Message) : Prop :=
  forall m, id (f m) = id m.

(** The update of the [catch] block on one message. *)
Definition apologize (msg : Message) : Message :=
  with_text APOLOGY (with_isStreaming (Some false) msg).

(** A stream that delivers a reasoning block and the start of an answer,
    then fails. *)
Definition failingStream : Stream :=
  mkStream [textChunk "<THOUGHT_PROCESS>plan</THOUGHT_PROCESS>Partial answer"]
           (Some "network error").

(** The state after a turn on [failingStream], reasoning on. *)
Definition failedTurn : AppState :=
  fst (handleSendMessage (sampleEnv (Ok failingStream)) 1700000000000
         1700000000000 "Hello" (readyState gemini_2_5_flash false true false)).

(** The accumulated answer and reasoning are both to be seen in [m]. *)
Definition partial_content_visible (acc : ParserState) (m : Message) : Prop :=
  includes (text m) (fullResponseText acc) = true
  /\ thinkingText m = Some (fullThinkingText acc).

(** A fragment that holds no [<], hence no part of a tag. *)
Definition plain (x : string) : Prop := includes x "<" = false.

Definition joinAll (l : list string) : string := fold_right append "" l.

(** The accumulators after a sequence of plain-text fragments, one chunk
    each. *)
Definition parseFragments (thinkingOn : bool) (frags : list string)
  : string * string :=
  accumulators (parseStream thinkingOn (map textChunk frags)).

(** [st'] holds the accumulators of [st], each with text appended. *)
Definition grows (st st' : ParserState) : Prop :=
  exists a b,
    fullResponseText st' = fullResponseText st ++ a
    /\ fullThinkingText st' = fullThinkingText st ++ b.

(** The text the tag branch of the loop works on. *)
Definition processedContent (content : string) : string :=
  if includes content THOUGHT_OPEN then replace content THOUGHT_OPEN ""
  else content.

(** A message update that leaves the identity of the message alone. *)
Definition keeps_identity (f : Message -> Message) : Prop :=
  forall m,
    id (f m) = id m /\ sender (f m) = sender m
    /\ uploadedImageUrl (f m) = uploadedImageUrl m.

(** [l'] is [l] position by position, with the same ids, senders and
    uploads, and equal outside the messages whose id is [b]. *)
Definition touchesOnly (b : string) (l l' : list Message) : Prop :=
  Forall2 (fun m m' =>
             id m' = id m /\ sender m' = sender m
             /\ uploadedImageUrl m' = uploadedImageUrl m
             /\ (id m <> b -> m' = m)) l l'.

(** The cells a turn does not write, apart from the timeline, the loading
    flag, the staged file, the last generated image and [fullTextRef]. *)
Definition sameSettings (s s' : AppState) : Prop :=
  model s' = model s /\ aspectRatio s' = aspectRatio s
  /\ isVoiceMode s' = isVoiceMode s
  /\ isSearchEnabled s' = isSearchEnabled s
  /\ isThinkingEnabled s' = isThinkingEnabled s
  /\ isTurboEnabled s' = isTurboEnabled s
  /\ isSidebarOpen s' = isSidebarOpen s
  /\ chatHistory s' = chatHistory s
  /\ activeChatId s' = activeChatId s
  /\ aiRef s' = aiRef s /\ chatRef s' = chatRef s.

(** The URLs revoked when a turn starts. *)
Definition stagedUrls (s : AppState) : list string :=
  match stagedFile s with Some f => [url f] | None => [] end.

(** What a turn leaves alone, the last generated image apart. *)
Definition turnFrame (s s' : AppState) : Prop :=
  sameSettings s s' /\ isLoading s' = isLoading s
  /\ stagedFile s' = stagedFile s /\ revoked s' = revoked s.

(** A state on the image-editing model with nothing to edit. *)
Definition editModelIdle : AppState :=
  mkAppState [] false gemini_2_5_flash_image R1_1 false false false false
             None None false [] None true None "" [].

(** A state whose provider client was never created. *)
Definition noClientState : AppState :=
  mkAppState [] false gemini_2_5_flash R1_1 false false false false
             None None false [] None false None "" [].

(** A stream that ends normally after a reasoning block, an answer and a
    suggestions block. *)
Definition completeStream : Stream :=
  mkStream
    [textChunk "<THOUGHT_PROCESS>plan</THOUGHT_PROCESS>Paris.";
     textChunk (LF ++ "---SUGGESTIONS---" ++ LF ++ "More" ++ LF ++ "Map")]
    None.

(** A state on the image-generation model, with a provider client. *)
Definition imagenReady : AppState :=
  mkAppState [] false imagen_4_0_generate_001 R16_9 false false false false
             None (Some "data:image/png;base64,OLD") false [] None true None
             "" [].

(** A provider that returns no image, and one that returns the bytes
    [QUJD] for any prompt; every other call fails. *)
Definition imagenEnv (artifact : option string) : Env :=
  mkEnv (fun _ => Ok "data:image/png;base64,AAAA")
        (fun f => mkInlineData (file_bytes f) (file_type f))
        (fun _ => Throw "fetch failed")
        (fun _ => Throw "provider error")
        (fun _ _ => Ok artifact)
        (fun _ _ => Throw "provider error").

(** A state on the image-editing model with a staged file. *)
Definition editReady : AppState :=
  mkAppState [] false gemini_2_5_flash_image R1_1 false false false false
             (Some (mkStagedFile "blob:7" (mkFile "a.png" "image/png" "AAAA")))
             None false [] None true None "" [].

(** A provider whose edit call returns [response]. *)
Definition editEnv (response : Response) : Env :=
  mkEnv (fun _ => Ok "data:image/png;base64,AAAA")
        (fun f => mkInlineData (file_bytes f) (file_type f))
        (fun _ => Throw "fetch failed")
        (fun req => match req with
                    | EditRequest _ _ => Ok response
                    | _ => Throw "provider error"
                    end)
        (fun _ _ => Throw "provider error")
        (fun _ _ => Throw "provider error").

(** What can happen to the component: the clicks the interface allows, the
    handlers and the effects. *)
Inductive UiEvent :=
| Mount (stored : exn (option string))
        (parse : string -> exn (list ChatSession)) (apiKey : bool)
        (client : exn unit)
| ClickSearch
| ClickThinking
| ClickTurbo
| SelectModel (newModel : ModelType)
| StageImage (file : exn File) (objectUrl : string)
| PickFile (f : File) (objectUrl : string)
| ClearFile
| NewChat
| LoadChat (sessionId : string)
| Send (env : Env) (t_user t_bot : Z) (text : string)
| VoiceSend (env : Env) (t_user t_bot : Z) (text : string)
| RecordTurn (json : list Message -> string) (t_id t_ts : Z)
| Reinitialize.

Definition uiStep (s : AppState) (e : UiEvent) : AppState :=
  match e with
  | Mount stored parse apiKey client => mountEffect stored parse apiKey client s
  | ClickSearch => ChatInput.clickSearch s
  | ClickThinking => ChatInput.clickThinking s
  | ClickTurbo => ChatInput.clickTurbo s
  | SelectModel m => handleModelChange m s
  | StageImage f u => handleStageImageForEditing f u s
  | PickFile f u => handleFileChange f u s
  | ClearFile => handleClearStagedFile s
  | NewChat => Sidebar.handleNewChatClick s
  | LoadChat i => Sidebar.handleLoadChatClick i s
  | Send env t_user t_bot text => fst (handleSendMessage env t_user t_bot text s)
  | VoiceSend env t_user t_bot text => onVoiceSend env t_user t_bot text s
  | RecordTurn json t_id t_ts => recordTurnEffect json t_id t_ts s
  | Reinitialize => reinitializeEffect s
  end.

Definition uiRun (events : list UiEvent) : AppState :=
  fold_left uiStep events initialState.

(** Reasoning and turbo are on only where the model has a reasoning mode,
    and never together. *)
Definition togglesFitModel (s : AppState) : Prop :=
  (model s = gemini_1_5_flash ->
   isThinkingEnabled s = false /\ isTurboEnabled s = false)
  /\ bothOn s = false.

(** A session after an update that may rewrite its messages and timestamp
    only. *)
Definition sessionKept (active : option string) (c c' : ChatSession) : Prop :=
  cs_id c' = cs_id c /\ cs_title c' = cs_title c
  /\ (Some (cs_id c) <> active -> c' = c).

Definition timestampOrder (a b : ChatSession) : Prop :=
  (cs_timestamp b <= cs_timestamp a)%Z.

Definition hasTimestamp (t : Z) (c : ChatSession) : bool :=
  Z.eqb (cs_timestamp c) t.

(** No image field of the message is an inline [data:] URL. *)
Definition noInlineImage (m : Message) : Prop :=
  Persistence.isDataUrl (imageUrl m) = false
  /\ Persistence.isDataUrl (uploadedImageUrl m) = false.

(** An image field after sanitizing: kept, unless it is an inline [data:]
    URL. *)
Definition keptUrl (u : option string) : option string :=
  match u with
  | Some v => if prefix "data:" v then None else Some v
  | None => None
  end.

(** [m'] is [m] field for field, its two image fields sanitized. *)
Definition sanitizedFrom (m m' : Message) : Prop :=
  m' = mkMessage (id m) (text m) (thinkingText m) (sender m) (isStreaming m)
         (Types.model m) (suggestions m) (keptUrl (imageUrl m))
         (Types.aspectRatio m) (keptUrl (uploadedImageUrl m))
         (groundingMetadata m) (statusText m) (isThinkingMode m).

(** [m] field for field, without its two image fields. *)
Definition withoutImages (m : Message) : Message :=
  mkMessage (id m) (text m) (thinkingText m) (sender m) (isStreaming m)
    (Types.model m) (suggestions m) None (Types.aspectRatio m) None
    (groundingMetadata m) (statusText m) (isThinkingMode m).

(** The sessions the sidebar shows first: the [n] with the latest
    timestamps. *)
Definition mostRecent (n : nat) (h : list ChatSession) : list ChatSession :=
  firstn n (Sidebar.sortedHistory h).

(** Six sessions created at times 1 to 6, and the list after the first one
    was opened again and a turn recorded in it at time 1002. *)
Definition datedSession (n : string) (t : Z) : ChatSession :=
  mkChatSession n "hi"
    [mkMessage n "hi" None user None None None None None None None None None]
    t.

Definition datedSessions : list ChatSession :=
  [datedSession "1" 1; datedSession "2" 2; datedSession "3" 3;
   datedSession "4" 4; datedSession "5" 5; datedSession "6" 6].

Definition textsOf (ms : list Message) : string :=
  String.concat "," (map text ms).

Definition reopenedState : AppState :=
  recordTurnEffect textsOf 1001 1002
    (setMessages
       (fun prev =>
          (prev ++ [mkMessage "1001" "more" None user None None None None
                      None None None None None])%list)
       (handleLoadChat "1"
          (setChatHistory (fun _ => datedSessions)
             (readyState gemini_2_5_flash false false false)))).

Definition reopenedWorld (capacity : nat)
  : Persistence.World Persistence.QuotaStore :=
  Persistence.mkWorld reopenedState (capacity, []) [].

(** A state with a staged file, and collaborators that cannot read it. *)
Definition stagedState : AppState :=
  setStagedFile
    (Some (mkStagedFile "blob:9" (mkFile "notes.txt" "text/plain" "")))
    (readyState gemini_2_5_flash false false false).

Definition unreadableEnv : Env :=
  mkEnv (fun _ => Throw "NotReadableError")
        (fun f => mkInlineData (file_bytes f) (file_type f))
        (fun _ => Throw "fetch failed")
        (fun _ => Throw "provider error")
        (fun _ _ => Throw "provider error")
        (fun _ _ => Throw "provider error").

End Props.
Import Props.

(** ** The string primitives on small inputs *)

Example split_lines : split ("a" ++ LF ++ "b" ++ LF ++ LF) LF = ["a"; "b"; ""; ""].
Proof. reflexivity. Qed.

Example split_resumes_after_separator : split "a---b" "--" = ["a"; "-b"].
Proof. reflexivity. Qed.

Example split_empty : split "" "--" = [""].
Proof. reflexivity. Qed.

Example trim_both_ends : trim ("  a b " ++ LF) = "a b".
Proof. reflexivity. Qed.

Example replace_first_only : replace "ab<T>cd<T>" "<T>" "" = "abcd<T>".
Proof. reflexivity. Qed.

Example toString_timestamp : toString 1700000000001 = "1700000000001".
Proof. reflexivity. Qed.

(** ** Toggle state *)

Lemma applyOp_keeps_exclusive (s : AppState) (op : ToggleOp) :
  bothOn s = false -> bothOn (applyOp s op) = false.
Proof.
  unfold bothOn.
  destruct s as [ms ld md ar vm se th tu sf lg sb ch ac ai cr ft rv].
  destruct op as [ | | | m | f u]; simpl.
  - destruct th; simpl; auto.
  - destruct tu; simpl; auto. intros _. apply andb_false_r.
  - auto.
  - intros H. unfold handleModelChange; simpl.
    destruct md, m; simpl; auto; destruct sf; simpl; auto.
  - destruct f; simpl; auto.
Qed.

(** C2. Starting from a state in which reasoning and turbo are not both on,
    every sequence of toggle operations (reasoning, turbo, search, model
    change, staging an image for editing) ends in a state in which they are
    not both on; and a toggle that switches one of the two on leaves the
    other off. *)
Theorem toggles_never_both_on (ops : list ToggleOp) (s : AppState) :
  bothOn s = false ->
  bothOn (runOps ops s) = false
  /\ (isThinkingEnabled s = false ->
      isThinkingEnabled (onToggleThinking s) = true
      /\ isTurboEnabled (onToggleThinking s) = false)
  /\ (isTurboEnabled s = false ->
      isTurboEnabled (onToggleTurbo s) = true
      /\ isThinkingEnabled (onToggleTurbo s) = false).
Proof.
  intros H. split; [| split].
  - revert s H. induction ops as [| op ops IH]; intros s H; simpl.
    + exact H.
    + apply IH. apply applyOp_keeps_exclusive. exact H.
  - intros Hth. unfold onToggleThinking. rewrite Hth. simpl. auto.
  - intros Htu. unfold onToggleTurbo. rewrite Htu. simpl. auto.
Qed.

Lemma toggles_never_both_on_witness :
  bothOn initialState = false
  /\ bothOn (runOps [ToggleThinking; ToggleTurbo; ToggleSearch;
                     ChangeModel gemini_3_pro_preview; ToggleThinking]
                    initialState) = false.
Proof.
  split; [reflexivity |].
  exact (proj1 (toggles_never_both_on
                  [ToggleThinking; ToggleTurbo; ToggleSearch;
                   ChangeModel gemini_3_pro_preview; ToggleThinking]
                  initialState eq_refl)).
Defined.

(** ** Model change *)

Lemma ModelType_eqb_eq (a b : ModelType) : ModelType_eqb a b = true <-> a = b.
Proof. destruct a, b; simpl; split; intros H; try reflexivity; discriminate. Qed.

Lemma ModelType_eqb_refl (a : ModelType) : ModelType_eqb a a = true.
Proof. apply ModelType_eqb_eq. reflexivity. Qed.

Lemma ModelType_eqb_neq (a b : ModelType) : a <> b -> ModelType_eqb a b = false.
Proof.
  intros H. destruct (ModelType_eqb a b) eqn:E; [| reflexivity].
  apply ModelType_eqb_eq in E. contradiction.
Qed.

(** C10. Selecting the active model changes nothing.  Selecting another
    model empties the timeline, clears the loading flag, the staged file (its
    object URL is revoked), the last generated image and the active session
    pointer; search, reasoning and turbo are switched off for a model outside
    the chat models, reasoning and turbo for gemini-1.5-flash, and a toggle
    the new model supports keeps its value; nothing else is touched. *)
Theorem model_change_resets (newModel : ModelType) (s : AppState) :
  (model s = newModel -> handleModelChange newModel s = s)
  /\ (model s <> newModel ->
      let s' := handleModelChange newModel s in
      model s' = newModel
      /\ messages s' = []
      /\ isLoading s' = false
      /\ stagedFile s' = None
      /\ lastGeneratedImage s' = None
      /\ activeChatId s' = None
      /\ (isChatModel newModel = false ->
          isSearchEnabled s' = false /\ isThinkingEnabled s' = false
          /\ isTurboEnabled s' = false)
      /\ (newModel = gemini_1_5_flash ->
          isThinkingEnabled s' = false /\ isTurboEnabled s' = false)
      /\ (isChatModel newModel = true ->
          isSearchEnabled s' = isSearchEnabled s)
      /\ (supportsThinking newModel = true ->
          isThinkingEnabled s' = isThinkingEnabled s
          /\ isTurboEnabled s' = isTurboEnabled s)
      /\ aspectRatio s' = aspectRatio s
      /\ isVoiceMode s' = isVoiceMode s
      /\ isSidebarOpen s' = isSidebarOpen s
      /\ chatHistory s' = chatHistory s
      /\ aiRef s' = aiRef s
      /\ chatRef s' = chatRef s
      /\ fullTextRef s' = fullTextRef s
      /\ revoked s' =
         (revoked s ++ match stagedFile s with
                       | Some f => [url f]
                       | None => []
                       end)%list).
Proof.
  split.
  - intros E. unfold handleModelChange. rewrite E, ModelType_eqb_refl.
    reflexivity.
  - intros N. cbv zeta. unfold handleModelChange.
    rewrite (ModelType_eqb_neq _ _ N). cbn [negb].
    destruct s as [ms ld md ar vm se th tu sf lg sb ch ac ai cr ft rv].
    clear N.
    assert (R : forall l : list string, (l ++ [])%list = l)
      by (intros l; apply app_nil_r).
    destruct newModel, sf as [f |]; cbn;
      rewrite ?R; repeat split; intros; try discriminate; reflexivity.
Qed.

Lemma model_change_resets_witness :
  let s :=
    setIsSearchEnabled true
      (setIsTurboEnabled true
         (setStagedFile
            (Some (mkStagedFile "blob:1" (mkFile "a.png" "image/png" "")))
            (setIsLoading true initialState))) in
  model s <> gemini_1_5_flash
  /\ isTurboEnabled (handleModelChange gemini_1_5_flash s) = false
  /\ isSearchEnabled (handleModelChange gemini_1_5_flash s) = true
  /\ revoked (handleModelChange gemini_1_5_flash s) = ["blob:1"].
Proof.
  cbv zeta.
  assert (N : model
            (setIsSearchEnabled true
               (setIsTurboEnabled true
                  (setStagedFile
                     (Some (mkStagedFile "blob:1"
                              (mkFile "a.png" "image/png" "")))
                     (setIsLoading true initialState))))
            <> gemini_1_5_flash) by (simpl; discriminate).
  split; [exact N |].
  pose proof (proj2 (model_change_resets gemini_1_5_flash _) N) as H.
  cbv zeta in H.
  destruct H as (_ & _ & _ & _ & _ & _ & _ & H15 & Hs & _ & _ & _ & _ & _ & _ & _ & _ & Hr).
  split; [exact (proj2 (H15 eq_refl)) |].
  split; [rewrite (Hs eq_refl); reflexivity | exact Hr].
Defined.

(** ** Single flight *)

(** C5. While a turn is in flight ([isLoading]), [handleSendMessage] returns
    at its first line: the whole state, the timeline included, is what it
    was, whatever the text, the clock and the collaborators. *)
Theorem send_while_loading_is_dropped (env : Env) (t_user t_bot : Z)
    (text : string) (s : AppState) :
  isLoading s = true ->
  handleSendMessage env t_user t_bot text s = (s, Resolved).
Proof.
  intros H. unfold handleSendMessage. rewrite H. reflexivity.
Qed.

Lemma send_while_loading_is_dropped_witness :
  isLoading busyState = true
  /\ messages
       (fst (handleSendMessage (sampleEnv (Throw "offline")) 1700000000500
               1700000000500 "Again" busyState))
     = inFlightTimeline.
Proof.
  split; [reflexivity |].
  rewrite (send_while_loading_is_dropped (sampleEnv (Throw "offline"))
             1700000000500 1700000000500 "Again" busyState eq_refl).
  reflexivity.
Defined.

(** ** Configuration builder *)

(** C6, as the code has it. On a model that supports reasoning
    (gemini-2.5-flash, gemini-3-pro-preview, gemini-flash-lite-latest) the
    budget is 0 with turbo on, whatever the reasoning toggle; with turbo off
    and reasoning on it is 16000 for gemini-3-pro-preview and 8192 for the
    other two; with both off it is unset.  On every other model it is unset,
    turbo included; and for a model outside the chat models no configuration
    is built. *)
Theorem thinking_budget_by_model (m : ModelType) (search thinking turbo : bool) :
  let budget := thinkingConfig (buildConfig m search thinking turbo) in
  (supportsThinking m = true -> turbo = true -> budget = Some 0%Z)
  /\ (m = gemini_3_pro_preview -> turbo = false -> thinking = true ->
      budget = Some 16000%Z)
  /\ (m = gemini_2_5_flash \/ m = gemini_flash_lite_latest ->
      turbo = false -> thinking = true -> budget = Some 8192%Z)
  /\ (turbo = false -> thinking = false -> budget = None)
  /\ (supportsThinking m = false -> budget = None)
  /\ (supportsThinking m = true <->
      m = gemini_2_5_flash \/ m = gemini_3_pro_preview
      \/ m = gemini_flash_lite_latest)
  /\ (isChatModel m = false ->
      forall history chatRef,
        initializeChat true m search thinking turbo history chatRef = chatRef)
  /\ (isChatModel m = true ->
      forall history chatRef,
        initializeChat true m search thinking turbo history chatRef
        = Some (mkChat m (buildConfig m search thinking turbo) history)).
Proof.
  cbv zeta. repeat split.
  - intros Hs Ht. unfold buildConfig; cbn [thinkingConfig].
    rewrite Hs, Ht. reflexivity.
  - intros -> -> ->. reflexivity.
  - intros [-> | ->] -> ->; reflexivity.
  - intros -> ->. unfold buildConfig; cbn [thinkingConfig].
    destruct (supportsThinking m); reflexivity.
  - intros Hs. unfold buildConfig; cbn [thinkingConfig].
    rewrite Hs. reflexivity.
  - destruct m; simpl; intros H; auto; discriminate.
  - intros [-> | [-> | ->]]; reflexivity.
  - intros Hc history chatRef. unfold initializeChat. rewrite Hc. reflexivity.
  - intros Hc history chatRef. unfold initializeChat. rewrite Hc. reflexivity.
Qed.

Lemma thinking_budget_by_model_witness :
  supportsThinking gemini_3_pro_preview = true
  /\ thinkingConfig (buildConfig gemini_3_pro_preview false true true) = Some 0%Z.
Proof.
  split; [reflexivity |].
  exact (proj1 (thinking_budget_by_model gemini_3_pro_preview false true true)
               eq_refl eq_refl).
Defined.

(** C6 as stated, refuted: with turbo on and the model gemini-1.5-flash, for
    which a configuration is built, the budget is unset and not 0. *)
Lemma turbo_budget_unset_on_flash_1_5 :
  thinkingConfig (buildConfig gemini_1_5_flash false false true) = None
  /\ thinkingConfig (buildConfig gemini_1_5_flash false false true) <> Some 0%Z
  /\ initializeChat true gemini_1_5_flash false false true [] None
     = Some (mkChat gemini_1_5_flash
               (mkConfig baseInstruction None None) []).
Proof.
  split; [reflexivity | split; [discriminate | reflexivity]].
Qed.

(** C8, as the code has it. With reasoning on and a model that does not
    support reasoning, the budget is omitted, but the reasoning instruction
    block is appended all the same: the instruction depends on the toggle
    alone.  For gemini-1.5-flash a chat object with that configuration is
    created; for a model outside the chat models [initializeChat] returns
    without building anything. *)
Theorem unsupported_reasoning_config (m : ModelType) (search turbo : bool) :
  supportsThinking m = false ->
  let config := buildConfig m search true turbo in
  thinkingConfig config = None
  /\ systemInstruction config = baseInstruction ++ cotInstruction
  /\ (m = gemini_1_5_flash ->
      forall history chatRef,
        initializeChat true m search true turbo history chatRef
        = Some (mkChat m config history))
  /\ (m <> gemini_1_5_flash ->
      forall history chatRef,
        initializeChat true m search true turbo history chatRef = chatRef).
Proof.
  intros Hs. cbv zeta. repeat split.
  - unfold buildConfig; cbn [thinkingConfig]. rewrite Hs. reflexivity.
  - intros ->. reflexivity.
  - intros N history chatRef. destruct m; try discriminate Hs;
      try reflexivity. contradiction.
Qed.

Lemma unsupported_reasoning_config_witness :
  supportsThinking gemini_1_5_flash = false
  /\ systemInstruction (buildConfig gemini_1_5_flash false true false)
     = baseInstruction ++ cotInstruction.
Proof.
  split; [reflexivity |].
  exact (proj1 (proj2 (unsupported_reasoning_config gemini_1_5_flash false
                         false eq_refl))).
Defined.

(** C8 as stated, refuted: for gemini-1.5-flash with reasoning on, the
    system instruction of the configuration is not the base instruction; it
    carries the block that asks for the sentinel tags. *)
Lemma reasoning_block_kept_on_flash_1_5 :
  supportsThinking gemini_1_5_flash = false
  /\ systemInstruction (buildConfig gemini_1_5_flash false true false)
     <> baseInstruction
  /\ includes (systemInstruction (buildConfig gemini_1_5_flash false true false))
              "[SYSTEM OVERRIDE: CHAIN OF THOUGHT MODE ENABLED]" = true
  /\ includes baseInstruction
              "[SYSTEM OVERRIDE: CHAIN OF THOUGHT MODE ENABLED]" = false.
Proof.
  split; [reflexivity |].
  assert (I : includes
                (systemInstruction
                   (buildConfig gemini_1_5_flash false true false))
                "[SYSTEM OVERRIDE: CHAIN OF THOUGHT MODE ENABLED]" = true)
    by (vm_compute; reflexivity).
  assert (B : includes baseInstruction
                "[SYSTEM OVERRIDE: CHAIN OF THOUGHT MODE ENABLED]" = false)
    by (vm_compute; reflexivity).
  split; [| split; assumption].
  intros E. rewrite E in I. rewrite B in I. discriminate I.
Qed.

(** ** Streaming parser *)

Lemma prefix_nil (q : string) : prefix "" q = true.
Proof. destruct q; reflexivity. Qed.

Lemma prefix_app (p q : string) : prefix p (p ++ q) = true.
Proof.
  induction p as [| c p IH]; simpl; [apply prefix_nil |].
  destruct (ascii_dec c c) as [_ | N]; [exact IH | contradiction].
Qed.

Lemma includes_eq (s pat : string) :
  includes s pat
  = if prefix pat s then true
    else match s with
         | EmptyString => false
         | String _ t => includes t pat
         end.
Proof. destruct s; reflexivity. Qed.

Lemma replace_eq (s pat rep : string) :
  replace s pat rep
  = if prefix pat s then rep ++ drop (String.length pat) s
    else match s with
         | EmptyString => EmptyString
         | String c t => String c (replace t pat rep)
         end.
Proof. destruct s; reflexivity. Qed.

Lemma drop_app (p q : string) : drop (String.length p) (p ++ q) = q.
Proof. induction p as [| c p IH]; simpl; [reflexivity | exact IH]. Qed.

Lemma includes_app_r (pre p q : string) : includes (pre ++ p ++ q) p = true.
Proof.
  induction pre as [| c pre IH].
  - cbn [append]. rewrite includes_eq, prefix_app. reflexivity.
  - cbn [append]. rewrite includes_eq, IH.
    destruct (prefix p (String c (pre ++ p ++ q))); reflexivity.
Qed.

(** A string without the character [<] holds no start of a tag. *)
Lemma no_lt_head (c : ascii) (t : string) :
  includes (String c t) "<" = false ->
  c <> "<"%char /\ includes t "<" = false.
Proof.
  rewrite includes_eq. cbn [prefix].
  destruct (ascii_dec "<" c) as [E | N].
  - rewrite prefix_nil. discriminate.
  - intros H. split; [congruence | exact H].
Qed.

Lemma replace_open_after_plain (pre post : string) :
  includes pre "<" = false ->
  replace (pre ++ THOUGHT_OPEN ++ post) THOUGHT_OPEN "" = pre ++ post.
Proof.
  induction pre as [| c pre IH]; intros H.
  - cbn [append]. rewrite replace_eq, prefix_app, drop_app. reflexivity.
  - apply no_lt_head in H. destruct H as [N H].
    cbn [append]. rewrite replace_eq.
    assert (P : prefix THOUGHT_OPEN (String c (pre ++ THOUGHT_OPEN ++ post))
                = false).
    { unfold THOUGHT_OPEN at 1. cbn [prefix].
      destruct (ascii_dec "<" c) as [E | _]; [congruence | reflexivity]. }
    rewrite P. rewrite (IH H). reflexivity.
Qed.

Lemma append_nil_r (s : string) : s ++ "" = s.
Proof. induction s as [| c s IH]; simpl; [reflexivity | rewrite IH; reflexivity]. Qed.

Lemma append_assoc (a b c : string) : (a ++ b) ++ c = a ++ b ++ c.
Proof. induction a as [| x a IH]; simpl; [reflexivity | rewrite IH; reflexivity]. Qed.

Lemma split_from_eq (sep : string) (skip : nat) (cur s : string) :
  split_from sep skip cur s
  = match s with
    | EmptyString => [cur]
    | String c t =>
        match skip with
        | S k => split_from sep k cur t
        | O =>
            if prefix sep s
            then cur :: split_from sep (String.length sep - 1) "" t
            else split_from sep 0 (cur ++ String c EmptyString) t
        end
    end.
Proof. destruct s; reflexivity. Qed.

Lemma split_from_skip (sep p cur rest : string) :
  split_from sep (String.length p) cur (p ++ rest) = split_from sep 0 cur rest.
Proof.
  induction p as [| c p IH]; cbn [String.length append].
  - reflexivity.
  - rewrite split_from_eq. exact IH.
Qed.

(** A string in which the separator does not occur is one piece. *)
Lemma split_from_none (sep : string) (b cur : string) :
  includes b sep = false -> split_from sep 0 cur b = [cur ++ b].
Proof.
  revert cur. induction b as [| c b IH]; intros cur H.
  - simpl. rewrite append_nil_r. reflexivity.
  - rewrite includes_eq in H. rewrite split_from_eq.
    destruct (prefix sep (String c b)); [discriminate |].
    rewrite (IH _ H). rewrite append_assoc. reflexivity.
Qed.

Lemma prefix_lt_plain_head (r : string) (c : ascii) (t : string) :
  c <> "<"%char -> prefix (String "<" r) (String c t) = false.
Proof.
  intros N. cbn [prefix].
  destruct (ascii_dec "<" c) as [E | _]; [congruence | reflexivity].
Qed.

(** A plain string holds no occurrence of a pattern that starts with [<]. *)
Lemma includes_app_plain (r a b : string) :
  plain a -> includes (a ++ b) (String "<" r) = includes b (String "<" r).
Proof.
  unfold plain. induction a as [| c a IH]; intros H.
  - reflexivity.
  - apply no_lt_head in H. destruct H as [N H].
    cbn [append]. rewrite includes_eq.
    rewrite (prefix_lt_plain_head r c _ N). exact (IH H).
Qed.

Lemma plain_no_pattern (r a : string) :
  plain a -> includes a (String "<" r) = false.
Proof.
  intros H. rewrite <- (append_nil_r a).
  rewrite (includes_app_plain r a "" H). reflexivity.
Qed.

(** The first cut of [split] falls at a separator that follows a plain
    string, when the separator starts with [<]. *)
Lemma split_from_first (r a b cur : string) :
  plain a ->
  split_from (String "<" r) 0 cur (a ++ String "<" r ++ b)
  = (cur ++ a) :: split_from (String "<" r) 0 "" b.
Proof.
  unfold plain. revert cur. induction a as [| c a IH]; intros cur H.
  - cbn [append]. rewrite split_from_eq.
    change (String "<" (r ++ b)) with (String "<" r ++ b).
    rewrite prefix_app, append_nil_r.
    replace (String.length (String "<" r) - 1) with (String.length r)
      by (cbn [String.length]; lia).
    f_equal. apply split_from_skip.
  - apply no_lt_head in H. destruct H as [N H].
    cbn [append]. rewrite split_from_eq.
    rewrite (prefix_lt_plain_head r c _ N).
    change (a ++ String "<" (r ++ b)) with (a ++ String "<" r ++ b).
    rewrite (IH _ H). rewrite append_assoc. reflexivity.
Qed.

Lemma processText_open_only (pre post : string) (st : ParserState) :
  plain pre ->
  includes (pre ++ THOUGHT_OPEN ++ post) THOUGHT_CLOSE = false ->
  processText true (pre ++ THOUGHT_OPEN ++ post) st
  = mkParserState (fullResponseText st)
                  (fullThinkingText st ++ pre ++ post)
                  (loop_groundingMetadata st) true.
Proof.
  intros Hpre Hclose. unfold processText.
  rewrite includes_app_r, Hclose.
  rewrite (replace_open_after_plain pre post Hpre). reflexivity.
Qed.

(** C7, what the code does. A plain-text part made of [pre], the opening
    tag and [post], with no closing tag and no [<] in [pre]: whatever the
    state before, the flag is set first and the whole part without the tag is
    appended to the reasoning accumulator, so [pre] lands in the reasoning
    accumulator and the answer accumulator is left as it was, also when the
    parser was outside a reasoning block. *)
Theorem text_before_open_tag_goes_to_reasoning (pre post : string)
    (st : ParserState) :
  includes pre "<" = false ->
  includes (pre ++ THOUGHT_OPEN ++ post) THOUGHT_CLOSE = false ->
  processText true (pre ++ THOUGHT_OPEN ++ post) st
  = mkParserState (fullResponseText st)
                  (fullThinkingText st ++ pre ++ post)
                  (loop_groundingMetadata st) true.
Proof. exact (processText_open_only pre post st). Qed.

Lemma text_before_open_tag_goes_to_reasoning_witness :
  includes "Hi " "<" = false
  /\ includes ("Hi " ++ THOUGHT_OPEN ++ "plan") THOUGHT_CLOSE = false
  /\ isInsideThinkingBlock parserStart = false
  /\ accumulators (processText true ("Hi " ++ THOUGHT_OPEN ++ "plan") parserStart)
     = ("Hi plan", "").
Proof.
  split; [reflexivity |]. split; [reflexivity |]. split; [reflexivity |].
  rewrite (text_before_open_tag_goes_to_reasoning "Hi " "plan" parserStart
             eq_refl eq_refl).
  reflexivity.
Defined.

(** C1, the code at the failing input. The character stream
    [<THOUGHT_PROCESS>abc</THOUGHT_PROCESS>xyz] delivered as one fragment
    gives reasoning [abc] and answer [xyz]; delivered as two fragments that
    cut the opening tag, it gives reasoning [PROCESS>abc] and answer
    [<THOUGHT_xyz]; cut inside the closing tag, it gives reasoning
    [abc</THOUGHT_PROCESS>xyz] and an empty answer.  So the result is not a
    function of the character stream alone. *)
Theorem split_tag_changes_the_result :
  parseFragments true ["<THOUGHT_PROCESS>abc</THOUGHT_PROCESS>xyz"]
  = ("abc", "xyz")
  /\ parseFragments true ["<THOUGHT_"; "PROCESS>abc</THOUGHT_PROCESS>xyz"]
     = ("PROCESS>abc", "<THOUGHT_xyz")
  /\ parseFragments true ["<THOUGHT_PROCESS>abc</THOUGHT_"; "PROCESS>xyz"]
     = ("abc</THOUGHT_PROCESS>xyz", "")
  /\ ~ (forall frags1 frags2 : list string,
          joinAll frags1 = joinAll frags2 ->
          parseFragments true frags1 = parseFragments true frags2).
Proof.
  split; [reflexivity |]. split; [reflexivity |]. split; [reflexivity |].
  intros H.
  specialize (H ["<THOUGHT_PROCESS>abc</THOUGHT_PROCESS>xyz"]
                ["<THOUGHT_"; "PROCESS>abc</THOUGHT_PROCESS>xyz"] eq_refl).
  vm_compute in H. discriminate H.
Qed.

(** ** Termination of the chat pathway *)

(** C3, the code at the failing input. A final answer whose suggestions block
    has four lines yields four suggestions on the message: the chat pathway
    applies no cap.  The text is the trimmed segment before the sentinel. *)
Theorem chat_suggestions_not_capped :
  suggestions
    (finalUpdate false (mkParserState fourSuggestions "" None false) placeholder)
  = Some ["A"; "B"; "C"; "D"]
  /\ text
       (finalUpdate false (mkParserState fourSuggestions "" None false)
          placeholder)
     = "Answer.".
Proof. split; reflexivity. Qed.

(** The example of the specification, with two suggestion lines. *)
Lemma paris_example :
  mainText parisAnswer = "Paris is the capital."
  /\ parseSuggestions parisAnswer = ["Tell me more"; "Show a map"].
Proof. split; reflexivity. Qed.

(** The sibling path, [generatePostTaskSuggestions], does cap at three. *)
Lemma post_task_suggestions_capped (env : Env) (client : bool)
    (prompt : string) (type : TaskType) :
  List.length (generatePostTaskSuggestions env client prompt type) <= 3.
Proof.
  unfold generatePostTaskSuggestions, slice_to.
  destruct client; cbn [negb]; [| simpl; lia].
  destruct (generateContent env (SuggestionRequest type prompt)) as [r | e];
    [| simpl; lia].
  destruct (rtext r) as [t |]; [| simpl; lia].
  destruct (truthy t); [| simpl; lia].
  rewrite length_firstn. lia.
Qed.

(** ** Persistence *)

Section PersistenceFacts.

Import Persistence.

Variable Store : Type.
Variable stringify : list ChatSession -> string.
Variable setItem : string -> string -> Store -> exn Store.

Lemma restOf_fields (m : Message) :
  imageUrl (restOf m) = None /\ uploadedImageUrl (restOf m) = None
  /\ id (restOf m) = id m /\ text (restOf m) = text m
  /\ thinkingText (restOf m) = thinkingText m /\ sender (restOf m) = sender m.
Proof. repeat split. Qed.

Lemma slice_last_suffix {A} (n : nat) (xs : list A) :
  exists older, xs = (older ++ slice_last n xs)%list
                /\ List.length (slice_last n xs) = Nat.min n (List.length xs).
Proof.
  unfold slice_last. exists (firstn (List.length xs - n) xs). split.
  - symmetry. apply firstn_skipn.
  - rewrite length_skipn. lia.
Qed.

Lemma emergencyHistory_stripped (h : list ChatSession) :
  Forall (fun s =>
            Forall (fun m => imageUrl m = None /\ uploadedImageUrl m = None)
                   (cs_messages s))
         (emergencyHistory h).
Proof.
  unfold emergencyHistory. apply Forall_forall. intros s Hin.
  apply in_map_iff in Hin. destruct Hin as (s0 & <- & _). simpl.
  apply Forall_forall. intros m Hm.
  apply in_map_iff in Hm. destruct Hm as (m0 & <- & _).
  split; reflexivity.
Qed.

(** C9, as the code has it. When the store rejects the write of the full
    history, the effect writes once more, the value being the serialization
    of the last five sessions of the list in list order (all of them when
    there are fewer), whatever their timestamps, each with its id, title and
    timestamp and with every message field for field as it is in memory
    except that [imageUrl] and [uploadedImageUrl] are removed; the store ends
    as that second write leaves it, or as it was when that write is rejected
    too.  In both cases the effect completes without an exception and the
    component state, session list and timeline included, is what it was. *)
Theorem save_falls_back_and_never_throws (w : World Store) (e : string) :
  setItem "chatHistory" (stringify (safeHistory (chatHistory (app w))))
          (store w) = Throw e ->
  let h := chatHistory (app w) in
  let out := saveEffect Store stringify setItem w in
  snd out = Ok tt
  /\ app (fst out) = app w
  /\ store (fst out)
     = match setItem "chatHistory" (stringify (emergencyHistory h)) (store w) with
       | Ok st => st
       | Throw _ => store w
       end
  /\ (exists older kept,
         h = (older ++ kept)%list
         /\ List.length kept = Nat.min 5 (List.length h)
         /\ emergencyHistory h
            = map (fun s => mkChatSession (cs_id s) (cs_title s)
                              (map withoutImages (cs_messages s))
                              (cs_timestamp s))
                  kept)
  /\ Forall (fun s =>
               Forall (fun m => imageUrl m = None /\ uploadedImageUrl m = None)
                      (cs_messages s))
            (emergencyHistory h).
Proof.
  intros H. cbv zeta.
  unfold saveEffect, try_catch, bind, read_chatHistory, localStorage_setItem,
    console_log.
  cbn [fst snd app store console]. rewrite H. cbn [fst snd app store console].
  destruct (setItem "chatHistory"
              (stringify (emergencyHistory (chatHistory (app w)))) (store w))
    as [st | e2]; cbn [fst snd app store console].
  - repeat split.
    + destruct (slice_last_suffix 5 (chatHistory (app w))) as (older & E & L).
      exists older, (slice_last 5 (chatHistory (app w))).
      repeat split; assumption.
    + apply emergencyHistory_stripped.
  - repeat split.
    + destruct (slice_last_suffix 5 (chatHistory (app w))) as (older & E & L).
      exists older, (slice_last 5 (chatHistory (app w))).
      repeat split; assumption.
    + apply emergencyHistory_stripped.
Qed.

End PersistenceFacts.

Lemma save_falls_back_and_never_throws_witness :
  Persistence.quota_setItem "chatHistory"
    (Persistence.plain_stringify
       (Persistence.safeHistory (chatHistory (Persistence.app (sampleWorld 10)))))
    (Persistence.store (sampleWorld 10)) = Throw "QuotaExceededError"
  /\ snd (Persistence.saveEffect Persistence.QuotaStore
            Persistence.plain_stringify Persistence.quota_setItem
            (sampleWorld 10)) = Ok tt
  /\ Persistence.app
       (fst (Persistence.saveEffect Persistence.QuotaStore
               Persistence.plain_stringify Persistence.quota_setItem
               (sampleWorld 10)))
     = Persistence.app (sampleWorld 10).
Proof.
  split; [reflexivity |].
  pose proof (save_falls_back_and_never_throws Persistence.QuotaStore
                Persistence.plain_stringify Persistence.quota_setItem
                (sampleWorld 10) "QuotaExceededError" eq_refl) as H.
  cbv zeta in H. destruct H as (H1 & H2 & _).
  split; [exact H1 | exact H2].
Defined.

(** C9 as stated, refuted: the sessions kept by the fallback are not the
    five most recent.  Six sessions are created at times 1 to 6; the first is
    opened again and a turn recorded in it at time 1002, which leaves it at
    the head of the list with the latest timestamp.  The full write is
    rejected, and the fallback writes sessions 2 to 6: the session used last,
    which the sidebar shows first, is the one left out. *)
Lemma fallback_drops_the_session_used_last :
  map (fun c => (cs_id c, cs_timestamp c)) (chatHistory reopenedState)
  = [("1", 1002%Z); ("2", 2%Z); ("3", 3%Z); ("4", 4%Z); ("5", 5%Z);
     ("6", 6%Z)]
  /\ map cs_id (mostRecent 5 (chatHistory reopenedState))
     = ["1"; "6"; "5"; "4"; "3"]
  /\ Persistence.quota_setItem "chatHistory"
       (Persistence.plain_stringify
          (Persistence.safeHistory (chatHistory reopenedState)))
       (Persistence.store (reopenedWorld 40)) = Throw "QuotaExceededError"
  /\ map cs_id (Persistence.emergencyHistory (chatHistory reopenedState))
     = ["2"; "3"; "4"; "5"; "6"]
  /\ Persistence.store
       (fst (Persistence.saveEffect Persistence.QuotaStore
               Persistence.plain_stringify Persistence.quota_setItem
               (reopenedWorld 40)))
     = (40, [("chatHistory", "2:hi||;3:hi||;4:hi||;5:hi||;6:hi||")])
  /\ ~ (forall h : list ChatSession,
          Permutation (map cs_id (Persistence.emergencyHistory h))
                      (map cs_id (mostRecent 5 h))).
Proof.
  split; [vm_compute; reflexivity |]. split; [vm_compute; reflexivity |].
  split; [vm_compute; reflexivity |]. split; [vm_compute; reflexivity |].
  split; [vm_compute; reflexivity |].
  intros H. specialize (H (chatHistory reopenedState)).
  assert (I : In "1" (map cs_id (mostRecent 5 (chatHistory reopenedState))))
    by (vm_compute; left; reflexivity).
  apply (Permutation_in _ (Permutation_sym H)) in I.
  vm_compute in I. repeat (destruct I as [I | I]; [discriminate I |]).
  exact I.
Qed.

(** The quota store at two capacities: the trimmed history fits, or nothing
    does. *)
Example fallback_write_lands :
  Persistence.store
    (fst (Persistence.saveEffect Persistence.QuotaStore
            Persistence.plain_stringify Persistence.quota_setItem
            (sampleWorld 100)))
  = (100, [("chatHistory", "2:hi||;3:hi||;4:hi||;5:hi||;6:hi||")]).
Proof. reflexivity. Qed.

Example both_writes_rejected :
  Persistence.saveEffect Persistence.QuotaStore Persistence.plain_stringify
    Persistence.quota_setItem (sampleWorld 10)
  = (Persistence.mkWorld (Persistence.app (sampleWorld 10))
       (10, [("chatHistory", "old")])
       [(Persistence.warn,
         "Failed to save chat history (Quota Exceeded). Trimming history...");
        (Persistence.error, "Critical storage failure")],
     Ok tt).
Proof. reflexivity. Qed.

(** ** A failed turn *)

Lemma updateMessage_ids (b : string) (f : Message -> Message)
    (l : list Message) :
  keeps_id f -> map id (updateMessage b f l) = map id l.
Proof.
  intros Hf. unfold updateMessage. rewrite map_map. apply map_ext.
  intros m. destruct (String.eqb (id m) b); [apply Hf | reflexivity].
Qed.

Lemma updateMessage_last (b : string) (f : Message -> Message)
    (front : list Message) (m : Message) :
  id m = b ->
  updateMessage b f (front ++ [m]) = (updateMessage b f front ++ [f m])%list.
Proof.
  intros E. unfold updateMessage. rewrite map_app. simpl.
  rewrite E, String.eqb_refl. reflexivity.
Qed.

Ltac ids :=
  repeat (rewrite updateMessage_ids by (intros ?; reflexivity)).

Lemma streamStep_fold_ids (b : string) (th se sh : bool) (cs : list Response)
    (acc : ParserState * AppState) :
  map id (messages (snd (fold_left (streamStep b th se sh) cs acc)))
  = map id (messages (snd acc)).
Proof.
  revert acc. induction cs as [| c cs IH]; intros acc; simpl.
  - reflexivity.
  - rewrite IH. simpl. ids. reflexivity.
Qed.

Lemma consumeStream_ids (b : string) (sh : bool) (result : Stream)
    (s : AppState) :
  map id (messages (fst (consumeStream b sh result s))) = map id (messages s).
Proof.
  unfold consumeStream.
  pose proof (streamStep_fold_ids b (isThinkingEnabled s) (isSearchEnabled s)
                sh (chunks result) (parserStart, s)) as H.
  destruct (fold_left _ (chunks result) (parserStart, s)) as [st s'].
  simpl in H. destruct (failure result); simpl; ids; exact H.
Qed.

Lemma tryBlock_ids (env : Env) (text b : string) (f : option File)
    (c : option string) (sh : bool) (s : AppState) :
  map id (messages (fst (tryBlock env text b f c sh s))) = map id (messages s).
Proof.
  unfold tryBlock.
  destruct (negb (aiRef s)); [reflexivity |].
  destruct (ModelType_eqb (model s) gemini_2_5_flash_image
            && (match f with Some _ => true | None => false end
                || truthy_opt c)).
  { unfold imageEditPathway.
    destruct (match f with
              | Some f0 => Ok (fileToGenerativePart env f0)
              | None => dataUrlToGenerativePart env
                          (match c with Some u => u | None => "" end)
              end) as [ip | e]; [| simpl; ids; reflexivity].
    destruct (generateContent env (EditRequest ip text)) as [r | e];
      [| simpl; ids; reflexivity].
    destruct (editParts r) as [ps | e]; [| simpl; ids; reflexivity].
    destruct (fold_left editStep _ ("", "")) as [iu d].
    destruct (truthy iu); simpl; ids; reflexivity. }
  destruct (ModelType_eqb (model s) imagen_4_0_generate_001).
  { unfold imagenPathway.
    destruct (generateImages env _ _) as [b64 | e]; [| simpl; ids; reflexivity].
    destruct (match b64 with
              | Some b0 =>
                  if truthy b0 then Some ("data:image/png;base64," ++ b0)
                  else None
              | None => None
              end); simpl; ids; reflexivity. }
  destruct (isChatModel (model s)); [| reflexivity].
  destruct (chatRef s) as [chat |]; [| reflexivity].
  unfold chatPathway.
  destruct (sendMessageStream env chat _) as [result | e];
    [| simpl; ids; reflexivity].
  rewrite consumeStream_ids. simpl. ids. reflexivity.
Qed.

Lemma enterTry_frame (t_user t_bot : Z) (text : string)
    (uploaded : option string) (s : AppState) :
  let s3 := enterTry t_user t_bot text uploaded s in
  messages s3
  = ((messages s ++ [userMessage t_user text uploaded])
     ++ [initialBotMessage t_bot s])%list
  /\ aiRef s3 = aiRef s /\ model s3 = model s /\ chatRef s3 = chatRef s
  /\ isThinkingEnabled s3 = isThinkingEnabled s
  /\ isSearchEnabled s3 = isSearchEnabled s
  /\ isTurboEnabled s3 = isTurboEnabled s.
Proof.
  cbv zeta. unfold enterTry, revokeStaged.
  destruct s as [ms ld md ar vm se th tu sf lg sb ch ac ai cr ft rv].
  destruct sf; cbn; rewrite <- app_assoc; repeat split.
Qed.

Lemma streamStep_fold_last (b : string) (th se sh : bool) (cs : list Response) :
  forall (st : ParserState) (s : AppState) (front : list Message) (m : Message),
    messages s = (front ++ [m])%list ->
    id m = b ->
    text m = fullResponseText st ->
    thinkingText m = Some (fullThinkingText st) ->
    let r := fold_left (streamStep b th se sh) cs (st, s) in
    fst r = fold_left (processChunk th) cs st
    /\ exists front' m',
         messages (snd r) = (front' ++ [m'])%list
         /\ id m' = b
         /\ text m' = fullResponseText (fst r)
         /\ thinkingText m' = Some (fullThinkingText (fst r)).
Proof.
  induction cs as [| c cs IH]; intros st s front m Hm Hid Ht Hth; cbv zeta.
  - simpl. split; [reflexivity |]. exists front, m. auto.
  - cbn [fold_left].
    apply (IH (processChunk th st c) _
              (updateMessage b (chunkUpdate th se sh (processChunk th st c)) front)
              (chunkUpdate th se sh (processChunk th st c) m)).
    + unfold streamStep. cbn [fst snd]. simpl. rewrite Hm.
      apply updateMessage_last. exact Hid.
    + exact Hid.
    + reflexivity.
    + reflexivity.
Qed.

Lemma chat_model_not_image (m : ModelType) :
  isChatModel m = true ->
  ModelType_eqb m gemini_2_5_flash_image = false
  /\ ModelType_eqb m imagen_4_0_generate_001 = false.
Proof. destruct m; simpl; intros H; try discriminate; split; reflexivity. Qed.

(** C4, as the code has it. When the [try] block of a turn throws, the
    handler ends with the loading flag cleared, and the in-flight assistant
    message (the last of the timeline) has [isStreaming] false and the apology
    as its text, in place of whatever text it held; its reasoning text, its
    status label and its other fields are what they were when the block
    threw.  In the chat pathway, when the stream fails after some chunks, the
    text that is replaced is the answer accumulated so far, and the reasoning
    text that is kept is the reasoning accumulated so far. *)
Theorem failed_turn_shows_apology (env : Env) (t_user t_bot : Z)
    (text : string) (s : AppState) (uploaded : option string)
    (s4 : AppState) (e : string) :
  isLoading s = false ->
  truthy (trim text) = true \/ stagedFile s <> None ->
  readUpload env s = Ok uploaded ->
  tryBlock env text (botMessageId t_bot) (fileToSend s)
    (continuousEditImage s) (shouldUseThinkingMode s)
    (enterTry t_user t_bot text uploaded s) = (s4, Throw e) ->
  let sf := fst (handleSendMessage env t_user t_bot text s) in
  isLoading sf = false
  /\ exists front m0,
       messages s4 = (front ++ [m0])%list
       /\ id m0 = botMessageId t_bot
       /\ messages sf
          = (updateMessage (botMessageId t_bot) apologize front
             ++ [mkMessage (id m0) APOLOGY (thinkingText m0) (sender m0)
                   (Some false) (Types.model m0) (suggestions m0) (imageUrl m0)
                   (Types.aspectRatio m0) (uploadedImageUrl m0)
                   (groundingMetadata m0) (statusText m0)
                   (isThinkingMode m0)])%list
       /\ (forall chat cs,
              aiRef s = true ->
              isChatModel (model s) = true ->
              chatRef s = Some chat ->
              (forall content,
                  sendMessageStream env chat content
                  = Ok (mkStream cs (Some e))) ->
              Types.text m0
              = fullResponseText (parseStream (isThinkingEnabled s) cs)
              /\ thinkingText m0
                 = Some (fullThinkingText
                           (parseStream (isThinkingEnabled s) cs))).
Proof.
  intros Hload Hguard Hup Htry. cbv zeta.
  assert (G : isLoading s
              || (negb (truthy (trim text))
                  && match stagedFile s with
                     | Some _ => false
                     | None => true
                     end) = false).
  { rewrite Hload. cbn [orb].
    destruct Hguard as [Ht | Hs].
    - rewrite Ht. reflexivity.
    - destruct (stagedFile s); [apply andb_false_r | contradiction]. }
  unfold handleSendMessage. rewrite G, Hup, Htry.
  cbn [fst snd]. unfold settle. cbn [fst snd].
  split; [reflexivity |].
  pose proof (tryBlock_ids env text (botMessageId t_bot) (fileToSend s)
                (continuousEditImage s) (shouldUseThinkingMode s)
                (enterTry t_user t_bot text uploaded s)) as Hids.
  rewrite Htry in Hids. cbn [fst] in Hids.
  destruct (enterTry_frame t_user t_bot text uploaded s)
    as (Hm3 & Hai & Hmd & Hcr & Hth & Hse & _).
  rewrite Hm3, map_app in Hids.
  apply map_eq_app in Hids. destruct Hids as (front & tl & E4 & _ & Htl).
  destruct tl as [| m0 [| x tl]]; try discriminate Htl.
  cbn in Htl. injection Htl as Hid0.
  exists front, m0. split; [exact E4 |]. split; [exact Hid0 |]. split.
  - simpl. rewrite E4. rewrite (updateMessage_last _ _ _ _ Hid0). reflexivity.
  - intros chat cs Hai' Hchat Hcr' Hsend.
    destruct (chat_model_not_image _ Hchat) as [N1 N2].
    unfold tryBlock in Htry.
    rewrite Hai, Hai', Hmd, N1, N2, Hchat, Hcr, Hcr' in Htry.
    cbn [negb andb] in Htry. unfold chatPathway in Htry.
    rewrite Hsend in Htry. unfold consumeStream in Htry.
    cbn [chunks failure] in Htry.
    set (s3' := setStatus (botMessageId t_bot)
                  (initialStatus (enterTry t_user t_bot text uploaded s)
                     (fileToSend s))
                  (enterTry t_user t_bot text uploaded s)) in Htry.
    assert (Hth' : isThinkingEnabled s3' = isThinkingEnabled s)
      by (subst s3'; unfold setStatus, setMessages; cbn [isThinkingEnabled];
          exact Hth).
    pose proof (streamStep_fold_last (botMessageId t_bot)
                  (isThinkingEnabled s3') (isSearchEnabled s3')
                  (shouldUseThinkingMode s) cs parserStart s3'
                  (updateMessage (botMessageId t_bot)
                     (with_statusText
                        (Some (initialStatus
                                 (enterTry t_user t_bot text uploaded s)
                                 (fileToSend s))))
                     (messages s ++ [userMessage t_user text uploaded]))
                  (with_statusText
                     (Some (initialStatus
                              (enterTry t_user t_bot text uploaded s)
                              (fileToSend s)))
                     (initialBotMessage t_bot s))) as F.
    cbv zeta in F.
    destruct (fold_left _ cs (parserStart, s3')) as [st s'].
    injection Htry as <-.
    destruct F as (Fst & front' & m' & Fm & _ & Ft & Fth).
    + subst s3'. unfold setStatus, setMessages. cbn [messages].
      rewrite Hm3. apply updateMessage_last. reflexivity.
    + reflexivity.
    + reflexivity.
    + reflexivity.
    + cbn [fst snd] in *. rewrite E4 in Fm.
      apply app_inj_tail in Fm. destruct Fm as [_ <-].
      unfold parseStream. rewrite <- Hth', <- Fst. split; assumption.
Qed.

Lemma failed_turn_shows_apology_witness :
  isLoading (readyState gemini_2_5_flash false true false) = false
  /\ truthy (trim "Hello") = true
  /\ readUpload (sampleEnv (Ok failingStream))
       (readyState gemini_2_5_flash false true false) = Ok None
  /\ isLoading failedTurn = false.
Proof.
  split; [reflexivity |]. split; [reflexivity |]. split; [reflexivity |].
  set (s := readyState gemini_2_5_flash false true false).
  set (env := sampleEnv (Ok failingStream)).
  assert (T : tryBlock env "Hello" (botMessageId 1700000000000) (fileToSend s)
                (continuousEditImage s) (shouldUseThinkingMode s)
                (enterTry 1700000000000 1700000000000 "Hello" None s)
              = (fst (tryBlock env "Hello" (botMessageId 1700000000000)
                        (fileToSend s) (continuousEditImage s)
                        (shouldUseThinkingMode s)
                        (enterTry 1700000000000 1700000000000 "Hello" None s)),
                 Throw "network error"))
    by (vm_compute; reflexivity).
  exact (proj1 (failed_turn_shows_apology env 1700000000000 1700000000000
                  "Hello" s None _ "network error" eq_refl
                  (or_introl eq_refl) eq_refl T)).
Defined.

(** C4 as stated, refuted: a stream delivers a reasoning block and the text
    [Partial answer], then fails.  The reasoning is kept, but no message of
    the timeline shows the accumulated answer: the text of the assistant
    message is the apology alone. *)
Lemma apology_overwrites_partial_answer :
  accumulators (parseStream true (chunks failingStream))
  = ("plan", "Partial answer")
  /\ map text (messages failedTurn) = ["Hello"; APOLOGY]
  /\ map thinkingText (messages failedTurn) = [None; Some "plan"]
  /\ map isStreaming (messages failedTurn) = [None; Some false]
  /\ (forall m, In m (messages failedTurn) ->
        ~ partial_content_visible (parseStream true (chunks failingStream)) m).
Proof.
  split; [vm_compute; reflexivity |].
  split; [vm_compute; reflexivity |].
  split; [vm_compute; reflexivity |].
  split; [vm_compute; reflexivity |].
  intros m Hin [Htext Hth].
  assert (E : messages failedTurn
              = [userMessage 1700000000000 "Hello" None;
                 mkMessage "1700000000001" APOLOGY (Some "plan") bot
                   (Some false) (Some gemini_2_5_flash) None None None None
                   (Some None) (Some "Typing...") (Some true)])
    by (vm_compute; reflexivity).
  rewrite E in Hin. destruct Hin as [<- | [<- | []]].
  - discriminate Hth.
  - vm_compute in Htext. discriminate Htext.
Qed.

(** ** What the streaming parser does get right

    Fragments that hold each tag whole, the opening tag at the start of its
    fragment, and no other [<]. *)

Lemma processChunk_text (th : bool) (st : ParserState) (x : string) :
  processChunk th st (textChunk x)
  = if truthy x then processText th x st else st.
Proof.
  unfold processChunk, chunkParts, chunkGrounding, textChunk, processPart.
  cbn [candidates content parts cand_groundingMetadata fold_left thought ptext].
  destruct (truthy x); reflexivity.
Qed.

Lemma plain_no_open (x : string) : plain x -> includes x THOUGHT_OPEN = false.
Proof. exact (plain_no_pattern _ x). Qed.

Lemma plain_no_close (x : string) : plain x -> includes x THOUGHT_CLOSE = false.
Proof. exact (plain_no_pattern _ x). Qed.

Lemma plain_chunk (x : string) (st : ParserState) :
  plain x ->
  processChunk true st (textChunk x)
  = mkParserState
      (if isInsideThinkingBlock st then fullResponseText st
       else fullResponseText st ++ x)
      (if isInsideThinkingBlock st then fullThinkingText st ++ x
       else fullThinkingText st)
      (loop_groundingMetadata st) (isInsideThinkingBlock st).
Proof.
  intros H. rewrite processChunk_text. destruct x as [| c x].
  - cbn [truthy]. destruct st as [r t g i]. cbn.
    rewrite !append_nil_r. destruct i; reflexivity.
  - cbn [truthy]. unfold processText.
    rewrite (plain_no_open _ H), (plain_no_close _ H).
    destruct (isInsideThinkingBlock st); reflexivity.
Qed.

Lemma plain_chunks (l : list string) :
  Forall plain l ->
  forall st,
    fold_left (processChunk true) (map textChunk l) st
    = mkParserState
        (if isInsideThinkingBlock st then fullResponseText st
         else fullResponseText st ++ joinAll l)
        (if isInsideThinkingBlock st then fullThinkingText st ++ joinAll l
         else fullThinkingText st)
        (loop_groundingMetadata st) (isInsideThinkingBlock st).
Proof.
  induction 1 as [| x l Hx Hl IH]; intros st.
  - destruct st as [r t g i]. cbn. rewrite !append_nil_r.
    destruct i; reflexivity.
  - cbn [map fold_left]. rewrite (plain_chunk x st Hx), IH.
    cbn [fullResponseText fullThinkingText loop_groundingMetadata
         isInsideThinkingBlock joinAll fold_right].
    destruct (isInsideThinkingBlock st); rewrite ?append_assoc; reflexivity.
Qed.

Lemma open_then_plain_no_close (t : string) :
  plain t -> includes (THOUGHT_OPEN ++ t) THOUGHT_CLOSE = false.
Proof.
  intros H. unfold THOUGHT_OPEN. cbn. exact (plain_no_close t H).
Qed.

Lemma close_then_plain_no_open (p : string) :
  plain p -> includes (THOUGHT_CLOSE ++ p) THOUGHT_OPEN = false.
Proof.
  intros H. unfold THOUGHT_CLOSE. cbn. exact (plain_no_open p H).
Qed.

Lemma truthy_app_tag (a r b : string) : truthy (a ++ String "<" r ++ b) = true.
Proof. destruct a; reflexivity. Qed.

Lemma open_chunk (t : string) (st : ParserState) :
  plain t ->
  processChunk true st (textChunk (THOUGHT_OPEN ++ t))
  = mkParserState (fullResponseText st) (fullThinkingText st ++ t)
                  (loop_groundingMetadata st) true.
Proof.
  intros H. rewrite processChunk_text.
  change (truthy (THOUGHT_OPEN ++ t)) with true. cbv iota.
  exact (processText_open_only "" t st eq_refl (open_then_plain_no_close t H)).
Qed.

Lemma split_at_close (t p : string) :
  plain t -> plain p ->
  split (t ++ THOUGHT_CLOSE ++ p) THOUGHT_CLOSE = [t; p].
Proof.
  intros Ht Hp. unfold split, THOUGHT_CLOSE.
  rewrite (split_from_first _ t p "" Ht).
  rewrite (split_from_none _ p "" (plain_no_pattern _ p Hp)).
  reflexivity.
Qed.

Lemma close_chunk (t p : string) (st : ParserState) :
  plain t -> plain p ->
  processChunk true st (textChunk (t ++ THOUGHT_CLOSE ++ p))
  = mkParserState (fullResponseText st ++ p) (fullThinkingText st ++ t)
                  (loop_groundingMetadata st) false.
Proof.
  intros Ht Hp. rewrite processChunk_text.
  unfold THOUGHT_CLOSE at 1. rewrite truthy_app_tag.
  unfold processText.
  assert (O : includes (t ++ THOUGHT_CLOSE ++ p) THOUGHT_OPEN = false).
  { unfold THOUGHT_OPEN. rewrite (includes_app_plain _ t _ Ht).
    exact (close_then_plain_no_open p Hp). }
  rewrite O, includes_app_r, (split_at_close t p Ht Hp). reflexivity.
Qed.

Lemma whole_chunk (t p : string) (st : ParserState) :
  plain t -> plain p ->
  processChunk true st
    (textChunk (THOUGHT_OPEN ++ t ++ THOUGHT_CLOSE ++ p))
  = mkParserState (fullResponseText st ++ p) (fullThinkingText st ++ t)
                  (loop_groundingMetadata st) false.
Proof.
  intros Ht Hp. rewrite processChunk_text.
  change (truthy (THOUGHT_OPEN ++ t ++ THOUGHT_CLOSE ++ p)) with true.
  cbv iota. unfold processText.
  assert (O : includes (THOUGHT_OPEN ++ t ++ THOUGHT_CLOSE ++ p) THOUGHT_OPEN
              = true)
    by exact (includes_app_r "" THOUGHT_OPEN (t ++ THOUGHT_CLOSE ++ p)).
  assert (R : replace (THOUGHT_OPEN ++ t ++ THOUGHT_CLOSE ++ p) THOUGHT_OPEN ""
              = t ++ THOUGHT_CLOSE ++ p)
    by exact (replace_open_after_plain "" (t ++ THOUGHT_CLOSE ++ p) eq_refl).
  assert (C : includes (THOUGHT_OPEN ++ t ++ THOUGHT_CLOSE ++ p) THOUGHT_CLOSE
              = true).
  { rewrite <- append_assoc. apply includes_app_r. }
  rewrite O, R, C, (split_at_close t p Ht Hp). reflexivity.
Qed.

(** X7. With the tags whole and aligned, the reasoning accumulator is the text
    between the tags and the answer accumulator the text of the other
    fragments: the block spread over several fragments, or held in one. *)
Theorem aligned_tags_are_parsed (before inner after : list string)
    (t0 tk p : string) :
  Forall plain before -> Forall plain inner -> Forall plain after ->
  plain t0 -> plain tk -> plain p ->
  parseFragments true
    (before ++ [(THOUGHT_OPEN ++ t0)%string] ++ inner
     ++ [(tk ++ THOUGHT_CLOSE ++ p)%string] ++ after)%list
  = (t0 ++ joinAll inner ++ tk, joinAll before ++ p ++ joinAll after)
  /\ parseFragments true
       (before ++ [(THOUGHT_OPEN ++ t0 ++ THOUGHT_CLOSE ++ p)%string]
        ++ after)%list
     = (t0, joinAll before ++ p ++ joinAll after).
Proof.
  intros Hb Hi Ha H0 Hk Hp. unfold parseFragments, parseStream, accumulators.
  split.
  - rewrite !map_app, !fold_left_app. cbn [map fold_left].
    rewrite (plain_chunks before Hb), (open_chunk t0 _ H0).
    rewrite (plain_chunks inner Hi), (close_chunk tk p _ Hk Hp).
    rewrite (plain_chunks after Ha).
    cbn. rewrite !append_assoc. reflexivity.
  - rewrite !map_app, !fold_left_app. cbn [map fold_left].
    rewrite (plain_chunks before Hb), (whole_chunk t0 p _ H0 Hp).
    rewrite (plain_chunks after Ha).
    cbn. rewrite !append_assoc. reflexivity.
Qed.

(** * Further properties of the code *)

(** ** The suggestions split, in general *)

Lemma split_single_piece (s sep : string) :
  includes s sep = false -> split s sep = [s].
Proof. intros H. unfold split. rewrite (split_from_none sep s "" H). reflexivity. Qed.

(** X1. A final answer in which the suggestions sentinel does not occur is
    kept whole (trimmed) as the text, and the message gets no suggestions
    field. *)
Theorem no_sentinel_whole_answer_no_suggestions (sh : bool) (st : ParserState)
    (msg : Message) :
  includes (fullResponseText st) SUGGESTIONS = false ->
  mainText (fullResponseText st) = trim (fullResponseText st)
  /\ parseSuggestions (fullResponseText st) = []
  /\ text (finalUpdate sh st msg) = trim (fullResponseText st)
  /\ suggestions (finalUpdate sh st msg) = None.
Proof.
  intros H.
  assert (M : mainText (fullResponseText st) = trim (fullResponseText st))
    by (unfold mainText; rewrite (split_single_piece _ _ H); reflexivity).
  assert (P : parseSuggestions (fullResponseText st) = [])
    by (unfold parseSuggestions, suggestionText;
        rewrite (split_single_piece _ _ H); reflexivity).
  split; [exact M |]. split; [exact P |]. split.
  - exact M.
  - unfold finalUpdate. cbn. rewrite P. reflexivity.
Qed.

Lemma no_sentinel_whole_answer_no_suggestions_witness :
  includes "  Just an answer - no offers.  " SUGGESTIONS = false
  /\ text (finalUpdate false
             (mkParserState "  Just an answer - no offers.  " "" None false)
             placeholder)
     = "Just an answer - no offers.".
Proof.
  split; [reflexivity |].
  exact (proj1 (proj2 (proj2
           (no_sentinel_whole_answer_no_suggestions false
              (mkParserState "  Just an answer - no offers.  " "" None false)
              placeholder eq_refl)))).
Defined.

Lemma includes_snoc_other (c d : ascii) (cur : string) :
  includes cur (String c "") = false -> d <> c ->
  includes (cur ++ String d "") (String c "") = false.
Proof.
  intros H N. induction cur as [| x cur IH].
  - cbn. destruct (ascii_dec c d) as [E | _]; [congruence | reflexivity].
  - rewrite includes_eq in H. cbn [append]. rewrite includes_eq.
    cbn [prefix] in *. destruct (ascii_dec c x) as [E | _].
    + rewrite prefix_nil in H. discriminate H.
    + exact (IH H).
Qed.

(** No piece of a split at a one-character separator holds the separator. *)
Lemma split_single_char_pieces (c : ascii) (s cur : string) :
  includes cur (String c "") = false ->
  Forall (fun p => includes p (String c "") = false)
         (split_from (String c "") 0 cur s).
Proof.
  revert cur. induction s as [| d s IH]; intros cur H.
  - constructor; [exact H | constructor].
  - rewrite split_from_eq. cbn [prefix String.length Nat.sub].
    destruct (ascii_dec c d) as [E | N].
    + rewrite prefix_nil. constructor; [exact H |].
      apply IH. reflexivity.
    + apply IH. apply includes_snoc_other; [exact H | congruence].
Qed.

(** X2. Whatever the final answer, every suggestion put on the message is a
    single line (it holds no line feed) that is not blank, and the field is
    either absent or a non-empty list. *)
Theorem suggestions_are_nonblank_single_lines (sh : bool) (st : ParserState)
    (msg : Message) :
  Forall (fun l => nonblank l = true /\ includes l LF = false)
         (parseSuggestions (fullResponseText st))
  /\ match suggestions (finalUpdate sh st msg) with
     | None => parseSuggestions (fullResponseText st) = []
     | Some l => l = parseSuggestions (fullResponseText st) /\ l <> []
     end.
Proof.
  split.
  - unfold parseSuggestions. apply Forall_forall. intros l Hin.
    apply filter_In in Hin. destruct Hin as [Hin Hnb]. split; [exact Hnb |].
    pose proof (split_single_char_pieces "010"
                  (suggestionText (fullResponseText st)) "" eq_refl) as F.
    rewrite Forall_forall in F. exact (F l Hin).
  - unfold finalUpdate. cbn.
    destruct (parseSuggestions (fullResponseText st)) as [| x l];
      cbn; [reflexivity | split; [reflexivity | discriminate]].
Qed.

Lemma firstn_subset {A} (n : nat) (l : list A) (x : A) :
  In x (firstn n l) -> In x l.
Proof.
  revert l. induction n as [| n IH]; intros [| y l]; simpl; try tauto.
  intros [E | H]; [left; exact E | right; exact (IH l H)].
Qed.

(** X3. [generatePostTaskSuggestions] returns at most three suggestions,
    none of them blank; without a client, or when the provider call fails or
    carries no text, it returns the empty list. *)
Theorem post_task_suggestions_shape (env : Env) (client : bool)
    (prompt : string) (type : TaskType) :
  let out := generatePostTaskSuggestions env client prompt type in
  List.length out <= 3
  /\ Forall (fun l => nonblank l = true) out
  /\ (client = false -> out = [])
  /\ (forall e, generateContent env (SuggestionRequest type prompt) = Throw e ->
      out = [])
  /\ (forall r, generateContent env (SuggestionRequest type prompt) = Ok r ->
      truthy_opt (rtext r) = false -> out = []).
Proof.
  cbv zeta. unfold generatePostTaskSuggestions, slice_to.
  destruct client; cbn [negb].
  2: { split; [simpl; lia |]. split; [constructor |]. repeat split. }
  destruct (generateContent env (SuggestionRequest type prompt)) as [r | e].
  2: { split; [simpl; lia |]. split; [constructor |]. repeat split. }
  destruct (rtext r) as [t |] eqn:Er.
  2: { split; [simpl; lia |]. split; [constructor |]. repeat split. }
  destruct (truthy t) eqn:Et.
  2: { split; [simpl; lia |]. split; [constructor |]. repeat split. }
  split; [rewrite length_firstn; lia |]. split.
  - apply Forall_forall. intros l Hin.
    apply firstn_subset, filter_In in Hin. exact (proj2 Hin).
  - split; [discriminate |]. split; [discriminate |].
    intros r0 [= <-]. rewrite Er. cbn [truthy_opt]. rewrite Et. discriminate.
Qed.

Lemma post_task_suggestions_shape_witness :
  generateContent (sampleEnv (Throw "offline"))
    (SuggestionRequest IMAGE_GEN "a cat") = Throw "provider error"
  /\ generatePostTaskSuggestions (sampleEnv (Throw "offline")) true "a cat"
       IMAGE_GEN = [].
Proof.
  split; [reflexivity |].
  exact (proj1 (proj2 (proj2 (proj2
           (post_task_suggestions_shape (sampleEnv (Throw "offline")) true
              "a cat" IMAGE_GEN)))) "provider error" eq_refl).
Defined.

(** ** The streaming loop, in general *)

Lemma prefix_true_app (p s : string) :
  prefix p s = true -> exists r, s = p ++ r.
Proof.
  revert s. induction p as [| c p IH]; intros s H.
  - exists s. reflexivity.
  - destruct s as [| d s]; [discriminate H |].
    cbn [prefix] in H. destruct (ascii_dec c d) as [<- | N]; [| discriminate H].
    destruct (IH s H) as [r ->]. exists r. reflexivity.
Qed.

Lemma includes_cons (c : ascii) (t pat : string) :
  includes t pat = true -> includes (String c t) pat = true.
Proof.
  intros H. rewrite includes_eq, H.
  destruct (prefix pat (String c t)); reflexivity.
Qed.

(** Deleting the first opening tag never destroys a closing tag. *)
Lemma replace_open_keeps_close (content : string) :
  includes content THOUGHT_CLOSE = true ->
  includes (replace content THOUGHT_OPEN "") THOUGHT_CLOSE = true.
Proof.
  induction content as [| c t IH]; intros H.
  - discriminate H.
  - rewrite replace_eq.
    destruct (prefix THOUGHT_OPEN (String c t)) eqn:P.
    + apply prefix_true_app in P. destruct P as [r E].
      rewrite E in H |- *. rewrite drop_app. cbn [append].
      unfold THOUGHT_OPEN in H. cbn in H. exact H.
    + rewrite includes_eq in H.
      destruct (prefix THOUGHT_CLOSE (String c t)) eqn:Q.
      * apply prefix_true_app in Q. destruct Q as [r E].
        unfold THOUGHT_CLOSE in E. cbn [append] in E.
        injection E as -> ->. cbn.
        change (includes (THOUGHT_CLOSE ++ replace r THOUGHT_OPEN "")
                         THOUGHT_CLOSE = true).
        exact (includes_app_r "" THOUGHT_CLOSE _).
      * apply includes_cons. exact (IH H).
Qed.

Lemma split_from_nonempty (sep s : string) :
  forall skip cur, exists x l, split_from sep skip cur s = x :: l.
Proof.
  induction s as [| c s IH]; intros skip cur.
  - exists cur, []. reflexivity.
  - rewrite split_from_eq. destruct skip as [| k]; [| apply IH].
    destruct (prefix sep (String c s)); [| apply IH].
    exists cur. eexists. reflexivity.
Qed.

(** A string that holds a non-empty separator splits into two pieces at
    least. *)
Lemma split_from_two (a : ascii) (r s : string) :
  includes s (String a r) = true ->
  forall cur, exists first rest more,
    split_from (String a r) 0 cur s = first :: rest :: more.
Proof.
  induction s as [| c s IH]; intros H cur.
  - discriminate H.
  - rewrite includes_eq in H. rewrite split_from_eq.
    destruct (prefix (String a r) (String c s)).
    + destruct (split_from_nonempty (String a r) s
                  (String.length (String a r) - 1) "") as (x & l & E).
      exists cur, x, l. rewrite E. reflexivity.
    + apply IH. exact H.
Qed.

(** X4. In the closing-tag branch the destructuring always finds both
    pieces: when a part holds the closing tag, the text the loop splits
    (the part with its first opening tag deleted) splits into at least two
    pieces, the first goes to the reasoning accumulator and the second to
    the answer accumulator.  The loop never appends a missing piece. *)
Theorem close_tag_rest_is_defined (content : string) (st : ParserState) :
  includes content THOUGHT_CLOSE = true ->
  exists thought rest more,
    split (processedContent content) THOUGHT_CLOSE = thought :: rest :: more
    /\ processText true content st
       = mkParserState (fullResponseText st ++ rest)
                       (fullThinkingText st ++ thought)
                       (loop_groundingMetadata st) false.
Proof.
  intros H.
  assert (I : includes (processedContent content) THOUGHT_CLOSE = true).
  { unfold processedContent. destruct (includes content THOUGHT_OPEN);
      [exact (replace_open_keeps_close content H) | exact H]. }
  destruct (split_from_two "<" "/THOUGHT_PROCESS>" _ I "")
    as (thought & rest & more & E).
  exists thought, rest, more. split; [exact E |].
  unfold processText. rewrite H.
  fold (processedContent content).
  change (split_from "</THOUGHT_PROCESS>" 0 "" (processedContent content))
    with (split (processedContent content) THOUGHT_CLOSE) in E.
  rewrite E. reflexivity.
Qed.

Lemma close_tag_rest_is_defined_witness :
  includes "a</THOUGHT_PROCESS>b<THOUGHT_PROCESS>c" THOUGHT_CLOSE = true
  /\ exists thought rest more,
       split (processedContent "a</THOUGHT_PROCESS>b<THOUGHT_PROCESS>c")
             THOUGHT_CLOSE = thought :: rest :: more
       /\ processText true "a</THOUGHT_PROCESS>b<THOUGHT_PROCESS>c" parserStart
          = mkParserState ("" ++ rest) ("" ++ thought) None false.
Proof.
  split; [reflexivity |].
  exact (close_tag_rest_is_defined "a</THOUGHT_PROCESS>b<THOUGHT_PROCESS>c"
           parserStart eq_refl).
Defined.

Lemma grows_refl (st : ParserState) : grows st st.
Proof. exists "", "". rewrite !append_nil_r. split; reflexivity. Qed.

Lemma grows_trans (a b c : ParserState) : grows a b -> grows b c -> grows a c.
Proof.
  intros (x1 & y1 & R1 & T1) (x2 & y2 & R2 & T2).
  exists (x1 ++ x2), (y1 ++ y2).
  rewrite R2, T2, R1, T1, !append_assoc. split; reflexivity.
Qed.

Lemma processText_grows (th : bool) (content : string) (st : ParserState) :
  grows st (processText th content st).
Proof.
  unfold processText, grows.
  destruct th; cbn [fullResponseText fullThinkingText].
  - destruct (includes content THOUGHT_CLOSE).
    + unfold destructure2. cbn [fullResponseText fullThinkingText].
      unfold append_js. eexists. eexists. split; reflexivity.
    + destruct (includes content THOUGHT_OPEN),
        (isInsideThinkingBlock st);
        cbn [fullResponseText fullThinkingText];
        first [ exists ""; eexists;
                split; [symmetry; apply append_nil_r | reflexivity]
              | eexists; exists "";
                split; [reflexivity | symmetry; apply append_nil_r] ].
  - eexists. exists "". split; [reflexivity | symmetry; apply append_nil_r].
Qed.

Lemma processPart_grows (th : bool) (st : ParserState) (part : Part) :
  grows st (processPart th st part).
Proof.
  unfold processPart.
  assert (T : grows st
                match ptext part with
                | Some content =>
                    if truthy content then processText th content st else st
                | None => st
                end).
  { destruct (ptext part) as [content |]; [| apply grows_refl].
    destruct (truthy content); [apply processText_grows | apply grows_refl]. }
  destruct (thought part) as [v |]; [| exact T].
  destruct (thought_truthy v); [| exact T].
  exists "". eexists. cbn.
  split; [symmetry; apply append_nil_r | reflexivity].
Qed.

Lemma fold_grows {A} (f : ParserState -> A -> ParserState) (xs : list A) :
  (forall st x, grows st (f st x)) ->
  forall st, grows st (fold_left f xs st).
Proof.
  intros Hf. induction xs as [| x xs IH]; intros st; simpl.
  - apply grows_refl.
  - exact (grows_trans _ _ _ (Hf st x) (IH _)).
Qed.

Lemma processChunk_grows (th : bool) (st : ParserState) (chunk : Response) :
  grows st (processChunk th st chunk).
Proof.
  unfold processChunk.
  pose proof (fold_grows (processPart th) (chunkParts chunk)
                (processPart_grows th) st) as G.
  destruct (chunkGrounding chunk); [| exact G].
  destruct G as (a & b & R & T). exists a, b. split; assumption.
Qed.

(** X5. The accumulators are append-only: whatever the chunks (plain text,
    native thought parts, tags anywhere, reasoning on or off), after any
    further chunks the answer accumulator and the reasoning accumulator are
    their former values with text appended; nothing already shown is ever
    removed or rewritten while the stream runs. *)
Theorem accumulators_only_grow (th : bool) (before further : list Response) :
  grows (parseStream th before) (parseStream th (before ++ further)).
Proof.
  unfold parseStream. rewrite fold_left_app.
  apply fold_grows. intros st x. apply processChunk_grows.
Qed.

Lemma tagging_off_chunk (x : string) (st : ParserState) :
  processChunk false st (textChunk x)
  = mkParserState (fullResponseText st ++ x) (fullThinkingText st)
                  (loop_groundingMetadata st) (isInsideThinkingBlock st).
Proof.
  rewrite processChunk_text. destruct x as [| c x]; cbn [truthy].
  - destruct st as [r t g i]. cbn. rewrite append_nil_r. reflexivity.
  - reflexivity.
Qed.

(** X6. With reasoning off, the loop does not look for tags: every plain-text
    fragment, tags included, is appended verbatim to the answer accumulator,
    and the reasoning accumulator stays empty. *)
Theorem tagging_off_appends_everything_to_answer (frags : list string) :
  parseFragments false frags = ("", joinAll frags).
Proof.
  unfold parseFragments, parseStream, accumulators.
  assert (G : forall st,
             fold_left (processChunk false) (map textChunk frags) st
             = mkParserState (fullResponseText st ++ joinAll frags)
                             (fullThinkingText st) (loop_groundingMetadata st)
                             (isInsideThinkingBlock st)).
  { induction frags as [| x frags IH]; intros st.
    - destruct st as [r t g i]. cbn. rewrite append_nil_r. reflexivity.
    - cbn [map fold_left]. rewrite tagging_off_chunk, IH. cbn.
      rewrite append_assoc. reflexivity. }
  rewrite G. reflexivity.
Qed.

(** ** A turn, whatever its pathway and outcome *)

Lemma toString_inj (a b : Z) : toString a = toString b -> a = b.
Proof.
  unfold toString. intros E.
  assert (N : forall z, Z.to_int z <> Decimal.Pos Decimal.Nil
                        /\ Z.to_int z <> Decimal.Neg Decimal.Nil).
  { intros [| q | q]; cbn; split; try discriminate;
      intros [= H]; exact (DecimalPos.Unsigned.to_uint_nonnil q H). }
  pose proof (NilZero.isi (Z.to_int a) (proj1 (N a)) (proj2 (N a))) as Ia.
  pose proof (NilZero.isi (Z.to_int b) (proj1 (N b)) (proj2 (N b))) as Ib.
  rewrite E, Ib in Ia. injection Ia as Ia.
  apply DecimalZ.to_int_inj. symmetry. exact Ia.
Qed.

Lemma toString_truthy (z : Z) : truthy (toString z) = true.
Proof.
  unfold toString. destruct z as [| q | q]; cbn; [reflexivity | |];
    destruct (Pos.to_uint q); reflexivity.
Qed.

Lemma touchesOnly_refl (b : string) (l : list Message) : touchesOnly b l l.
Proof. induction l; constructor; auto. Qed.

Lemma touchesOnly_trans (b : string) (l1 l2 l3 : list Message) :
  touchesOnly b l1 l2 -> touchesOnly b l2 l3 -> touchesOnly b l1 l3.
Proof.
  unfold touchesOnly. intros H. revert l3.
  induction H as [| x y l1 l2 (I & S & U & F) H IH]; intros l3 H3.
  - inversion H3. constructor.
  - inversion H3 as [| y' z l2' l3' (I' & S' & U' & F') H3' ]; subst.
    constructor; [| exact (IH _ H3')].
    repeat split; try congruence.
    intros N. rewrite F' by congruence. exact (F N).
Qed.

Lemma touchesOnly_update (b : string) (f : Message -> Message)
    (l : list Message) :
  keeps_identity f -> touchesOnly b l (updateMessage b f l).
Proof.
  intros K. induction l as [| m l IH]; cbn; constructor; [| exact IH].
  destruct (String.eqb (id m) b) eqn:E.
  - destruct (K m) as (I & S & U). repeat split; try assumption.
    apply String.eqb_eq in E. intros N. contradiction.
  - auto.
Qed.

Ltac keeps := intros ?; repeat split.

Lemma touchesOnly_update_after (b : string) (f : Message -> Message)
    (l l1 : list Message) :
  touchesOnly b l l1 -> keeps_identity f ->
  touchesOnly b l (updateMessage b f l1).
Proof.
  intros H K. eapply touchesOnly_trans; [exact H |].
  apply touchesOnly_update. exact K.
Qed.

Ltac touches :=
  unfold setStatus, setMessages, setLastGeneratedImage, setFullTextRef;
  cbn [messages fst snd];
  repeat (apply touchesOnly_update_after; [| keeps]);
  first [apply touchesOnly_refl | assumption].

Lemma streamStep_fold_touches (b : string) (th se sh : bool)
    (cs : list Response) (acc : ParserState * AppState) (l : list Message) :
  touchesOnly b l (messages (snd acc)) ->
  touchesOnly b l
    (messages (snd (fold_left (streamStep b th se sh) cs acc))).
Proof.
  revert acc. induction cs as [| c cs IH]; intros acc H; cbn [fold_left].
  - exact H.
  - apply IH. unfold streamStep. touches.
Qed.

Lemma streamStep_fold_settings (b : string) (th se sh : bool)
    (cs : list Response) (acc : ParserState * AppState) :
  let s' := snd (fold_left (streamStep b th se sh) cs acc) in
  sameSettings (snd acc) s'
  /\ isLoading s' = isLoading (snd acc)
  /\ stagedFile s' = stagedFile (snd acc)
  /\ revoked s' = revoked (snd acc)
  /\ lastGeneratedImage s' = lastGeneratedImage (snd acc).
Proof.
  revert acc. induction cs as [| c cs IH]; intros acc; cbn [fold_left].
  - unfold sameSettings. repeat split.
  - specialize (IH (streamStep b th se sh acc c)). cbv zeta in IH.
    unfold sameSettings in *. cbn in IH. exact IH.
Qed.

(** The timeline side of the [try] block. *)
Lemma tryBlock_touches (env : Env) (text b : string) (f : option File)
    (c : option string) (sh : bool) (s : AppState) :
  touchesOnly b (messages s) (messages (fst (tryBlock env text b f c sh s))).
Proof.
  unfold tryBlock.
  destruct (negb (aiRef s)); [apply touchesOnly_refl |].
  destruct (ModelType_eqb (model s) gemini_2_5_flash_image
            && (match f with Some _ => true | None => false end
                || truthy_opt c)).
  { unfold imageEditPathway.
    destruct (match f with
              | Some f0 => Ok (fileToGenerativePart env f0)
              | None => dataUrlToGenerativePart env
                          (match c with Some u => u | None => "" end)
              end) as [ip | e]; [| touches].
    destruct (generateContent env (EditRequest ip text)) as [r | e];
      [| touches].
    destruct (editParts r) as [ps | e]; [| touches].
    destruct (fold_left editStep _ ("", "")) as [iu d].
    destruct (truthy iu); touches. }
  destruct (ModelType_eqb (model s) imagen_4_0_generate_001).
  { unfold imagenPathway.
    destruct (generateImages env _ _) as [b64 | e]; [| touches].
    destruct (match b64 with
              | Some b0 =>
                  if truthy b0 then Some ("data:image/png;base64," ++ b0)
                  else None
              | None => None
              end); touches. }
  destruct (isChatModel (model s)); [| apply touchesOnly_refl].
  destruct (chatRef s) as [chat |]; [| apply touchesOnly_refl].
  unfold chatPathway.
  destruct (sendMessageStream env chat _) as [result | e]; [| touches].
  unfold consumeStream.
  assert (H0 : touchesOnly b (messages s)
                 (messages (setStatus b (initialStatus s f) s))) by touches.
  pose proof (streamStep_fold_touches b
                (isThinkingEnabled (setStatus b (initialStatus s f) s))
                (isSearchEnabled (setStatus b (initialStatus s f) s))
                sh (chunks result)
                (parserStart, setStatus b (initialStatus s f) s) _ H0) as H.
  destruct (fold_left _ (chunks result) _) as [st s'].
  cbn [snd] in H. destruct (failure result); cbn [fst]; [exact H |].
  touches.
Qed.

Ltac settled := cbn; unfold turnFrame, sameSettings; cbn; repeat split.

Lemma tryBlock_frame (env : Env) (text b : string) (f : option File)
    (c : option string) (sh : bool) (s : AppState) :
  turnFrame s (fst (tryBlock env text b f c sh s)).
Proof.
  unfold tryBlock.
  destruct (negb (aiRef s)); [settled |].
  destruct (ModelType_eqb (model s) gemini_2_5_flash_image
            && (match f with Some _ => true | None => false end
                || truthy_opt c)).
  { unfold imageEditPathway.
    destruct (match f with
              | Some f0 => Ok (fileToGenerativePart env f0)
              | None => dataUrlToGenerativePart env
                          (match c with Some u => u | None => "" end)
              end) as [ip | e]; [| settled].
    destruct (generateContent env (EditRequest ip text)) as [r | e];
      [| settled].
    destruct (editParts r) as [ps | e]; [| settled].
    destruct (fold_left editStep _ ("", "")) as [iu d].
    destruct (truthy iu); settled. }
  destruct (ModelType_eqb (model s) imagen_4_0_generate_001).
  { unfold imagenPathway.
    destruct (generateImages env _ _) as [b64 | e]; [| settled].
    destruct (match b64 with
              | Some b0 =>
                  if truthy b0 then Some ("data:image/png;base64," ++ b0)
                  else None
              | None => None
              end); settled. }
  destruct (isChatModel (model s)); [| settled].
  destruct (chatRef s) as [chat |]; [| settled].
  unfold chatPathway.
  destruct (sendMessageStream env chat _) as [result | e]; [| settled].
  unfold consumeStream.
  pose proof (streamStep_fold_settings b
                (isThinkingEnabled (setStatus b (initialStatus s f) s))
                (isSearchEnabled (setStatus b (initialStatus s f) s))
                sh (chunks result)
                (parserStart, setStatus b (initialStatus s f) s)) as H.
  cbv zeta in H.
  destruct (fold_left _ (chunks result) _) as [st s'].
  cbn [snd] in H. unfold turnFrame, sameSettings in *. cbn in H.
  destruct (failure result); cbn; intuition.
Qed.

Lemma updateMessage_fresh (b : string) (f : Message -> Message)
    (l : list Message) :
  Forall (fun m => id m <> b) l -> updateMessage b f l = l.
Proof.
  induction 1 as [| m l N _ IH]; cbn; [reflexivity |].
  apply String.eqb_neq in N. rewrite N. f_equal. exact IH.
Qed.

Lemma touchesOnly_fresh (b : string) (l l' : list Message) :
  Forall (fun m => id m <> b) l -> touchesOnly b l l' -> l' = l.
Proof.
  intros F H. induction H as [| m m' l l' (_ & _ & _ & E) H IH].
  - reflexivity.
  - inversion F; subst. f_equal; [apply E; assumption | apply IH; assumption].
Qed.

Lemma guard_passes (text : string) (s : AppState) :
  isLoading s = false ->
  truthy (trim text) = true \/ stagedFile s <> None ->
  isLoading s
  || (negb (truthy (trim text))
      && match stagedFile s with Some _ => false | None => true end) = false.
Proof.
  intros Hload [Ht | Hs]; rewrite Hload; cbn [orb].
  - rewrite Ht. reflexivity.
  - destruct (stagedFile s); [apply andb_false_r | contradiction].
Qed.

Lemma enterTry_cells (t_user t_bot : Z) (text : string)
    (uploaded : option string) (s : AppState) :
  let s3 := enterTry t_user t_bot text uploaded s in
  sameSettings s s3 /\ stagedFile s3 = None
  /\ revoked s3 = (revoked s ++ stagedUrls s)%list
  /\ lastGeneratedImage s3 = lastGeneratedImage s
  /\ isLoading s3 = true.
Proof.
  cbv zeta. unfold enterTry, revokeStaged, stagedUrls, sameSettings.
  destruct s as [ms ld md ar vm se th tu sf lg sb ch ac ai cr ft rv].
  destruct sf; cbn; rewrite ?app_nil_r; repeat split.
Qed.

(** X8. A turn adds exactly two messages and rewrites none: whatever the
    pathway and whether it completes or fails, the timeline afterwards is
    the old one followed by the user message and one assistant message,
    position by position with the same ids and senders, and every message
    whose id is not the placeholder's is untouched.  The loading flag ends
    cleared, the staged file is consumed and its object URL revoked once, and
    model, toggles, session list and chat object are as before.  When the
    placeholder id is fresh and the clock does not run backwards, the old
    timeline and the user message are there unchanged. *)
Theorem turn_touches_only_the_placeholder (env : Env) (t_user t_bot : Z)
    (text : string) (s : AppState) (uploaded : option string) :
  isLoading s = false ->
  truthy (trim text) = true \/ stagedFile s <> None ->
  readUpload env s = Ok uploaded ->
  let sf := fst (handleSendMessage env t_user t_bot text s) in
  isLoading sf = false
  /\ stagedFile sf = None
  /\ revoked sf = (revoked s ++ stagedUrls s)%list
  /\ sameSettings s sf
  /\ touchesOnly (botMessageId t_bot)
       (messages s ++ [userMessage t_user text uploaded;
                       initialBotMessage t_bot s])%list
       (messages sf)
  /\ (Forall (fun m => id m <> botMessageId t_bot) (messages s) ->
      (t_user <= t_bot)%Z ->
      exists m,
        messages sf
        = (messages s ++ [userMessage t_user text uploaded; m])%list
        /\ id m = botMessageId t_bot /\ sender m = bot).
Proof.
  intros Hload Hguard Hup. cbv zeta.
  unfold handleSendMessage. rewrite (guard_passes text s Hload Hguard), Hup.
  cbn [fst]. unfold settle.
  set (b := botMessageId t_bot).
  set (s3 := enterTry t_user t_bot text uploaded s).
  pose proof (tryBlock_frame env text b (fileToSend s) (continuousEditImage s)
                (shouldUseThinkingMode s) s3) as F.
  pose proof (tryBlock_touches env text b (fileToSend s)
                (continuousEditImage s) (shouldUseThinkingMode s) s3) as T.
  destruct (enterTry_cells t_user t_bot text uploaded s)
    as (S3 & St3 & R3 & _ & _).
  destruct (enterTry_frame t_user t_bot text uploaded s) as (M3 & _).
  fold s3 in S3, St3, R3, M3.
  destruct (tryBlock env text b (fileToSend s) (continuousEditImage s)
              (shouldUseThinkingMode s) s3) as [s4 r].
  cbn [fst snd] in *.
  destruct F as (S4 & _ & St4 & R4).
  assert (T' : touchesOnly b
                 (messages s ++ [userMessage t_user text uploaded;
                                 initialBotMessage t_bot s])%list
                 (messages
                    (setIsLoading false
                       match r with
                       | Ok _ => s4
                       | Throw _ => catchBlock b s4
                       end))).
  { rewrite M3, <- app_assoc in T. cbn [app] in T.
    destruct r; [exact T |]. unfold catchBlock. touches. }
  assert (Q : forall x : AppState,
             x = s4 \/ x = catchBlock b s4 ->
             stagedFile (setIsLoading false x) = None
             /\ revoked (setIsLoading false x) = (revoked s ++ stagedUrls s)%list
             /\ sameSettings s (setIsLoading false x)).
  { intros x [-> | ->]; cbn; unfold sameSettings in *; cbn;
      rewrite ?St4, ?R4; intuition congruence. }
  assert (X : match r with
              | Ok _ => s4
              | Throw _ => catchBlock b s4
              end = s4
              \/ match r with
                 | Ok _ => s4
                 | Throw _ => catchBlock b s4
                 end = catchBlock b s4)
    by (destruct r; auto).
  destruct (Q _ X) as (Q1 & Q2 & Q3).
  split; [reflexivity |]. split; [exact Q1 |]. split; [exact Q2 |].
  split; [exact Q3 |]. split; [exact T' |].
  intros Fresh Hclock.
  apply Forall2_app_inv_l in T'. destruct T' as (l1 & l2 & H1 & H2 & E).
  apply (touchesOnly_fresh b _ _ Fresh) in H1. subst l1.
  inversion H2 as [| u u' r2 r2' (_ & _ & _ & Eu) H2' ]; subst.
  inversion H2' as [| p p' r3 r3' (Ip & Sp & _) H2'' ]; subst.
  inversion H2''; subst.
  exists p'. rewrite E. split; [| split; [exact Ip | exact Sp]].
  rewrite Eu; [reflexivity |].
  cbn. unfold b, botMessageId. intros C. apply toString_inj in C. lia.
Qed.

Lemma turn_touches_only_the_placeholder_witness :
  isLoading (readyState gemini_2_5_flash false true false) = false
  /\ truthy (trim "Hello") = true
  /\ readUpload (sampleEnv (Ok failingStream))
       (readyState gemini_2_5_flash false true false) = Ok None
  /\ stagedFile failedTurn = None.
Proof.
  split; [reflexivity |]. split; [reflexivity |]. split; [reflexivity |].
  exact (proj1 (proj2
           (turn_touches_only_the_placeholder (sampleEnv (Ok failingStream))
              1700000000000 1700000000000 "Hello"
              (readyState gemini_2_5_flash false true false) None eq_refl
              (or_introl eq_refl) eq_refl))).
Defined.

Lemma send_unfold (env : Env) (t_user t_bot : Z) (text : string)
    (s : AppState) (uploaded : option string) :
  isLoading s = false ->
  truthy (trim text) = true \/ stagedFile s <> None ->
  readUpload env s = Ok uploaded ->
  fst (handleSendMessage env t_user t_bot text s)
  = settle (botMessageId t_bot)
      (tryBlock env text (botMessageId t_bot) (fileToSend s)
         (continuousEditImage s) (shouldUseThinkingMode s)
         (enterTry t_user t_bot text uploaded s)).
Proof.
  intros Hload Hguard Hup. unfold handleSendMessage.
  rewrite (guard_passes text s Hload Hguard), Hup. reflexivity.
Qed.

(** X9. Without a provider client every accepted send fails at once, before
    any provider call: the timeline gains the user message and an assistant
    message that is not streaming and carries the apology, with the status
    label of the placeholder still on it; the loading flag ends cleared. *)
Theorem send_without_client_fails_fast (env : Env) (t_user t_bot : Z)
    (text : string) (s : AppState) (uploaded : option string) :
  isLoading s = false ->
  truthy (trim text) = true \/ stagedFile s <> None ->
  readUpload env s = Ok uploaded ->
  aiRef s = false ->
  Forall (fun m => id m <> botMessageId t_bot) (messages s) ->
  (t_user <= t_bot)%Z ->
  let sf := fst (handleSendMessage env t_user t_bot text s) in
  messages sf
  = (messages s
     ++ [userMessage t_user text uploaded;
         mkMessage (botMessageId t_bot) APOLOGY (Some "") bot (Some false)
           (Some (model s)) None None
           (if ModelType_eqb (model s) imagen_4_0_generate_001
            then Some (aspectRatio s) else None)
           None None (Some "Initializing...")
           (Some (shouldUseThinkingMode s))])%list
  /\ isLoading sf = false
  /\ lastGeneratedImage sf = lastGeneratedImage s
  /\ fullTextRef sf = "".
Proof.
  intros Hload Hguard Hup Hai Fresh Hclock. cbv zeta.
  rewrite (send_unfold env t_user t_bot text s uploaded Hload Hguard Hup).
  destruct (enterTry_frame t_user t_bot text uploaded s)
    as (M3 & Hai3 & _).
  destruct (enterTry_cells t_user t_bot text uploaded s)
    as (_ & _ & _ & L3 & _).
  unfold tryBlock. rewrite Hai3, Hai. cbn [negb].
  unfold settle, catchBlock. cbn [fst snd].
  unfold setIsLoading, setMessages.
  cbn [messages isLoading lastGeneratedImage fullTextRef].
  rewrite M3, L3.
  split; [| split; [reflexivity | split; [reflexivity |]]].
  - rewrite updateMessage_last by reflexivity.
    rewrite updateMessage_fresh.
    + rewrite <- app_assoc. reflexivity.
    + apply Forall_app. split; [exact Fresh |].
      constructor; [| constructor]. cbn. unfold botMessageId.
      intros C. apply toString_inj in C. lia.
  - unfold enterTry, revokeStaged.
    destruct s as [ms ld md ar vm se th tu sf lg sb ch ac ai cr ft rv].
    destruct sf; reflexivity.
Qed.

Lemma send_without_client_fails_fast_witness :
  isLoading noClientState = false
  /\ aiRef noClientState = false
  /\ map text
       (messages (fst (handleSendMessage (sampleEnv (Throw "offline"))
                         1700000000000 1700000000002 "Hello" noClientState)))
     = ["Hello"; APOLOGY].
Proof.
  split; [reflexivity |]. split; [reflexivity |].
  rewrite (proj1
             (send_without_client_fails_fast (sampleEnv (Throw "offline"))
                1700000000000 1700000000002 "Hello" noClientState None
                eq_refl (or_introl eq_refl) eq_refl eq_refl
                (Forall_nil _) ltac:(lia))).
  reflexivity.
Defined.

(** X10. On the image-editing model, a send with no staged file and no
    previously generated image matches no pathway: nothing is called and
    nothing fails, the loading flag is cleared, and the assistant
    placeholder stays in the timeline as it was created, still marked as
    streaming with the status label [Initializing...]. *)
Theorem edit_model_without_image_leaves_placeholder (env : Env)
    (t_user t_bot : Z) (text : string) (s : AppState) :
  isLoading s = false ->
  truthy (trim text) = true ->
  model s = gemini_2_5_flash_image ->
  stagedFile s = None ->
  truthy_opt (lastGeneratedImage s) = false ->
  aiRef s = true ->
  let sf := fst (handleSendMessage env t_user t_bot text s) in
  messages sf
  = (messages s
     ++ [userMessage t_user text None;
         mkMessage (botMessageId t_bot) "" (Some "") bot (Some true)
           (Some gemini_2_5_flash_image) None None None None None
           (Some "Initializing...") (Some false)])%list
  /\ isLoading sf = false
  /\ snd (handleSendMessage env t_user t_bot text s) = Resolved.
Proof.
  intros Hload Ht Hm Hs Hl Hai. cbv zeta.
  destruct s as [ms ld md ar vm se th tu sf lg sb ch ac ai cr ft rv].
  cbn in Hload, Hm, Hs, Hl, Hai. subst.
  unfold handleSendMessage, readUpload, fileToSend. cbn [isLoading stagedFile].
  rewrite Ht. cbn [negb andb orb option_map].
  unfold tryBlock, continuousEditImage, enterTry, revokeStaged.
  cbn [aiRef model stagedFile lastGeneratedImage setStagedFile setMessages
       setFullTextRef setIsLoading messages isLoading].
  cbn [negb ModelType_eqb andb orb]. rewrite Hl.
  cbn [isChatModel model_in chatModels existsb ModelType_eqb orb].
  unfold settle. cbn [fst snd].
  unfold initialBotMessage, shouldUseThinkingMode.
  cbn [model isThinkingEnabled aspectRatio supportsThinking model_in existsb
       ModelType_eqb orb andb].
  rewrite andb_false_r.
  split; [| split]; reflexivity.
Qed.

Lemma edit_model_without_image_leaves_placeholder_witness :
  isLoading editModelIdle = false
  /\ truthy (trim "make it blue") = true
  /\ map isStreaming
       (messages (fst (handleSendMessage (sampleEnv (Throw "offline"))
                         1700000000000 1700000000000 "make it blue"
                         editModelIdle)))
     = [None; Some true].
Proof.
  split; [reflexivity |]. split; [reflexivity |].
  rewrite (proj1
             (edit_model_without_image_leaves_placeholder
                (sampleEnv (Throw "offline")) 1700000000000 1700000000000
                "make it blue" editModelIdle eq_refl eq_refl eq_refl eq_refl
                eq_refl eq_refl)).
  reflexivity.
Defined.

Lemma streamStep_fold_ref (b : string) (th se sh : bool) (cs : list Response) :
  forall (st : ParserState) (s : AppState),
    fullTextRef s = fullResponseText st ->
    fullTextRef (snd (fold_left (streamStep b th se sh) cs (st, s)))
    = fullResponseText (fst (fold_left (streamStep b th se sh) cs (st, s))).
Proof.
  induction cs as [| c cs IH]; intros st s H; cbn [fold_left].
  - exact H.
  - unfold streamStep at 2 4. cbn [fst snd]. apply IH. reflexivity.
Qed.

(** X11. When the chat stream ends normally, the assistant message (the
    last of the timeline) is no longer streaming, has no status label, its
    text is the trimmed answer before the suggestions sentinel, its
    reasoning text is the reasoning accumulator verbatim, and its suggestions
    are those parsed from the answer accumulator (absent when there are
    none).  [fullTextRef] holds the raw answer accumulator, and the loading
    flag is cleared. *)
Theorem completed_stream_finalizes_message (env : Env) (t_user t_bot : Z)
    (text : string) (s : AppState) (uploaded : option string) (chat : Chat)
    (cs : list Response) :
  isLoading s = false ->
  truthy (trim text) = true \/ stagedFile s <> None ->
  readUpload env s = Ok uploaded ->
  aiRef s = true ->
  isChatModel (model s) = true ->
  chatRef s = Some chat ->
  (forall content,
      sendMessageStream env chat content = Ok (mkStream cs None)) ->
  let sf := fst (handleSendMessage env t_user t_bot text s) in
  let acc := parseStream (isThinkingEnabled s) cs in
  isLoading sf = false
  /\ fullTextRef sf = fullResponseText acc
  /\ exists front m,
       messages sf = (front ++ [m])%list
       /\ id m = botMessageId t_bot
       /\ isStreaming m = Some false
       /\ statusText m = None
       /\ Types.text m = mainText (fullResponseText acc)
       /\ thinkingText m = Some (fullThinkingText acc)
       /\ suggestions m
          = match parseSuggestions (fullResponseText acc) with
            | [] => None
            | l => Some l
            end
       /\ isThinkingMode m = Some (shouldUseThinkingMode s).
Proof.
  intros Hload Hguard Hup Hai Hchat Hcr Hsend. cbv zeta.
  rewrite (send_unfold env t_user t_bot text s uploaded Hload Hguard Hup).
  destruct (enterTry_frame t_user t_bot text uploaded s)
    as (Hm3 & Hai3 & Hmd3 & Hcr3 & Hth3 & Hse3 & _).
  destruct (chat_model_not_image _ Hchat) as [N1 N2].
  unfold tryBlock.
  rewrite Hai3, Hai, Hmd3, N1, N2, Hchat, Hcr3, Hcr.
  cbn [negb andb]. unfold chatPathway. rewrite Hsend.
  unfold consumeStream. cbn [chunks failure].
  set (b := botMessageId t_bot).
  set (status := initialStatus (enterTry t_user t_bot text uploaded s)
                   (fileToSend s)).
  set (s3' := setStatus b status (enterTry t_user t_bot text uploaded s)).
  assert (Hth' : isThinkingEnabled s3' = isThinkingEnabled s)
    by (subst s3'; unfold setStatus, setMessages; cbn [isThinkingEnabled];
        exact Hth3).
  pose proof (streamStep_fold_last b (isThinkingEnabled s3')
                (isSearchEnabled s3') (shouldUseThinkingMode s) cs
                parserStart s3'
                (updateMessage b (with_statusText (Some status))
                   (messages s ++ [userMessage t_user text uploaded]))
                (with_statusText (Some status) (initialBotMessage t_bot s)))
    as F.
  pose proof (streamStep_fold_ref b (isThinkingEnabled s3')
                (isSearchEnabled s3') (shouldUseThinkingMode s) cs
                parserStart s3') as R.
  cbv zeta in F.
  destruct (fold_left _ cs (parserStart, s3')) as [st s'].
  cbn [fst snd] in F, R.
  destruct F as (Fst & front' & m' & Fm & Fid & _ & _).
  { subst s3'. unfold setStatus, setMessages. cbn [messages].
    rewrite Hm3. apply updateMessage_last. reflexivity. }
  { reflexivity. }
  { reflexivity. }
  { reflexivity. }
  unfold settle. cbn [fst snd].
  unfold parseStream. rewrite <- Hth', <- Fst.
  split; [reflexivity |]. split.
  - unfold setIsLoading, setMessages. cbn [fullTextRef]. apply R.
    subst s3'. unfold setStatus, setMessages. cbn [fullTextRef].
    unfold enterTry, revokeStaged.
    destruct s as [ms ld md ar vm se th tu sf lg sb ch ac ai cr ft rv].
    destruct sf; reflexivity.
  - exists (updateMessage b (finalUpdate (shouldUseThinkingMode s) st) front'),
           (finalUpdate (shouldUseThinkingMode s) st m').
    split.
    + unfold setIsLoading, setMessages. cbn [messages]. rewrite Fm.
      apply updateMessage_last. exact Fid.
    + split; [exact Fid |]. unfold finalUpdate. cbn.
      repeat split.
      destruct (parseSuggestions (fullResponseText st)); reflexivity.
Qed.

Lemma completed_stream_finalizes_message_witness :
  isLoading (readyState gemini_2_5_flash false true false) = false
  /\ aiRef (readyState gemini_2_5_flash false true false) = true
  /\ map text
       (messages (fst (handleSendMessage (sampleEnv (Ok completeStream))
                         1700000000000 1700000000000 "Capital of France?"
                         (readyState gemini_2_5_flash false true false))))
     = ["Capital of France?"; "Paris."]
  /\ isLoading (fst (handleSendMessage (sampleEnv (Ok completeStream))
                       1700000000000 1700000000000 "Capital of France?"
                       (readyState gemini_2_5_flash false true false)))
     = false.
Proof.
  split; [reflexivity |]. split; [reflexivity |].
  split; [vm_compute; reflexivity |].
  exact (proj1
           (completed_stream_finalizes_message (sampleEnv (Ok completeStream))
              1700000000000 1700000000000 "Capital of France?"
              (readyState gemini_2_5_flash false true false) None
              (mkChat gemini_2_5_flash
                 (buildConfig gemini_2_5_flash false true false) [])
              (chunks completeStream) eq_refl (or_introl eq_refl) eq_refl
              eq_refl eq_refl eq_refl (fun _ => eq_refl))).
Defined.

(** ** The image pathways *)

Lemma imagen_model_not_edit (m : ModelType) :
  m = imagen_4_0_generate_001 ->
  ModelType_eqb m gemini_2_5_flash_image = false
  /\ ModelType_eqb m imagen_4_0_generate_001 = true.
Proof. intros ->. split; reflexivity. Qed.

Lemma enterTry_aspect (t_user t_bot : Z) (text : string)
    (uploaded : option string) (s : AppState) :
  aspectRatio (enterTry t_user t_bot text uploaded s) = aspectRatio s.
Proof.
  exact (proj1 (proj2 (proj1 (enterTry_cells t_user t_bot text uploaded s)))).
Qed.

(** X12. On the image-generation model, a generation call that returns no
    image bytes is not treated as a failure: the assistant message ends not
    streaming with the text [Failed to generate image.], without an image,
    still carrying the status label of the rendering step; the last generated
    image is left as it was and the loading flag is cleared. *)
Theorem imagen_empty_artifact_reports_failure (env : Env) (t_user t_bot : Z)
    (text : string) (s : AppState) (uploaded : option string) :
  isLoading s = false ->
  truthy (trim text) = true \/ stagedFile s <> None ->
  readUpload env s = Ok uploaded ->
  aiRef s = true ->
  model s = imagen_4_0_generate_001 ->
  (forall prompt, exists artifact,
      generateImages env prompt (aspectRatio s) = Ok artifact
      /\ truthy_opt artifact = false) ->
  let sf := fst (handleSendMessage env t_user t_bot text s) in
  isLoading sf = false
  /\ lastGeneratedImage sf = lastGeneratedImage s
  /\ exists front m,
       messages sf = (front ++ [m])%list
       /\ id m = botMessageId t_bot
       /\ isStreaming m = Some false
       /\ Types.text m = "Failed to generate image."
       /\ imageUrl m = None
       /\ statusText m = Some "Rendering high-fidelity image..."
       /\ suggestions m
          = Some (generatePostTaskSuggestions env true text IMAGE_GEN).
Proof.
  intros Hload Hguard Hup Hai Hmod Hgen. cbv zeta.
  rewrite (send_unfold env t_user t_bot text s uploaded Hload Hguard Hup).
  destruct (enterTry_frame t_user t_bot text uploaded s)
    as (Hm3 & Hai3 & Hmd3 & _).
  destruct (enterTry_cells t_user t_bot text uploaded s)
    as (_ & _ & _ & L3 & _).
  pose proof (enterTry_aspect t_user t_bot text uploaded s) as Har3.
  destruct (imagen_model_not_edit _ Hmod) as [N1 N2].
  unfold tryBlock. rewrite Hai3, Hai, Hmd3, N1, N2. cbn [negb andb].
  unfold imagenPathway.
  set (prompt := match generateContent env (OptimizerRequest text) with
                 | Ok optimizerResponse =>
                     match rtext optimizerResponse with
                     | Some t => if truthy t then trim t else text
                     | None => text
                     end
                 | Throw _ => text
                 end).
  unfold setStatus, setMessages.
  cbn [aspectRatio aiRef]. rewrite Har3, Hai3, Hai.
  destruct (Hgen prompt) as (artifact & E & T). rewrite E.
  assert (U : match artifact with
              | Some b0 =>
                  if truthy b0 then Some ("data:image/png;base64," ++ b0)
                  else None
              | None => None
              end = None).
  { destruct artifact as [b0 |]; [| reflexivity].
    cbn in T. rewrite T. reflexivity. }
  rewrite U. unfold settle. cbn [fst snd].
  unfold setStatus, setMessages, setIsLoading.
  cbn [isLoading lastGeneratedImage messages].
  split; [reflexivity |]. split; [exact L3 |].
  rewrite Hm3.
  rewrite !(updateMessage_last (botMessageId t_bot)) by reflexivity.
  eexists. eexists. split; [reflexivity |].
  cbn. repeat split.
Qed.

Lemma imagen_empty_artifact_reports_failure_witness :
  isLoading imagenReady = false
  /\ model imagenReady = imagen_4_0_generate_001
  /\ lastGeneratedImage
       (fst (handleSendMessage (imagenEnv None) 1700000000000 1700000000000
               "a cat" imagenReady))
     = Some "data:image/png;base64,OLD".
Proof.
  split; [reflexivity |]. split; [reflexivity |].
  exact (proj1 (proj2
           (imagen_empty_artifact_reports_failure (imagenEnv None)
              1700000000000 1700000000000 "a cat" imagenReady None eq_refl
              (or_introl eq_refl) eq_refl eq_refl eq_refl
              (fun _ => ex_intro _ None (conj eq_refl eq_refl))))).
Defined.

(** X13. The prompt optimizer is best effort: when its call fails, or
    returns no text, the image is generated from the user's own text.  With
    image bytes returned for that prompt, the assistant message ends not
    streaming with the text [Generated image for: "<text>"] and the PNG data
    URL of the bytes, which also becomes the last generated image. *)
Theorem imagen_uses_original_prompt_when_optimizer_fails (env : Env)
    (t_user t_bot : Z) (text : string) (s : AppState)
    (uploaded : option string) (bytes : string) :
  isLoading s = false ->
  truthy (trim text) = true \/ stagedFile s <> None ->
  readUpload env s = Ok uploaded ->
  aiRef s = true ->
  model s = imagen_4_0_generate_001 ->
  ((exists e, generateContent env (OptimizerRequest text) = Throw e)
   \/ (exists r, generateContent env (OptimizerRequest text) = Ok r
                 /\ truthy_opt (rtext r) = false)) ->
  generateImages env text (aspectRatio s) = Ok (Some bytes) ->
  truthy bytes = true ->
  let sf := fst (handleSendMessage env t_user t_bot text s) in
  isLoading sf = false
  /\ lastGeneratedImage sf = Some ("data:image/png;base64," ++ bytes)
  /\ exists front m,
       messages sf = (front ++ [m])%list
       /\ id m = botMessageId t_bot
       /\ isStreaming m = Some false
       /\ Types.text m = "Generated image for: " ++ DQ ++ text ++ DQ
       /\ imageUrl m = Some ("data:image/png;base64," ++ bytes)
       /\ Types.aspectRatio m = Some (aspectRatio s).
Proof.
  intros Hload Hguard Hup Hai Hmod Hopt Hgen Hbytes. cbv zeta.
  rewrite (send_unfold env t_user t_bot text s uploaded Hload Hguard Hup).
  destruct (enterTry_frame t_user t_bot text uploaded s)
    as (Hm3 & Hai3 & Hmd3 & _).
  pose proof (enterTry_aspect t_user t_bot text uploaded s) as Har3.
  destruct (imagen_model_not_edit _ Hmod) as [N1 N2].
  unfold tryBlock. rewrite Hai3, Hai, Hmd3, N1, N2. cbn [negb andb].
  unfold imagenPathway.
  assert (P : match generateContent env (OptimizerRequest text) with
              | Ok optimizerResponse =>
                  match rtext optimizerResponse with
                  | Some t => if truthy t then trim t else text
                  | None => text
                  end
              | Throw _ => text
              end = text).
  { destruct Hopt as [(e & ->) | (r & -> & T)]; [reflexivity |].
    destruct (rtext r) as [t |]; [| reflexivity].
    cbn in T. rewrite T. reflexivity. }
  rewrite P.
  unfold setStatus, setMessages.
  cbn [aspectRatio aiRef]. rewrite Har3, Hgen, Hbytes.
  unfold settle. cbn [fst snd].
  unfold setStatus, setMessages, setIsLoading, setLastGeneratedImage.
  cbn [isLoading lastGeneratedImage messages].
  split; [reflexivity |]. split; [reflexivity |].
  rewrite Hm3.
  rewrite !(updateMessage_last (botMessageId t_bot)) by reflexivity.
  eexists. eexists. split; [reflexivity |].
  cbn. rewrite Hmod. repeat split.
Qed.

Lemma imagen_uses_original_prompt_when_optimizer_fails_witness :
  isLoading imagenReady = false
  /\ generateContent (imagenEnv (Some "QUJD")) (OptimizerRequest "a cat")
     = Throw "provider error"
  /\ lastGeneratedImage
       (fst (handleSendMessage (imagenEnv (Some "QUJD")) 1700000000000
               1700000000000 "a cat" imagenReady))
     = Some "data:image/png;base64,QUJD".
Proof.
  split; [reflexivity |]. split; [reflexivity |].
  exact (proj1 (proj2
           (imagen_uses_original_prompt_when_optimizer_fails
              (imagenEnv (Some "QUJD")) 1700000000000 1700000000000 "a cat"
              imagenReady None "QUJD" eq_refl (or_introl eq_refl) eq_refl
              eq_refl eq_refl
              (or_introl (ex_intro _ "provider error" eq_refl))
              eq_refl eq_refl))).
Defined.

(** X14. Two shapes of an edit response that holds no image.  When it has no
    candidate list, the turn completes: the assistant message ends not
    streaming with the text [Image edit complete.], no image, and the last
    generated image is left as it was.  When the candidate list is there but
    empty, reading its first entry throws, and the turn ends with the
    apology. *)
Theorem edit_response_without_image (env : Env) (t_user t_bot : Z)
    (text : string) (s : AppState) (uploaded : option string)
    (staged : StagedFile) (r : Response) :
  isLoading s = false ->
  stagedFile s = Some staged ->
  readUpload env s = Ok uploaded ->
  aiRef s = true ->
  model s = gemini_2_5_flash_image ->
  generateContent env
    (EditRequest (fileToGenerativePart env (file staged)) text) = Ok r ->
  let sf := fst (handleSendMessage env t_user t_bot text s) in
  (candidates r = None ->
   lastGeneratedImage sf = lastGeneratedImage s
   /\ exists front m,
        messages sf = (front ++ [m])%list
        /\ id m = botMessageId t_bot
        /\ isStreaming m = Some false
        /\ Types.text m = "Image edit complete."
        /\ imageUrl m = None
        /\ suggestions m
           = Some (generatePostTaskSuggestions env true text IMAGE_EDIT))
  /\ (candidates r = Some [] ->
      lastGeneratedImage sf = lastGeneratedImage s
      /\ exists front m,
           messages sf = (front ++ [m])%list
           /\ id m = botMessageId t_bot
           /\ isStreaming m = Some false
           /\ Types.text m = APOLOGY
           /\ suggestions m = None
           /\ statusText m
              = Some "Locking identity features & analyzing structure...").
Proof.
  intros Hload Hst Hup Hai Hmod Hgen. cbv zeta.
  assert (Hguard : truthy (trim text) = true \/ stagedFile s <> None)
    by (right; rewrite Hst; discriminate).
  rewrite (send_unfold env t_user t_bot text s uploaded Hload Hguard Hup).
  destruct (enterTry_frame t_user t_bot text uploaded s)
    as (Hm3 & Hai3 & Hmd3 & _).
  destruct (enterTry_cells t_user t_bot text uploaded s)
    as (_ & _ & _ & L3 & _).
  unfold tryBlock, fileToSend. rewrite Hai3, Hai, Hmd3, Hmod, Hst.
  cbn [negb andb orb option_map ModelType_eqb].
  unfold imageEditPathway. rewrite Hgen. unfold editParts.
  split; intros Hc; rewrite Hc.
  - cbn [fold_left]. unfold setStatus, setMessages. cbn [aiRef truthy].
    rewrite Hai3, Hai. unfold settle. cbn [fst snd].
    unfold setIsLoading. cbn [lastGeneratedImage messages].
    split; [exact L3 |].
    rewrite Hm3.
    rewrite !(updateMessage_last (botMessageId t_bot)) by reflexivity.
    eexists. eexists. split; [reflexivity |]. cbn. repeat split.
  - unfold settle, catchBlock. cbn [fst snd].
    unfold setStatus, setMessages, setIsLoading.
    cbn [lastGeneratedImage messages].
    split; [exact L3 |].
    rewrite Hm3.
    rewrite !(updateMessage_last (botMessageId t_bot)) by reflexivity.
    eexists. eexists. split; [reflexivity |]. cbn. repeat split.
Qed.

Lemma edit_response_without_image_witness :
  isLoading editReady = false
  /\ candidates (mkResponse (Some []) None) = Some []
  /\ map text
       (messages (fst (handleSendMessage (editEnv (mkResponse (Some []) None))
                         1700000000000 1700000000000 "make it blue"
                         editReady)))
     = ["make it blue"; APOLOGY]
  /\ lastGeneratedImage
       (fst (handleSendMessage (editEnv (mkResponse (Some []) None))
               1700000000000 1700000000000 "make it blue" editReady))
     = lastGeneratedImage editReady.
Proof.
  split; [reflexivity |]. split; [reflexivity |].
  split; [vm_compute; reflexivity |].
  exact (proj1 (proj2
           (edit_response_without_image (editEnv (mkResponse (Some []) None))
              1700000000000 1700000000000 "make it blue" editReady
              (Some "data:image/png;base64,AAAA")
              (mkStagedFile "blob:7" (mkFile "a.png" "image/png" "AAAA"))
              (mkResponse (Some []) None) eq_refl eq_refl eq_refl eq_refl
              eq_refl eq_refl) eq_refl)).
Defined.

(** ** The session list *)

Lemma substring_to_length (n : nat) (t : string) :
  String.length (substring_to n t) = Nat.min n (String.length t).
Proof.
  revert t. induction n as [| n IH]; intros [| c t]; cbn; try reflexivity.
  rewrite IH. reflexivity.
Qed.

Lemma substring_to_all (n : nat) (t : string) :
  String.length t <= n -> substring_to n t = t.
Proof.
  revert t. induction n as [| n IH]; intros [| c t] H; cbn in *;
    try reflexivity; try lia.
  rewrite IH by lia. reflexivity.
Qed.

Lemma append_length (a b : string) :
  String.length (a ++ b) = String.length a + String.length b.
Proof. induction a as [| c a IH]; cbn; [reflexivity | rewrite IH; reflexivity]. Qed.

Lemma sessionTitle_bound (t : string) :
  String.length (sessionTitle t) <= 43
  /\ (String.length t <= 40 -> sessionTitle t = t)
  /\ (40 < String.length t ->
      sessionTitle t = substring_to 40 t ++ "..."
      /\ String.length (sessionTitle t) = 43).
Proof.
  unfold sessionTitle.
  destruct (Nat.ltb 40 (String.length t)) eqn:E.
  - apply Nat.ltb_lt in E.
    assert (L : String.length (substring_to 40 t ++ "...") = 43)
      by (rewrite append_length, substring_to_length;
          change (String.length "...") with 3; lia).
    split; [lia |]. split; [lia |]. intros _. split; [reflexivity | exact L].
  - apply Nat.ltb_ge in E. rewrite append_nil_r.
    rewrite (substring_to_all 40 t E).
    split; [lia |]. split; [reflexivity | lia].
Qed.

(** X16. With no session active, the effect that follows a finished turn
    appends one session to the list and makes it active: its id is the
    decimal clock reading, its messages are the timeline, and its title is
    the text of the first user message when that has at most 40 code units,
    and otherwise its first 40 code units followed by three dots; a title
    never exceeds 43 code units. *)
Theorem first_turn_creates_titled_session (json : list Message -> string)
    (t_id t_ts : Z) (s : AppState) (first : Message) (others : list Message) :
  isLoading s = false ->
  filter isUser (messages s) = first :: others ->
  truthy_opt (activeChatId s) = false ->
  let s' := recordTurnEffect json t_id t_ts s in
  let title := sessionTitle (text first) in
  chatHistory s'
  = (chatHistory s
     ++ [mkChatSession (toString t_id) title (messages s) t_ts])%list
  /\ activeChatId s' = Some (toString t_id)
  /\ messages s' = messages s
  /\ String.length title <= 43
  /\ (String.length (text first) <= 40 -> title = text first)
  /\ (40 < String.length (text first) ->
      title = substring_to 40 (text first) ++ "...").
Proof.
  intros Hload Hfirst Hact. cbv zeta. unfold recordTurnEffect.
  rewrite Hload, Hfirst, Hact. cbn.
  destruct (sessionTitle_bound (text first)) as (B & Sh & Lg).
  repeat split; try assumption. intros H. exact (proj1 (Lg H)).
Qed.

Lemma first_turn_creates_titled_session_witness :
  isLoading (setMessages (fun _ => inFlightTimeline) initialState) = false
  /\ chatHistory
       (recordTurnEffect (fun _ => "") 1700000000009 1700000000010
          (setMessages (fun _ => inFlightTimeline) initialState))
     = [mkChatSession "1700000000009" "Hello" inFlightTimeline 1700000000010].
Proof.
  split; [reflexivity |].
  exact (proj1
           (first_turn_creates_titled_session (fun _ => "") 1700000000009
              1700000000010
              (setMessages (fun _ => inFlightTimeline) initialState)
              (mkMessage "1700000000000" "Hello" None user None None None None
                 None None None None None)
              [] eq_refl eq_refl eq_refl)).
Defined.

Lemma map_rewrite_none (a : string) (g : ChatSession -> ChatSession)
    (l : list ChatSession) :
  find (fun c => String.eqb (cs_id c) a) l = None ->
  map (fun c => if String.eqb (cs_id c) a then g c else c) l = l.
Proof.
  induction l as [| c l IH]; cbn; [reflexivity |].
  destruct (String.eqb (cs_id c) a); [discriminate |].
  intros H. rewrite (IH H). reflexivity.
Qed.

Lemma find_map_rewrite (a : string) (g : ChatSession -> ChatSession)
    (l : list ChatSession) :
  (forall c, cs_id (g c) = cs_id c) ->
  find (fun c => String.eqb (cs_id c) a)
       (map (fun c => if String.eqb (cs_id c) a then g c else c) l)
  = option_map g (find (fun c => String.eqb (cs_id c) a) l).
Proof.
  intros K. induction l as [| c l IH]; cbn; [reflexivity |].
  destruct (String.eqb (cs_id c) a) eqn:E.
  - rewrite K, E. reflexivity.
  - rewrite E. exact IH.
Qed.

Lemma updateSession_idem (json : list Message -> string) (t t' : Z)
    (a : string) (msgs : list Message) (prev : list ChatSession) :
  updateSession json t' a msgs (updateSession json t a msgs prev)
  = updateSession json t a msgs prev.
Proof.
  unfold updateSession at 2 3.
  destruct (find (fun s => String.eqb (cs_id s) a) prev) as [cur |] eqn:F.
  - destruct (String.eqb (json (cs_messages cur)) (json msgs)) eqn:J.
    + unfold updateSession. rewrite F, J. reflexivity.
    + unfold updateSession.
      rewrite (find_map_rewrite a
                 (fun session =>
                    mkChatSession (cs_id session) (cs_title session) msgs t))
        by reflexivity.
      rewrite F. cbn [option_map cs_messages]. rewrite String.eqb_refl.
      reflexivity.
  - rewrite (map_rewrite_none a _ prev F).
    unfold updateSession. rewrite F. apply map_rewrite_none. exact F.
Qed.

Lemma setChatHistory_same (s : AppState) (h : list ChatSession) :
  h = chatHistory s -> setChatHistory (fun _ => h) s = s.
Proof. intros ->. destruct s; reflexivity. Qed.

Lemma find_app_fresh (a : string) (l : list ChatSession) (c : ChatSession) :
  Forall (fun x => cs_id x <> a) l -> cs_id c = a ->
  find (fun x => String.eqb (cs_id x) a) (l ++ [c]) = Some c.
Proof.
  intros F E. induction F as [| x l N _ IH]; cbn.
  - rewrite E, String.eqb_refl. reflexivity.
  - apply String.eqb_neq in N. rewrite N. exact IH.
Qed.

(** X17. The recording effect settles after one run: run again on its own
    result, at any later clock reading, it changes nothing; a finished turn
    is written once and the timestamp of its session is not bumped by
    re-runs.  (When the run creates a session, its id must not be the id of
    an older session.) *)
Theorem recording_settles_after_one_run (json : list Message -> string)
    (t_id t_ts t_id' t_ts' : Z) (s : AppState) :
  truthy_opt (activeChatId s) = true
  \/ Forall (fun c => cs_id c <> toString t_id) (chatHistory s) ->
  recordTurnEffect json t_id' t_ts' (recordTurnEffect json t_id t_ts s)
  = recordTurnEffect json t_id t_ts s.
Proof.
  intros H. unfold recordTurnEffect at 2 3.
  destruct (isLoading s) eqn:Hload.
  { unfold recordTurnEffect. rewrite Hload. reflexivity. }
  destruct (filter isUser (messages s)) as [| first others] eqn:Hu.
  { unfold recordTurnEffect. rewrite Hload, Hu. reflexivity. }
  destruct (truthy_opt (activeChatId s)) eqn:Hact.
  - set (a := match activeChatId s with Some a => a | None => "" end).
    set (s1 := setChatHistory (updateSession json t_ts a (messages s)) s).
    assert (E1 : isLoading s1 = isLoading s) by reflexivity.
    assert (E2 : messages s1 = messages s) by reflexivity.
    assert (E3 : activeChatId s1 = activeChatId s) by reflexivity.
    unfold recordTurnEffect. rewrite E1, E2, E3, Hload, Hu, Hact. fold a.
    unfold s1, setChatHistory. cbn. rewrite updateSession_idem. reflexivity.
  - destruct H as [H | Fresh]; [discriminate H |].
    cbv zeta. cbn [cs_id].
    set (new := mkChatSession (toString t_id) (sessionTitle (text first))
                  (messages s) t_ts).
    set (s1 := setActiveChatId (Some (toString t_id))
                 (setChatHistory (fun prev => (prev ++ [new])%list) s)).
    assert (E1 : isLoading s1 = isLoading s) by reflexivity.
    assert (E2 : messages s1 = messages s) by reflexivity.
    assert (E3 : activeChatId s1 = Some (toString t_id)) by reflexivity.
    assert (E4 : chatHistory s1 = (chatHistory s ++ [new])%list)
      by reflexivity.
    unfold recordTurnEffect. rewrite E1, E2, E3, Hload, Hu.
    cbn [truthy_opt]. rewrite toString_truthy.
    assert (U : updateSession json t_ts' (toString t_id) (messages s)
                  (chatHistory s1) = chatHistory s1).
    { rewrite E4. unfold updateSession.
      rewrite (find_app_fresh (toString t_id) (chatHistory s) new Fresh
                 eq_refl).
      cbn [cs_messages new]. rewrite String.eqb_refl. reflexivity. }
    unfold setChatHistory at 1. rewrite U. destruct s1; reflexivity.
Qed.

Lemma recording_settles_after_one_run_witness :
  Forall (fun c => cs_id c <> toString 1700000000009)
         (chatHistory (setMessages (fun _ => inFlightTimeline) initialState))
  /\ chatHistory
       (recordTurnEffect (fun _ => "") 1700000000020 1700000000021
          (recordTurnEffect (fun _ => "") 1700000000009 1700000000010
             (setMessages (fun _ => inFlightTimeline) initialState)))
     = [mkChatSession "1700000000009" "Hello" inFlightTimeline 1700000000010].
Proof.
  split; [constructor |].
  rewrite (recording_settles_after_one_run (fun _ => "") 1700000000009
             1700000000010 1700000000020 1700000000021
             (setMessages (fun _ => inFlightTimeline) initialState)
             (or_intror (Forall_nil _))).
  reflexivity.
Defined.

Lemma sessionKept_refl (active : option string) (l : list ChatSession) :
  Forall2 (sessionKept active) l l.
Proof. induction l; constructor; auto. repeat split. Qed.

Lemma sessionKept_rewrite (a : string) (msgs : list Message) (t : Z)
    (l : list ChatSession) :
  Forall2 (sessionKept (Some a)) l
    (map (fun session =>
            if String.eqb (cs_id session) a
            then mkChatSession (cs_id session) (cs_title session) msgs t
            else session) l).
Proof.
  induction l as [| c l IH]; cbn; constructor; [| exact IH].
  destruct (String.eqb (cs_id c) a) eqn:E; [| repeat split].
  apply String.eqb_eq in E. repeat split. intros N. congruence.
Qed.

(** X18. The recording effect never removes or reorders a session and never
    changes an id or a title: the list afterwards is the old list, position
    by position with the same ids and titles, followed by at most one new
    session; a session other than the active one is left exactly as it
    was. *)
Theorem recording_keeps_sessions (json : list Message -> string)
    (t_id t_ts : Z) (s : AppState) :
  exists kept added,
    chatHistory (recordTurnEffect json t_id t_ts s) = (kept ++ added)%list
    /\ Forall2 (sessionKept (activeChatId s)) (chatHistory s) kept
    /\ List.length added <= 1
    /\ (truthy_opt (activeChatId s) = true -> added = [])
    /\ messages (recordTurnEffect json t_id t_ts s) = messages s.
Proof.
  unfold recordTurnEffect.
  destruct (isLoading s).
  { exists (chatHistory s), []. rewrite app_nil_r.
    repeat split; [apply sessionKept_refl | cbn; lia]. }
  destruct (filter isUser (messages s)) as [| first others].
  { exists (chatHistory s), []. rewrite app_nil_r.
    repeat split; [apply sessionKept_refl | cbn; lia]. }
  destruct (activeChatId s) as [a |] eqn:Ha; cbn [truthy_opt].
  - destruct (truthy a) eqn:Ta.
    + eexists. exists []. rewrite app_nil_r. cbn [chatHistory setChatHistory].
      split; [reflexivity |].
      split; [| split; [cbn; lia | split; reflexivity]].
      unfold updateSession.
      destruct (find (fun s0 => String.eqb (cs_id s0) a) (chatHistory s))
        as [cur |].
      * destruct (String.eqb (json (cs_messages cur)) (json (messages s)));
          [apply sessionKept_refl | apply sessionKept_rewrite].
      * apply sessionKept_rewrite.
    + eexists. eexists. cbn. split; [reflexivity |].
      split; [apply sessionKept_refl |].
      split; [cbn; lia | split; [discriminate | reflexivity]].
  - eexists. eexists. cbn. split; [reflexivity |].
    split; [apply sessionKept_refl |].
    split; [cbn; lia | split; [discriminate | reflexivity]].
Qed.

Lemma find_id_some (a : string) (l : list ChatSession) (c : ChatSession) :
  find (fun x => String.eqb (cs_id x) a) l = Some c -> cs_id c = a /\ In c l.
Proof.
  intros H. apply find_some in H. destruct H as [I E].
  apply String.eqb_eq in E. split; assumption.
Qed.

(** X19. Loading a session that is in the list makes its messages the
    timeline and its id the active id; with a provider client and a chat
    model the chat object is rebuilt with the current toggles and a history
    that mirrors the stored messages one to one and in order: the same
    length, and at each position the role of the sender ([user] for the user,
    [model] for the assistant) with the text of the message.  Loading an id
    that is not in the list changes nothing. *)
Theorem load_chat_rebuilds_history_in_order (sessionId : string)
    (s : AppState) :
  (forall session,
      find (fun c => String.eqb (cs_id c) sessionId) (chatHistory s)
      = Some session ->
      let s' := handleLoadChat sessionId s in
      messages s' = cs_messages session
      /\ activeChatId s' = Some sessionId
      /\ chatHistory s' = chatHistory s
      /\ (aiRef s = true -> isChatModel (model s) = true ->
          exists chat,
            chatRef s' = Some chat
            /\ chat_model chat = model s
            /\ chat_config chat
               = buildConfig (model s) (isSearchEnabled s)
                   (isThinkingEnabled s) (isTurboEnabled s)
            /\ List.length (chat_history chat)
               = List.length (cs_messages session)
            /\ forall i m,
                 nth_error (cs_messages session) i = Some m ->
                 nth_error (chat_history chat) i
                 = Some (mkContent
                           (match sender m with
                            | user => role_user
                            | bot => role_model
                            end) (text m)))
      /\ (aiRef s = false \/ isChatModel (model s) = false ->
          chatRef s' = chatRef s))
  /\ (find (fun c => String.eqb (cs_id c) sessionId) (chatHistory s) = None ->
      handleLoadChat sessionId s = s).
Proof.
  split.
  - intros session F. cbv zeta. unfold handleLoadChat. rewrite F.
    destruct (find_id_some _ _ _ F) as [Eid _].
    split; [destruct (aiRef s && isChatModel (model s)); reflexivity |].
    split; [destruct (aiRef s && isChatModel (model s)); cbn;
            rewrite Eid; reflexivity |].
    split; [destruct (aiRef s && isChatModel (model s)); reflexivity |].
    split.
    + intros Hai Hc. rewrite Hai, Hc. cbn [andb].
      unfold initializeChat. rewrite ?Hai, ?Hc. cbn [negb orb].
      eexists. split; [reflexivity |]. cbn [chat_model chat_config chat_history].
      split; [reflexivity |]. split; [reflexivity |].
      split; [apply length_map |].
      intros i m Hm. rewrite nth_error_map, Hm. reflexivity.
    + intros [Hai | Hc].
      * rewrite Hai. reflexivity.
      * rewrite Hc, andb_false_r. reflexivity.
  - intros F. unfold handleLoadChat. rewrite F. reflexivity.
Qed.

Lemma load_chat_rebuilds_history_in_order_witness :
  find (fun c => String.eqb (cs_id c) "3") sixSessions
  = Some (sampleSession "3")
  /\ messages
       (handleLoadChat "3"
          (setChatHistory (fun _ => sixSessions)
             (readyState gemini_2_5_flash false false false)))
     = cs_messages (sampleSession "3").
Proof.
  split; [reflexivity |].
  exact (proj1
           (proj1
              (load_chat_rebuilds_history_in_order "3"
                 (setChatHistory (fun _ => sixSessions)
                    (readyState gemini_2_5_flash false false false)))
              (sampleSession "3") eq_refl)).
Defined.

(** X20. Opening a stored session does not rewrite the store: after
    [handleLoadChat] on a session of the list (with a non-empty id, no turn
    in flight), the recording effect leaves the session list exactly as it
    was, so the session's messages and timestamp are untouched. *)
Theorem load_chat_does_not_touch_history (json : list Message -> string)
    (t_id t_ts : Z) (sessionId : string) (s : AppState)
    (session : ChatSession) :
  isLoading s = false ->
  truthy sessionId = true ->
  find (fun c => String.eqb (cs_id c) sessionId) (chatHistory s)
  = Some session ->
  chatHistory (recordTurnEffect json t_id t_ts (handleLoadChat sessionId s))
  = chatHistory s
  /\ activeChatId
       (recordTurnEffect json t_id t_ts (handleLoadChat sessionId s))
     = Some sessionId.
Proof.
  intros Hload Hid F.
  destruct (find_id_some _ _ _ F) as [Eid _].
  set (s1 := handleLoadChat sessionId s).
  assert (E1 : isLoading s1 = false).
  { subst s1. unfold handleLoadChat. rewrite F.
    destruct (aiRef s && isChatModel (model s)); exact Hload. }
  assert (E2 : messages s1 = cs_messages session).
  { subst s1. unfold handleLoadChat. rewrite F.
    destruct (aiRef s && isChatModel (model s)); reflexivity. }
  assert (E3 : activeChatId s1 = Some sessionId).
  { subst s1. unfold handleLoadChat. rewrite F.
    destruct (aiRef s && isChatModel (model s)); cbn; rewrite Eid;
      reflexivity. }
  assert (E4 : chatHistory s1 = chatHistory s).
  { subst s1. unfold handleLoadChat. rewrite F.
    destruct (aiRef s && isChatModel (model s)); reflexivity. }
  unfold recordTurnEffect. rewrite E1, E2, E3. cbn [truthy_opt]. rewrite Hid.
  destruct (filter isUser (cs_messages session)); [split; assumption |].
  cbn [chatHistory setChatHistory activeChatId]. rewrite E3, E4.
  split; [| reflexivity].
  unfold updateSession. rewrite F, String.eqb_refl. reflexivity.
Qed.

Lemma load_chat_does_not_touch_history_witness :
  truthy "3" = true
  /\ chatHistory
       (recordTurnEffect (fun _ => "") 1700000000020 1700000000021
          (handleLoadChat "3"
             (setChatHistory (fun _ => sixSessions)
                (readyState gemini_2_5_flash false false false))))
     = sixSessions.
Proof.
  split; [reflexivity |].
  exact (proj1
           (load_chat_does_not_touch_history (fun _ => "") 1700000000020
              1700000000021 "3"
              (setChatHistory (fun _ => sixSessions)
                 (readyState gemini_2_5_flash false false false))
              (sampleSession "3") eq_refl eq_refl eq_refl)).
Defined.

(** X21. Starting a new chat, or changing the model, empties the timeline
    without writing anything to the session list: the recording effect that
    follows is a no-op, the sessions recorded so far are all kept, no session
    is active, and a new chat keeps the model and the three toggles and
    starts the chat object (when there is one to build) from an empty
    history. *)
Theorem new_chat_records_nothing (json : list Message -> string)
    (t_id t_ts : Z) (newModel : ModelType) (s : AppState) :
  recordTurnEffect json t_id t_ts (handleNewChat s) = handleNewChat s
  /\ chatHistory (handleNewChat s) = chatHistory s
  /\ activeChatId (handleNewChat s) = None
  /\ messages (handleNewChat s) = []
  /\ model (handleNewChat s) = model s
  /\ isSearchEnabled (handleNewChat s) = isSearchEnabled s
  /\ isThinkingEnabled (handleNewChat s) = isThinkingEnabled s
  /\ isTurboEnabled (handleNewChat s) = isTurboEnabled s
  /\ (aiRef s = true -> isChatModel (model s) = true ->
      chatRef (handleNewChat s)
      = Some (mkChat (model s)
                (buildConfig (model s) (isSearchEnabled s)
                   (isThinkingEnabled s) (isTurboEnabled s)) []))
  /\ (model s <> newModel ->
      recordTurnEffect json t_id t_ts (handleModelChange newModel s)
      = handleModelChange newModel s).
Proof.
  split.
  { unfold recordTurnEffect.
    destruct (isLoading (handleNewChat s)); reflexivity. }
  repeat split.
  - intros Hai Hc. unfold handleNewChat, initializeChat.
    cbn [chatRef setChatRef]. rewrite Hai, Hc. reflexivity.
  - intros N. unfold handleModelChange.
    rewrite (ModelType_eqb_neq _ _ N). cbn [negb].
    unfold recordTurnEffect.
    destruct s as [ms ld md ar vm se th tu sf lg sb ch ac ai cr ft rv].
    destruct newModel, sf; reflexivity.
Qed.

Lemma new_chat_records_nothing_witness :
  model busyState <> imagen_4_0_generate_001
  /\ recordTurnEffect (fun _ => "") 1700000000020 1700000000021
       (handleModelChange imagen_4_0_generate_001 busyState)
     = handleModelChange imagen_4_0_generate_001 busyState.
Proof.
  assert (N : model busyState <> imagen_4_0_generate_001)
    by (cbn; discriminate).
  split; [exact N |].
  exact (proj2 (proj2 (proj2 (proj2 (proj2 (proj2 (proj2 (proj2 (proj2
           (new_chat_records_nothing (fun _ => "") 1700000000020
              1700000000021 imagen_4_0_generate_001 busyState))))))))) N).
Defined.

(** ** The sidebar *)

Lemma insertSession_perm (x : ChatSession) (l : list ChatSession) :
  Permutation (Sidebar.insertSession x l) (x :: l).
Proof.
  induction l as [| y l IH]; cbn; [apply Permutation_refl |].
  destruct (Z.leb (cs_timestamp y) (cs_timestamp x));
    [apply Permutation_refl |].
  eapply Permutation_trans; [apply perm_skip; exact IH | apply perm_swap].
Qed.

Lemma insertSession_sorted (x : ChatSession) (l : list ChatSession) :
  Sorted timestampOrder l -> Sorted timestampOrder (Sidebar.insertSession x l).
Proof.
  induction 1 as [| y l S IH H]; cbn.
  - constructor; constructor.
  - destruct (Z.leb (cs_timestamp y) (cs_timestamp x)) eqn:E.
    + constructor; [constructor; assumption |].
      constructor. unfold timestampOrder. apply Z.leb_le. exact E.
    + constructor; [exact IH |].
      apply Z.leb_gt in E.
      destruct l as [| z l]; cbn.
      * constructor. unfold timestampOrder. lia.
      * inversion H as [| ? ? Hyz]; subst.
        destruct (Z.leb (cs_timestamp z) (cs_timestamp x));
          constructor; unfold timestampOrder in *; lia.
Qed.

Lemma insertSession_filter (t : Z) (x : ChatSession) (l : list ChatSession) :
  filter (hasTimestamp t) (Sidebar.insertSession x l)
  = filter (hasTimestamp t) (x :: l).
Proof.
  induction l as [| y l IH]; [reflexivity |].
  cbn [Sidebar.insertSession].
  destruct (Z.leb (cs_timestamp y) (cs_timestamp x)) eqn:E; [reflexivity |].
  apply Z.leb_gt in E. cbn [filter] in *. rewrite IH.
  unfold hasTimestamp.
  destruct (Z.eqb (cs_timestamp x) t) eqn:Ex; [| reflexivity].
  apply Z.eqb_eq in Ex.
  assert (Ey : Z.eqb (cs_timestamp y) t = false) by (apply Z.eqb_neq; lia).
  rewrite Ey. reflexivity.
Qed.

(** X22. The sidebar lists the sessions newest first without touching the
    list it is given: the displayed list is a permutation of the history,
    its timestamps never increase from one entry to the next, and sessions
    with the same timestamp keep the order they have in the history. *)
Theorem sidebar_lists_newest_first (history : list ChatSession) :
  Permutation (Sidebar.sortedHistory history) history
  /\ Sorted timestampOrder (Sidebar.sortedHistory history)
  /\ forall t,
       filter (hasTimestamp t) (Sidebar.sortedHistory history)
       = filter (hasTimestamp t) history.
Proof.
  unfold Sidebar.sortedHistory.
  induction history as [| x h (P & S & F)]; cbn [fold_right].
  - repeat split; constructor.
  - split; [| split].
    + eapply Permutation_trans; [apply insertSession_perm |].
      apply perm_skip. exact P.
    + apply insertSession_sorted. exact S.
    + intros t. rewrite insertSession_filter. cbn [filter]. rewrite F.
      reflexivity.
Qed.

(** ** The input box and the send handler *)

Lemma send_touches (env : Env) (t_user t_bot : Z) (text : string)
    (s : AppState) (uploaded : option string) :
  isLoading s = false ->
  truthy (trim text) = true \/ stagedFile s <> None ->
  readUpload env s = Ok uploaded ->
  touchesOnly (botMessageId t_bot)
    (messages s ++ [userMessage t_user text uploaded;
                    initialBotMessage t_bot s])%list
    (messages (fst (handleSendMessage env t_user t_bot text s))).
Proof.
  intros Hload Hguard Hup.
  rewrite (send_unfold env t_user t_bot text s uploaded Hload Hguard Hup).
  pose proof (tryBlock_touches env text (botMessageId t_bot) (fileToSend s)
                (continuousEditImage s) (shouldUseThinkingMode s)
                (enterTry t_user t_bot text uploaded s)) as T.
  destruct (enterTry_frame t_user t_bot text uploaded s) as (M3 & _).
  rewrite M3, <- app_assoc in T. cbn [app] in T.
  unfold settle.
  destruct (tryBlock env text (botMessageId t_bot) (fileToSend s)
              (continuousEditImage s) (shouldUseThinkingMode s)
              (enterTry t_user t_bot text uploaded s)) as [s4 r].
  cbn [fst snd] in *. destruct r; [exact T |]. unfold catchBlock. touches.
Qed.

(** X23. The input box and the handler apply the same test.  When the box
    does not forward the text, it keeps it, and a direct call of the handler
    would have been dropped too.  When it forwards the text, it clears the
    box, and the handler accepts the send: once the staged file is read, the
    user message with exactly that text is in the timeline. *)
Theorem input_box_forwards_what_the_handler_accepts (env : Env)
    (t_user t_bot : Z) (s : AppState) (i : ChatInput.InputState)
    (uploaded : option string) :
  let out := ChatInput.handleSend (stagedFile s) (isLoading s) i in
  (fst out = None ->
   snd out = i
   /\ handleSendMessage env t_user t_bot (ChatInput.inputValue i) s
      = (s, Resolved))
  /\ (forall t,
        fst out = Some t ->
        t = ChatInput.inputValue i
        /\ ChatInput.inputValue (snd out) = ""
        /\ ChatInput.isEnhanced (snd out) = false
        /\ (readUpload env s = Ok uploaded ->
            (t_user <= t_bot)%Z ->
            In (userMessage t_user t uploaded)
               (messages (fst (handleSendMessage env t_user t_bot t s))))).
Proof.
  cbv zeta. unfold ChatInput.handleSend.
  destruct (isLoading s) eqn:Hload.
  { rewrite andb_false_r. cbn [fst snd]. split; [| discriminate].
    intros _. split; [reflexivity |].
    unfold handleSendMessage. rewrite Hload. reflexivity. }
  cbn [negb]. rewrite andb_true_r.
  destruct (truthy (trim (ChatInput.inputValue i))
            || match stagedFile s with Some _ => true | None => false end)
    eqn:G; cbn [fst snd].
  - split; [discriminate |]. intros t [= <-].
    split; [reflexivity |]. split; [reflexivity |]. split; [reflexivity |].
    intros Hup Hclock.
    assert (Hguard : truthy (trim (ChatInput.inputValue i)) = true
                     \/ stagedFile s <> None).
    { apply orb_true_iff in G. destruct G as [G | G]; [left; exact G |].
      right. destruct (stagedFile s); [discriminate | discriminate G]. }
    pose proof (send_touches env t_user t_bot (ChatInput.inputValue i) s
                  uploaded Hload Hguard Hup) as T.
    apply Forall2_app_inv_l in T. destruct T as (l1 & l2 & _ & H2 & E).
    inversion H2 as [| u u' r2 r2' (_ & _ & _ & Eu) H2' ]; subst.
    rewrite E. apply in_or_app. right. left.
    apply Eu. cbn. unfold botMessageId.
    intros C. apply toString_inj in C. lia.
  - split; [| discriminate]. intros _. split; [reflexivity |].
    apply orb_false_iff in G. destruct G as [G1 G2].
    unfold handleSendMessage. rewrite Hload, G1. cbn [negb orb andb].
    destruct (stagedFile s); [discriminate G2 | reflexivity].
Qed.

Lemma input_box_forwards_what_the_handler_accepts_witness :
  fst (ChatInput.handleSend (stagedFile busyState) (isLoading busyState)
         (ChatInput.mkInputState "Again" false true)) = None
  /\ snd (ChatInput.handleSend (stagedFile busyState) (isLoading busyState)
            (ChatInput.mkInputState "Again" false true))
     = ChatInput.mkInputState "Again" false true.
Proof.
  split; [reflexivity |].
  exact (proj1
           (proj1
              (input_box_forwards_what_the_handler_accepts
                 (sampleEnv (Throw "offline")) 1700000000500 1700000000500
                 busyState (ChatInput.mkInputState "Again" false true) None)
              eq_refl)).
Defined.

(** X24. A transcript handed over by the voice view always closes the view;
    it reaches the timeline only through the send handler, so it is
    discarded when it is empty and also when a turn is in flight, in which
    case nothing but the voice flag changes. *)
Theorem voice_transcript_dropped_while_loading (env : Env) (t_user t_bot : Z)
    (text : string) (s : AppState) :
  isVoiceMode (onVoiceSend env t_user t_bot text s) = false
  /\ (truthy text = false \/ isLoading s = true ->
      onVoiceSend env t_user t_bot text s = setIsVoiceMode false s).
Proof.
  unfold onVoiceSend. split; [reflexivity |].
  intros [H | H].
  - rewrite H. reflexivity.
  - destruct (truthy text); [| reflexivity].
    unfold handleSendMessage. rewrite H. reflexivity.
Qed.

Lemma voice_transcript_dropped_while_loading_witness :
  isLoading busyState = true
  /\ messages
       (onVoiceSend (sampleEnv (Throw "offline")) 1700000000500 1700000000500
          "spoken words" busyState)
     = inFlightTimeline.
Proof.
  split; [reflexivity |].
  rewrite (proj2
             (voice_transcript_dropped_while_loading
                (sampleEnv (Throw "offline")) 1700000000500 1700000000500
                "spoken words" busyState) (or_intror eq_refl)).
  reflexivity.
Defined.

(** ** What the interface can reach *)

Lemma sameSettings_refl (s : AppState) : sameSettings s s.
Proof. unfold sameSettings. repeat split. Qed.

Lemma sameSettings_trans (a b c : AppState) :
  sameSettings a b -> sameSettings b c -> sameSettings a c.
Proof. unfold sameSettings. intuition congruence. Qed.

Lemma send_settings (env : Env) (t_user t_bot : Z) (text : string)
    (s : AppState) :
  sameSettings s (fst (handleSendMessage env t_user t_bot text s)).
Proof.
  unfold handleSendMessage.
  destruct (isLoading s
            || (negb (truthy (trim text))
                && match stagedFile s with Some _ => false | None => true end));
    [apply sameSettings_refl |].
  destruct (readUpload env s) as [uploaded | e]; [| apply sameSettings_refl].
  cbn [fst]. unfold settle.
  pose proof (tryBlock_frame env text (botMessageId t_bot) (fileToSend s)
                (continuousEditImage s) (shouldUseThinkingMode s)
                (enterTry t_user t_bot text uploaded s)) as (F & _).
  destruct (enterTry_cells t_user t_bot text uploaded s) as (S3 & _).
  destruct (tryBlock env text (botMessageId t_bot) (fileToSend s)
              (continuousEditImage s) (shouldUseThinkingMode s)
              (enterTry t_user t_bot text uploaded s)) as [s4 r].
  cbn [fst snd] in *.
  eapply sameSettings_trans; [exact S3 |].
  eapply sameSettings_trans; [exact F |].
  destruct r; unfold sameSettings; cbn; repeat split.
Qed.

Lemma fits_same (s s' : AppState) :
  model s' = model s ->
  isThinkingEnabled s' = isThinkingEnabled s ->
  isTurboEnabled s' = isTurboEnabled s ->
  togglesFitModel s -> togglesFitModel s'.
Proof.
  unfold togglesFitModel, bothOn. intros -> -> ->. tauto.
Qed.

Lemma fits_settings (s s' : AppState) :
  sameSettings s s' -> togglesFitModel s -> togglesFitModel s'.
Proof.
  intros (M & _ & _ & _ & T & U & _). apply fits_same; assumption.
Qed.

Lemma uiStep_fits (s : AppState) (e : UiEvent) :
  togglesFitModel s -> togglesFitModel (uiStep s e).
Proof.
  intros H.
  destruct e as [stored parse apiKey client | | | | newModel
                | sfile objectUrl | f objectUrl | | | sessionId
                | env t_user t_bot text | env t_user t_bot text
                | json t_id t_ts | ]; cbn [uiStep].
  - apply (fits_same s); [| | | exact H]; unfold mountEffect;
      destruct stored as [[h |] | ]; try destruct (truthy h);
      try destruct (parse h); destruct apiKey; cbn [negb];
      destruct client; reflexivity.
  - unfold ChatInput.clickSearch. destruct (isChatModel (model s)); [| exact H].
    apply (fits_same s); [reflexivity | reflexivity | reflexivity | exact H].
  - unfold ChatInput.clickThinking.
    destruct (ChatInput.isThinkingSupported (model s)) eqn:Sup; [| exact H].
    destruct H as [_ B]. split.
    + intros M. replace (model (onToggleThinking s)) with (model s) in M
        by (unfold onToggleThinking; destruct (negb (isThinkingEnabled s));
            reflexivity).
      rewrite M in Sup. discriminate Sup.
    + exact (applyOp_keeps_exclusive s ToggleThinking B).
  - unfold ChatInput.clickTurbo.
    destruct (ChatInput.isThinkingSupported (model s)) eqn:Sup; [| exact H].
    destruct H as [_ B]. split.
    + intros M. replace (model (onToggleTurbo s)) with (model s) in M
        by (unfold onToggleTurbo; destruct (negb (isTurboEnabled s));
            reflexivity).
      rewrite M in Sup. discriminate Sup.
    + exact (applyOp_keeps_exclusive s ToggleTurbo B).
  - destruct H as [F B]. split.
    + unfold handleModelChange.
      destruct (ModelType_eqb (model s) newModel) eqn:E; cbn [negb].
      * exact F.
      * destruct s as [ms ld md ar vm se th tu sf lg sb ch ac ai cr ft rv].
        destruct newModel, sf; cbn; intros M; try discriminate M;
          split; reflexivity.
    + exact (applyOp_keeps_exclusive s (ChangeModel newModel) B).
  - destruct H as [F B]. split.
    + unfold handleStageImageForEditing.
      destruct sfile; [cbn; intros M; discriminate M | exact F].
    + exact (applyOp_keeps_exclusive s (StageImageForEditing sfile objectUrl) B).
  - apply (fits_same s); [reflexivity | reflexivity | reflexivity | exact H].
  - apply (fits_same s); [| | | exact H];
      unfold handleClearStagedFile, revokeStaged; destruct (stagedFile s);
      reflexivity.
  - apply (fits_same s); [reflexivity | reflexivity | reflexivity | exact H].
  - apply (fits_same s); [| | | exact H];
      unfold Sidebar.handleLoadChatClick, Sidebar.onClose, handleLoadChat;
      destruct (match activeChatId s with
                | Some a => String.eqb sessionId a
                | None => false
                end);
      try reflexivity;
      destruct (find _ (chatHistory s)); try reflexivity;
      destruct (aiRef s && isChatModel (model s)); reflexivity.
  - exact (fits_settings _ _ (send_settings env t_user t_bot text s) H).
  - unfold onVoiceSend.
    apply (fits_same (if truthy text
                      then fst (handleSendMessage env t_user t_bot text s)
                      else s)); [reflexivity | reflexivity | reflexivity |].
    destruct (truthy text); [| exact H].
    exact (fits_settings _ _ (send_settings env t_user t_bot text s) H).
  - apply (fits_same s); [| | | exact H]; unfold recordTurnEffect;
      destruct (isLoading s); try reflexivity;
      destruct (filter isUser (messages s)); try reflexivity;
      destruct (truthy_opt (activeChatId s)); reflexivity.
  - apply (fits_same s); [reflexivity | reflexivity | reflexivity | exact H].
Qed.

(** X25. However the interface is driven (mount, allowed clicks on the three
    toggles, model selection, staging, new and loaded chats, sends, the
    effects), reasoning and turbo are never on together and both are off on
    gemini-1.5-flash.  So in every reachable state with a chat model and
    reasoning on, the model supports reasoning and the configuration that
    carries the reasoning instruction also carries the high budget. *)
Theorem interface_keeps_toggles_within_model (events : list UiEvent) :
  let s := uiRun events in
  togglesFitModel s
  /\ (isChatModel (model s) = true -> isThinkingEnabled s = true ->
      supportsThinking (model s) = true
      /\ thinkingConfig
           (buildConfig (model s) (isSearchEnabled s) (isThinkingEnabled s)
              (isTurboEnabled s))
         = Some (if ModelType_eqb (model s) gemini_3_pro_preview
                 then 16000 else 8192)%Z).
Proof.
  cbv zeta.
  assert (F : togglesFitModel (uiRun events)).
  { unfold uiRun.
    assert (G : forall s, togglesFitModel s ->
                          togglesFitModel (fold_left uiStep events s)).
    { induction events as [| e es IH]; intros s H; cbn [fold_left];
        [exact H | apply IH; apply uiStep_fits; exact H]. }
    apply G. split; [intros M; discriminate M | reflexivity]. }
  split; [exact F |].
  intros Hc Ht. destruct F as [F B]. unfold bothOn in B. rewrite Ht in B.
  cbn [andb] in B.
  assert (Sup : supportsThinking (model (uiRun events)) = true).
  { destruct (model (uiRun events)) eqn:M; try reflexivity;
      try discriminate Hc.
    destruct (F eq_refl) as [C _]. rewrite C in Ht. discriminate Ht. }
  split; [exact Sup |].
  unfold buildConfig. cbn [thinkingConfig]. rewrite Sup, B, Ht. reflexivity.
Qed.

Lemma interface_keeps_toggles_within_model_witness :
  isChatModel
    (model (uiRun [ClickTurbo; SelectModel gemini_3_pro_preview;
                   ClickThinking])) = true
  /\ thinkingConfig
       (buildConfig gemini_3_pro_preview false true false) = Some 16000%Z.
Proof.
  split; [reflexivity |].
  exact (proj2
           (proj2
              (interface_keeps_toggles_within_model
                 [ClickTurbo; SelectModel gemini_3_pro_preview; ClickThinking])
              eq_refl eq_refl)).
Defined.

(** ** What the first write persists *)

Lemma keptUrl_isDataUrl (u : option string) :
  Persistence.isDataUrl (keptUrl u) = false
  /\ keptUrl u = (if Persistence.isDataUrl u then None else u).
Proof.
  unfold keptUrl, Persistence.isDataUrl, startsWith.
  destruct u as [v |]; [| split; reflexivity].
  destruct (prefix "data:" v) eqn:E; [split; reflexivity |].
  rewrite E. split; reflexivity.
Qed.

Lemma cleanMsg_spec (m : Message) :
  sanitizedFrom m (Persistence.cleanMsg m)
  /\ noInlineImage (Persistence.cleanMsg m)
  /\ (noInlineImage m -> Persistence.cleanMsg m = m).
Proof.
  unfold sanitizedFrom, noInlineImage, Persistence.cleanMsg.
  destruct m as [i t th sd st md sg iu ar up gm stt tm]. cbn.
  destruct (keptUrl_isDataUrl iu) as (Ki & Ei).
  destruct (keptUrl_isDataUrl up) as (Ku & Eu).
  rewrite Ei, Eu.
  destruct (Persistence.isDataUrl iu) eqn:Di;
    destruct (Persistence.isDataUrl up) eqn:Du; cbn; rewrite ?Di, ?Du;
    repeat split; auto; intros [H1 H2]; discriminate.
Qed.

(** X26. The history handed to the first write is the session list with
    the same sessions in the same order (ids, titles, timestamps) and, in
    each, the same messages in the same order, each equal to the original
    field for field except for its two image fields: one that holds an
    inline [data:] URL is removed, and any other value is kept as it is.
    What is written holds no inline image, and sanitizing twice is sanitizing
    once.  When the store accepts the write, the effect stores exactly that
    serialization, logs nothing and changes nothing else. *)
Theorem first_write_persists_sanitized_history (Store : Type)
    (stringify : list ChatSession -> string)
    (setItem : string -> string -> Store -> exn Store)
    (w : Persistence.World Store) :
  let h := chatHistory (Persistence.app w) in
  let safe := Persistence.safeHistory h in
  Forall2 (fun c c' =>
             cs_id c' = cs_id c /\ cs_title c' = cs_title c
             /\ cs_timestamp c' = cs_timestamp c
             /\ Forall2 sanitizedFrom (cs_messages c) (cs_messages c'))
          h safe
  /\ Forall (fun c => Forall noInlineImage (cs_messages c)) safe
  /\ Persistence.safeHistory safe = safe
  /\ (forall st,
        setItem "chatHistory" (stringify safe) (Persistence.store w) = Ok st ->
        Persistence.saveEffect Store stringify setItem w
        = (Persistence.mkWorld (Persistence.app w) st (Persistence.console w),
           Ok tt)).
Proof.
  cbv zeta. split; [| split; [| split]].
  - unfold Persistence.safeHistory.
    induction (chatHistory (Persistence.app w)) as [| c l IH]; cbn;
      constructor; [| exact IH].
    cbn. repeat split.
    induction (cs_messages c) as [| m ms IHm]; cbn; constructor;
      [exact (proj1 (cleanMsg_spec m)) | exact IHm].
  - unfold Persistence.safeHistory. apply Forall_forall. intros c Hc.
    apply in_map_iff in Hc. destruct Hc as (c0 & <- & _). cbn.
    apply Forall_forall. intros m Hm.
    apply in_map_iff in Hm. destruct Hm as (m0 & <- & _).
    exact (proj1 (proj2 (cleanMsg_spec m0))).
  - unfold Persistence.safeHistory. rewrite map_map.
    apply map_ext. intros c. cbn. f_equal. rewrite map_map.
    apply map_ext. intros m.
    exact (proj2 (proj2 (cleanMsg_spec (Persistence.cleanMsg m)))
                 (proj1 (proj2 (cleanMsg_spec m)))).
  - intros st H.
    unfold Persistence.saveEffect, Persistence.try_catch, Persistence.bind,
      Persistence.read_chatHistory, Persistence.localStorage_setItem.
    rewrite H. reflexivity.
Qed.

Lemma first_write_persists_sanitized_history_witness :
  Persistence.quota_setItem "chatHistory"
    (Persistence.plain_stringify
       (Persistence.safeHistory
          (chatHistory (Persistence.app (sampleWorld 1000)))))
    (Persistence.store (sampleWorld 1000))
  = Ok (1000,
        [("chatHistory",
          Persistence.plain_stringify
            (Persistence.safeHistory
               (chatHistory (Persistence.app (sampleWorld 1000)))))])
  /\ Persistence.console
       (fst (Persistence.saveEffect Persistence.QuotaStore
               Persistence.plain_stringify Persistence.quota_setItem
               (sampleWorld 1000))) = [].
Proof.
  split; [reflexivity |].
  rewrite (proj2 (proj2 (proj2
             (first_write_persists_sanitized_history Persistence.QuotaStore
                Persistence.plain_stringify Persistence.quota_setItem
                (sampleWorld 1000)))) _ eq_refl).
  reflexivity.
Defined.

(** ** A staged file that cannot be read *)

(** X15. The staged file is read before the [try] block.  When that read
    fails, the handler rejects and leaves the whole state as it was: no user
    message, no placeholder, the loading flag not set, the file still staged
    and its URL not revoked.  The input box has forwarded the text and
    cleared itself all the same. *)
Theorem unreadable_file_rejects_before_any_change (env : Env)
    (t_user t_bot : Z) (s : AppState) (i : ChatInput.InputState)
    (staged : StagedFile) (e : string) :
  isLoading s = false ->
  stagedFile s = Some staged ->
  fileToDataURL env (file staged) = Throw e ->
  handleSendMessage env t_user t_bot (ChatInput.inputValue i) s
  = (s, Rejected e)
  /\ ChatInput.handleSend (stagedFile s) (isLoading s) i
     = (Some (ChatInput.inputValue i),
        ChatInput.mkInputState "" (ChatInput.isEnhancing i) false).
Proof.
  intros Hload Hst Hread. split.
  - unfold handleSendMessage, readUpload, fileToSend.
    rewrite Hload, Hst. cbn [orb andb option_map]. rewrite andb_false_r.
    rewrite Hread. reflexivity.
  - unfold ChatInput.handleSend. rewrite Hload, Hst.
    rewrite orb_true_r. reflexivity.
Qed.

Lemma unreadable_file_rejects_before_any_change_witness :
  isLoading stagedState = false
  /\ handleSendMessage unreadableEnv 1700000000000 1700000000000 "see file"
       stagedState
     = (stagedState, Rejected "NotReadableError").
Proof.
  split; [reflexivity |].
  exact (proj1
           (unreadable_file_rejects_before_any_change unreadableEnv
              1700000000000 1700000000000 stagedState
              (ChatInput.mkInputState "see file" false false)
              (mkStagedFile "blob:9" (mkFile "notes.txt" "text/plain" ""))
              "NotReadableError" eq_refl eq_refl eq_refl)).
Defined.

(** ** Aligned tags, on an instance *)

Lemma aligned_tags_are_parsed_witness :
  Forall plain ["Sure. "] /\ Forall plain ["step one; "; "step two"]
  /\ parseFragments true
       ["Sure. "; "<THOUGHT_PROCESS>"; "step one; "; "step two";
        "</THOUGHT_PROCESS>The answer."; " Bye."]
     = ("step one; step two", "Sure. The answer. Bye.").
Proof.
  assert (A : Forall plain ["Sure. "]) by (repeat constructor).
  assert (I : Forall plain ["step one; "; "step two"])
    by (repeat constructor).
  split; [exact A |]. split; [exact I |].
  exact (proj1
           (aligned_tags_are_parsed ["Sure. "] ["step one; "; "step two"]
              [" Bye."] "" "" "The answer." A I
              ltac:(repeat constructor) eq_refl eq_refl eq_refl)).
Defined.

Lemma recording_keeps_sessions_witness :
  exists kept added,
    chatHistory
      (recordTurnEffect (fun _ => "") 1700000000009 1700000000010
         (setMessages (fun _ => inFlightTimeline) initialState))
    = (kept ++ added)%list
    /\ List.length added <= 1.
Proof.
  destruct (recording_keeps_sessions (fun _ => "") 1700000000009
              1700000000010
              (setMessages (fun _ => inFlightTimeline) initialState))
    as (kept & added & E & _ & L & _).
  exists kept, added. split; assumption.
Defined.
